(** * jsonbird-websocket: the connection supervisor of [lib/WebSocketClient.js]

    A shallow embedding of the [WebSocketClient] class: its private record,
    the collaborators it drives (the JSONBird instance, its timers, the
    transports made by [createConnectionCallback]), the listeners registered
    on the client, and every method as a state-and-exception computation.

    JavaScript runs the class on one thread, so a method is a function from
    the state of the whole object graph to an outcome (a value or a thrown
    error) and the state left behind.  A thrown error does not roll anything
    back: the assignments made before the throw stay.

    The file has four parts: the class and its collaborators; the vocabulary
    of the properties; lemmas on the methods (invariants that hold whatever
    the listeners do, and what each method does when the listeners are
    quiet); the claims of the specification, C1 to C10. *)

From Stdlib Require Import ZArith List String Bool Lia.
From Stdlib Require DecimalString.
Import ListNotations.
Open Scope string_scope.
Open Scope list_scope.
Open Scope Z_scope.

(** ** Values *)

(** A JavaScript number as the class sees it: [Number.isInteger] tells the
    integral values from all others (fractions, NaN, the infinities), and only
    integral values are ever compared with a bound. *)
Inductive JsNumber : Type :=
| Int (z : Z)
| NotInteger.

(** Errors that travel as JavaScript exceptions. *)
Inductive Error : Type :=
| AssertionFailed (message : string)
    (* Error(message) raised by [assert] *)
| InvalidCloseCode (message : string) (number : JsNumber)
    (* the Error raised by [assertValidOutgoingCloseCode]; its text is
       message ++ " Invalid close code (" ++ number ++ "). It must be ..." *)
| Thrown (tag : nat)
    (* an error raised by code supplied by the caller *)
| StackExhausted.
    (* RangeError: the nesting of calls exceeded the stack *)

Inductive Result (A : Type) : Type :=
| Ok (a : A)
| Throw (e : Error).
Arguments Ok {A} a.
Arguments Throw {A} e.

(** lib/closeCodes.js *)
Module closeCodes.
Definition NORMAL : Z := 1000.
Definition GOING_AWAY : Z := 1001.
Definition PROTOCOL_ERROR : Z := 1002.
Definition UNSUPPORTED_DATA : Z := 1003.
Definition INVALID_PAYLOAD_DATA : Z := 1007.
Definition POLICY_VIOLATION : Z := 1008.
Definition MESSAGE_TOO_BIG : Z := 1009.
Definition MANDATORY_EXTENSION : Z := 1010.
Definition INTERNAL_ERROR : Z := 1011.
Definition SERVICE_RESTART : Z := 1012.
Definition TRY_AGAIN_LATER : Z := 1013.
End closeCodes.

(** Modelled from the spec: lib/readyState.js is required by the class but is
    not among the sources.  The spec gives a transport "a readiness state
    queryable as not-yet-open / open / closed"; the four names are those of
    the WebSocket API the module mirrors. *)
Inductive ReadyState : Type := CONNECTING | OPEN | CLOSING | CLOSED.

Definition ReadyState_eqb (a b : ReadyState) : bool :=
  match a, b with
  | CONNECTING, CONNECTING | OPEN, OPEN | CLOSING, CLOSING | CLOSED, CLOSED => true
  | _, _ => false
  end.

(** ** Events of the client *)

(** The argument of the [webSocketClose] event.  [reconnectDelay] is present
    only on the branch that schedules a reconnect. *)
Record CloseInfo : Type := {
  code : JsNumber;
  reason : string;
  closedByRemote : bool;
  willReconnect : bool;          (* the property named [reconnect] *)
  reconnectDelay : option Z
}.

Inductive Event : Type :=
| error (err : Error)
| protocolError (err : Error)
| pingSuccess (delay : Z)
| pingFail (consecutiveFails : Z) (err : Error)
| webSocketConnecting
| webSocketOpen
| webSocketError
| webSocketClose (info : CloseInfo).

Inductive EventName : Type :=
| on_error | on_protocolError | on_pingSuccess | on_pingFail
| on_webSocketConnecting | on_webSocketOpen | on_webSocketError
| on_webSocketClose.

Definition eventName (ev : Event) : EventName :=
  match ev with
  | error _ => on_error
  | protocolError _ => on_protocolError
  | pingSuccess _ => on_pingSuccess
  | pingFail _ _ => on_pingFail
  | webSocketConnecting => on_webSocketConnecting
  | webSocketOpen => on_webSocketOpen
  | webSocketError => on_webSocketError
  | webSocketClose _ => on_webSocketClose
  end.

(** ** Listeners

    [emit] runs the listeners of an event synchronously, so a listener can
    call back into the client while a method is still on the stack (the
    README's own example calls [rpc.stop()] from a [webSocketClose]
    listener).  A listener is the sequence of calls it makes on the client,
    chosen from the event it received. *)
Inductive Call : Type :=
| CallStart
| CallStop (code : JsNumber) (reason : string)
| CallStopDefault
| CallCloseConnection (code : JsNumber) (reason : string)
| CallThrow (err : Error).

Definition Listener : Type := Event -> list Call.

(** ** The object graph *)

(** What a timer does when it fires: the two closures handed to
    [rpc.setTimeout].  The connect-timeout closure captures the transport and
    the timeout of its [_connect]. *)
Inductive TimerCallback : Type :=
| connectTimeoutTimer_callback (webSocket : nat) (connectTimeout : Z)
| reconnectTimer_callback.

Record Timer : Type := {
  timer_callback : TimerCallback;
  timer_delay : Z;
  timer_cleared : bool
}.

(** A transport made by [createConnectionCallback]: its [readyState], and the
    arguments of the calls made on it. *)
Record WebSocket : Type := {
  readyState : ReadyState;
  close_args : list (JsNumber * string);
  send_args : list string
}.

(** The JSONBird instance [this.rpc], as far as the class drives it. *)
Record Rpc : Type := {
  isPaused : bool;
  isSendingPings : bool;
  pingInterval : Z;
  firstPingInterval : option Z;   (* the interval in force at [startPinging] *)
  timers : list Timer;            (* [rpc.setTimeout]; the handle is the index *)
  written : list string           (* [rpc.write] *)
}.

(** [this[PRIVATE]] *)
Record Private : Type := {
  (* settings *)
  url : string;
  createConnectionCallback : string -> Result unit;
  reconnect : bool;
  reconnectDelayCallback : Z -> Result Z;
  reconnectCounterMax : Z;
  connectTimeout : Z;
  consecutivePingFailClose : Z;
  timeoutCloseCode : JsNumber;
  internalErrorCloseCode : JsNumber;
  (* state *)
  started : bool;
  activeWebSocket : option nat;
  reconnectCounter : Z;
  hasHandledWebSocketClose : bool;
  reconnectTimer : option nat;
  connectTimeoutTimer : option nat
}.

Record Client : Type := {
  private : Private;
  rpc : Rpc;
  sockets : list WebSocket;                 (* every transport made so far *)
  listeners : EventName -> list Listener;   (* registered with [on] *)
  emitted : list Event;                     (* every [this.emit], in order *)
  delayCalls : list Z                       (* arguments given to
                                               [reconnectDelayCallback] *)
}.

(** ** Assignments

    One function per assigned property: [set_f v x] is [x] after [x.f = v]. *)

Definition set_url v (p : Private) : Private :=
  {| url := v; createConnectionCallback := createConnectionCallback p;
     reconnect := reconnect p;
     reconnectDelayCallback := reconnectDelayCallback p;
     reconnectCounterMax := reconnectCounterMax p;
     connectTimeout := connectTimeout p;
     consecutivePingFailClose := consecutivePingFailClose p;
     timeoutCloseCode := timeoutCloseCode p;
     internalErrorCloseCode := internalErrorCloseCode p;
     started := started p; activeWebSocket := activeWebSocket p;
     reconnectCounter := reconnectCounter p;
     hasHandledWebSocketClose := hasHandledWebSocketClose p;
     reconnectTimer := reconnectTimer p;
     connectTimeoutTimer := connectTimeoutTimer p |}.

Definition set_createConnectionCallback v (p : Private) : Private :=
  {| url := url p; createConnectionCallback := v; reconnect := reconnect p;
     reconnectDelayCallback := reconnectDelayCallback p;
     reconnectCounterMax := reconnectCounterMax p;
     connectTimeout := connectTimeout p;
     consecutivePingFailClose := consecutivePingFailClose p;
     timeoutCloseCode := timeoutCloseCode p;
     internalErrorCloseCode := internalErrorCloseCode p;
     started := started p; activeWebSocket := activeWebSocket p;
     reconnectCounter := reconnectCounter p;
     hasHandledWebSocketClose := hasHandledWebSocketClose p;
     reconnectTimer := reconnectTimer p;
     connectTimeoutTimer := connectTimeoutTimer p |}.

Definition set_reconnect v (p : Private) : Private :=
  {| url := url p; createConnectionCallback := createConnectionCallback p;
     reconnect := v; reconnectDelayCallback := reconnectDelayCallback p;
     reconnectCounterMax := reconnectCounterMax p;
     connectTimeout := connectTimeout p;
     consecutivePingFailClose := consecutivePingFailClose p;
     timeoutCloseCode := timeoutCloseCode p;
     internalErrorCloseCode := internalErrorCloseCode p;
     started := started p; activeWebSocket := activeWebSocket p;
     reconnectCounter := reconnectCounter p;
     hasHandledWebSocketClose := hasHandledWebSocketClose p;
     reconnectTimer := reconnectTimer p;
     connectTimeoutTimer := connectTimeoutTimer p |}.

Definition set_reconnectDelayCallback v (p : Private) : Private :=
  {| url := url p; createConnectionCallback := createConnectionCallback p;
     reconnect := reconnect p; reconnectDelayCallback := v;
     reconnectCounterMax := reconnectCounterMax p;
     connectTimeout := connectTimeout p;
     consecutivePingFailClose := consecutivePingFailClose p;
     timeoutCloseCode := timeoutCloseCode p;
     internalErrorCloseCode := internalErrorCloseCode p;
     started := started p; activeWebSocket := activeWebSocket p;
     reconnectCounter := reconnectCounter p;
     hasHandledWebSocketClose := hasHandledWebSocketClose p;
     reconnectTimer := reconnectTimer p;
     connectTimeoutTimer := connectTimeoutTimer p |}.

Definition set_reconnectCounterMax v (p : Private) : Private :=
  {| url := url p; createConnectionCallback := createConnectionCallback p;
     reconnect := reconnect p;
     reconnectDelayCallback := reconnectDelayCallback p;
     reconnectCounterMax := v; connectTimeout := connectTimeout p;
     consecutivePingFailClose := consecutivePingFailClose p;
     timeoutCloseCode := timeoutCloseCode p;
     internalErrorCloseCode := internalErrorCloseCode p;
     started := started p; activeWebSocket := activeWebSocket p;
     reconnectCounter := reconnectCounter p;
     hasHandledWebSocketClose := hasHandledWebSocketClose p;
     reconnectTimer := reconnectTimer p;
     connectTimeoutTimer := connectTimeoutTimer p |}.

Definition set_connectTimeout v (p : Private) : Private :=
  {| url := url p; createConnectionCallback := createConnectionCallback p;
     reconnect := reconnect p;
     reconnectDelayCallback := reconnectDelayCallback p;
     reconnectCounterMax := reconnectCounterMax p; connectTimeout := v;
     consecutivePingFailClose := consecutivePingFailClose p;
     timeoutCloseCode := timeoutCloseCode p;
     internalErrorCloseCode := internalErrorCloseCode p;
     started := started p; activeWebSocket := activeWebSocket p;
     reconnectCounter := reconnectCounter p;
     hasHandledWebSocketClose := hasHandledWebSocketClose p;
     reconnectTimer := reconnectTimer p;
     connectTimeoutTimer := connectTimeoutTimer p |}.

Definition set_consecutivePingFailClose v (p : Private) : Private :=
  {| url := url p; createConnectionCallback := createConnectionCallback p;
     reconnect := reconnect p;
     reconnectDelayCallback := reconnectDelayCallback p;
     reconnectCounterMax := reconnectCounterMax p;
     connectTimeout := connectTimeout p; consecutivePingFailClose := v;
     timeoutCloseCode := timeoutCloseCode p;
     internalErrorCloseCode := internalErrorCloseCode p;
     started := started p; activeWebSocket := activeWebSocket p;
     reconnectCounter := reconnectCounter p;
     hasHandledWebSocketClose := hasHandledWebSocketClose p;
     reconnectTimer := reconnectTimer p;
     connectTimeoutTimer := connectTimeoutTimer p |}.

Definition set_timeoutCloseCode v (p : Private) : Private :=
  {| url := url p; createConnectionCallback := createConnectionCallback p;
     reconnect := reconnect p;
     reconnectDelayCallback := reconnectDelayCallback p;
     reconnectCounterMax := reconnectCounterMax p;
     connectTimeout := connectTimeout p;
     consecutivePingFailClose := consecutivePingFailClose p;
     timeoutCloseCode := v;
     internalErrorCloseCode := internalErrorCloseCode p;
     started := started p; activeWebSocket := activeWebSocket p;
     reconnectCounter := reconnectCounter p;
     hasHandledWebSocketClose := hasHandledWebSocketClose p;
     reconnectTimer := reconnectTimer p;
     connectTimeoutTimer := connectTimeoutTimer p |}.

Definition set_internalErrorCloseCode v (p : Private) : Private :=
  {| url := url p; createConnectionCallback := createConnectionCallback p;
     reconnect := reconnect p;
     reconnectDelayCallback := reconnectDelayCallback p;
     reconnectCounterMax := reconnectCounterMax p;
     connectTimeout := connectTimeout p;
     consecutivePingFailClose := consecutivePingFailClose p;
     timeoutCloseCode := timeoutCloseCode p; internalErrorCloseCode := v;
     started := started p; activeWebSocket := activeWebSocket p;
     reconnectCounter := reconnectCounter p;
     hasHandledWebSocketClose := hasHandledWebSocketClose p;
     reconnectTimer := reconnectTimer p;
     connectTimeoutTimer := connectTimeoutTimer p |}.

Definition set_started v (p : Private) : Private :=
  {| url := url p; createConnectionCallback := createConnectionCallback p;
     reconnect := reconnect p;
     reconnectDelayCallback := reconnectDelayCallback p;
     reconnectCounterMax := reconnectCounterMax p;
     connectTimeout := connectTimeout p;
     consecutivePingFailClose := consecutivePingFailClose p;
     timeoutCloseCode := timeoutCloseCode p;
     internalErrorCloseCode := internalErrorCloseCode p; started := v;
     activeWebSocket := activeWebSocket p;
     reconnectCounter := reconnectCounter p;
     hasHandledWebSocketClose := hasHandledWebSocketClose p;
     reconnectTimer := reconnectTimer p;
     connectTimeoutTimer := connectTimeoutTimer p |}.

Definition set_activeWebSocket v (p : Private) : Private :=
  {| url := url p; createConnectionCallback := createConnectionCallback p;
     reconnect := reconnect p;
     reconnectDelayCallback := reconnectDelayCallback p;
     reconnectCounterMax := reconnectCounterMax p;
     connectTimeout := connectTimeout p;
     consecutivePingFailClose := consecutivePingFailClose p;
     timeoutCloseCode := timeoutCloseCode p;
     internalErrorCloseCode := internalErrorCloseCode p;
     started := started p; activeWebSocket := v;
     reconnectCounter := reconnectCounter p;
     hasHandledWebSocketClose := hasHandledWebSocketClose p;
     reconnectTimer := reconnectTimer p;
     connectTimeoutTimer := connectTimeoutTimer p |}.

Definition set_reconnectCounter v (p : Private) : Private :=
  {| url := url p; createConnectionCallback := createConnectionCallback p;
     reconnect := reconnect p;
     reconnectDelayCallback := reconnectDelayCallback p;
     reconnectCounterMax := reconnectCounterMax p;
     connectTimeout := connectTimeout p;
     consecutivePingFailClose := consecutivePingFailClose p;
     timeoutCloseCode := timeoutCloseCode p;
     internalErrorCloseCode := internalErrorCloseCode p;
     started := started p; activeWebSocket := activeWebSocket p;
     reconnectCounter := v;
     hasHandledWebSocketClose := hasHandledWebSocketClose p;
     reconnectTimer := reconnectTimer p;
     connectTimeoutTimer := connectTimeoutTimer p |}.

Definition set_hasHandledWebSocketClose v (p : Private) : Private :=
  {| url := url p; createConnectionCallback := createConnectionCallback p;
     reconnect := reconnect p;
     reconnectDelayCallback := reconnectDelayCallback p;
     reconnectCounterMax := reconnectCounterMax p;
     connectTimeout := connectTimeout p;
     consecutivePingFailClose := consecutivePingFailClose p;
     timeoutCloseCode := timeoutCloseCode p;
     internalErrorCloseCode := internalErrorCloseCode p;
     started := started p; activeWebSocket := activeWebSocket p;
     reconnectCounter := reconnectCounter p; hasHandledWebSocketClose := v;
     reconnectTimer := reconnectTimer p;
     connectTimeoutTimer := connectTimeoutTimer p |}.

Definition set_reconnectTimer v (p : Private) : Private :=
  {| url := url p; createConnectionCallback := createConnectionCallback p;
     reconnect := reconnect p;
     reconnectDelayCallback := reconnectDelayCallback p;
     reconnectCounterMax := reconnectCounterMax p;
     connectTimeout := connectTimeout p;
     consecutivePingFailClose := consecutivePingFailClose p;
     timeoutCloseCode := timeoutCloseCode p;
     internalErrorCloseCode := internalErrorCloseCode p;
     started := started p; activeWebSocket := activeWebSocket p;
     reconnectCounter := reconnectCounter p;
     hasHandledWebSocketClose := hasHandledWebSocketClose p;
     reconnectTimer := v; connectTimeoutTimer := connectTimeoutTimer p |}.

Definition set_connectTimeoutTimer v (p : Private) : Private :=
  {| url := url p; createConnectionCallback := createConnectionCallback p;
     reconnect := reconnect p;
     reconnectDelayCallback := reconnectDelayCallback p;
     reconnectCounterMax := reconnectCounterMax p;
     connectTimeout := connectTimeout p;
     consecutivePingFailClose := consecutivePingFailClose p;
     timeoutCloseCode := timeoutCloseCode p;
     internalErrorCloseCode := internalErrorCloseCode p;
     started := started p; activeWebSocket := activeWebSocket p;
     reconnectCounter := reconnectCounter p;
     hasHandledWebSocketClose := hasHandledWebSocketClose p;
     reconnectTimer := reconnectTimer p; connectTimeoutTimer := v |}.

Definition set_isPaused v (r : Rpc) : Rpc :=
  {| isPaused := v; isSendingPings := isSendingPings r;
     pingInterval := pingInterval r;
     firstPingInterval := firstPingInterval r; timers := timers r;
     written := written r |}.

Definition set_isSendingPings v (r : Rpc) : Rpc :=
  {| isPaused := isPaused r; isSendingPings := v;
     pingInterval := pingInterval r;
     firstPingInterval := firstPingInterval r; timers := timers r;
     written := written r |}.

Definition set_pingInterval v (r : Rpc) : Rpc :=
  {| isPaused := isPaused r; isSendingPings := isSendingPings r;
     pingInterval := v; firstPingInterval := firstPingInterval r;
     timers := timers r; written := written r |}.

Definition set_firstPingInterval v (r : Rpc) : Rpc :=
  {| isPaused := isPaused r; isSendingPings := isSendingPings r;
     pingInterval := pingInterval r; firstPingInterval := v;
     timers := timers r; written := written r |}.

Definition set_timers v (r : Rpc) : Rpc :=
  {| isPaused := isPaused r; isSendingPings := isSendingPings r;
     pingInterval := pingInterval r;
     firstPingInterval := firstPingInterval r; timers := v;
     written := written r |}.

Definition set_written v (r : Rpc) : Rpc :=
  {| isPaused := isPaused r; isSendingPings := isSendingPings r;
     pingInterval := pingInterval r;
     firstPingInterval := firstPingInterval r; timers := timers r;
     written := v |}.

Definition set_readyState v (w : WebSocket) : WebSocket :=
  {| readyState := v; close_args := close_args w; send_args := send_args w |}.

Definition set_close_args v (w : WebSocket) : WebSocket :=
  {| readyState := readyState w; close_args := v; send_args := send_args w |}.

Definition set_send_args v (w : WebSocket) : WebSocket :=
  {| readyState := readyState w; close_args := close_args w; send_args := v |}.

Definition set_timer_cleared v (t : Timer) : Timer :=
  {| timer_callback := timer_callback t; timer_delay := timer_delay t;
     timer_cleared := v |}.

Definition set_private v (c : Client) : Client :=
  {| private := v; rpc := rpc c; sockets := sockets c;
     listeners := listeners c; emitted := emitted c;
     delayCalls := delayCalls c |}.

Definition set_rpc v (c : Client) : Client :=
  {| private := private c; rpc := v; sockets := sockets c;
     listeners := listeners c; emitted := emitted c;
     delayCalls := delayCalls c |}.

Definition set_sockets v (c : Client) : Client :=
  {| private := private c; rpc := rpc c; sockets := v;
     listeners := listeners c; emitted := emitted c;
     delayCalls := delayCalls c |}.

Definition set_listeners v (c : Client) : Client :=
  {| private := private c; rpc := rpc c; sockets := sockets c;
     listeners := v; emitted := emitted c; delayCalls := delayCalls c |}.

Definition set_emitted v (c : Client) : Client :=
  {| private := private c; rpc := rpc c; sockets := sockets c;
     listeners := listeners c; emitted := v; delayCalls := delayCalls c |}.

Definition set_delayCalls v (c : Client) : Client :=
  {| private := private c; rpc := rpc c; sockets := sockets c;
     listeners := listeners c; emitted := emitted c; delayCalls := v |}.

(** ** Computations: state and exceptions *)

Definition M (A : Type) : Type := Client -> Result A * Client.

Definition ret {A} (a : A) : M A := fun c => (Ok a, c).

Definition throw {A} (e : Error) : M A := fun c => (Throw e, c).

Definition bind {A B} (m : M A) (k : A -> M B) : M B :=
  fun c =>
    match m c with
    | (Ok a, c') => k a c'
    | (Throw e, c') => (Throw e, c')
    end.

Declare Scope js_scope.
Delimit Scope js_scope with js.
Notation "x <- m ;; k" := (bind m (fun x => k))
  (at level 61, m at next level, right associativity) : js_scope.
Notation "m ;; k" := (bind m (fun _ => k))
  (at level 61, right associativity) : js_scope.
Open Scope js_scope.

Definition get : M Client := fun c => (Ok c, c).

Definition modify (f : Client -> Client) : M unit := fun c => (Ok tt, f c).

(** [this[PRIVATE].f = v] *)
Definition assign (f : Private -> Private) : M unit :=
  modify (fun c => set_private (f (private c)) c).

(** a call on [this.rpc] that only changes the JSONBird instance *)
Definition on_rpc (f : Rpc -> Rpc) : M unit :=
  modify (fun c => set_rpc (f (rpc c)) c).

(** [try { body } catch (err) { handler(err) }] *)
Definition try_catch {A} (body : M A) (handler : Error -> M A) : M A :=
  fun c =>
    match body c with
    | (Ok a, c') => (Ok a, c')
    | (Throw e, c') => handler e c'
    end.

(** [try { body } finally { final }] *)
Definition try_finally {A} (body : M A) (final : M unit) : M A :=
  fun c =>
    match body c with
    | (Ok a, c') =>
        match final c' with
        | (Ok _, c'') => (Ok a, c'')
        | (Throw e, c'') => (Throw e, c'')
        end
    | (Throw e, c') =>
        match final c' with
        | (Ok _, c'') => (Throw e, c'')
        | (Throw e', c'') => (Throw e', c'')
        end
    end.

(** [cond && action] used as a statement *)
Definition when (cond : bool) (action : M unit) : M unit :=
  if cond then action else ret tt.

Fixpoint for_each {A} (l : list A) (body : A -> M unit) : M unit :=
  match l with
  | [] => ret tt
  | a :: l' => body a ;; for_each l' body
  end.

(** ** Helpers at the top of the file *)

Definition assert (condition : bool) (message : string) : M unit :=
  if condition then ret tt else throw (AssertionFailed message).

Definition isValidOutgoingCloseCode (number : JsNumber) : bool :=
  match number with
  | Int z => (z =? 1000) || ((3000 <=? z) && (z <=? 4999))
  | NotInteger => false                      (* Number.isInteger fails *)
  end.

Definition assertValidOutgoingCloseCode (number : JsNumber) (message : string)
  : M unit :=
  if isValidOutgoingCloseCode number then ret tt
  else throw (InvalidCloseCode message number).

(** ** Collaborators

    The calls the class makes on objects it does not define.  Each one does
    what the spec's interface section gives it and never throws. *)

(** [l[n] = f(l[n])] on an index that exists; nothing happens otherwise *)
Fixpoint nth_update {A} (n : nat) (f : A -> A) (l : list A) : list A :=
  match l, n with
  | [], _ => []
  | a :: l', O => f a :: l'
  | a :: l', S n' => a :: nth_update n' f l'
  end.

(** [this.rpc.setTimeout(callback, delay, id)]: the new timer's handle *)
Definition rpc_setTimeout (callback : TimerCallback) (delay : Z) : M nat :=
  c <- get ;;
  let handle := List.length (timers (rpc c)) in
  on_rpc (fun r => set_timers
    (timers r ++ [{| timer_callback := callback; timer_delay := delay;
                     timer_cleared := false |}]) r) ;;
  ret handle.

(** [this.rpc.clearTimeout(handle)] *)
Definition rpc_clearTimeout (handle : nat) : M unit :=
  on_rpc (fun r => set_timers
    (nth_update handle (set_timer_cleared true) (timers r)) r).

Definition rpc_pause : M unit := on_rpc (set_isPaused true).
Definition rpc_resume : M unit := on_rpc (set_isPaused false).
Definition rpc_stopPinging : M unit := on_rpc (set_isSendingPings false).
Definition rpc_resetPingStatistics : M unit := ret tt.
Definition rpc_startPinging : M unit :=
  on_rpc (fun r => set_isSendingPings true
                     (set_firstPingInterval (Some (pingInterval r)) r)).
Definition rpc_set_pingInterval (value : Z) : M unit :=
  on_rpc (set_pingInterval value).
Definition rpc_write (data : string) : M unit :=
  on_rpc (fun r => set_written (written r ++ [data]) r).

(** [activeWebSocket.close(code, reason)] and [activeWebSocket.send(data)] *)
Definition activeWebSocket_close (webSocket : nat) (code : JsNumber) (reason : string)
  : M unit :=
  modify (fun c => set_sockets
    (nth_update webSocket
       (fun w => set_close_args (close_args w ++ [(code, reason)]) w)
       (sockets c)) c).

Definition activeWebSocket_send (webSocket : nat) (data : string) : M unit :=
  modify (fun c => set_sockets
    (nth_update webSocket (fun w => set_send_args (send_args w ++ [data]) w)
       (sockets c)) c).

Definition webSocket_readyState (c : Client) (webSocket : nat) : option ReadyState :=
  option_map readyState (nth_error (sockets c) webSocket).

(** [this[PRIVATE].createConnectionCallback({WebSocket, url})]: the callback
    either throws or hands back a transport that did not exist before, in the
    state a [new WebSocket(url)] starts in. It does so without calling the
    client: a factory that calls [start], [stop] or [closeConnection] from
    inside is outside this model. *)
Definition call_createConnectionCallback (url : string) : M nat :=
  c <- get ;;
  match createConnectionCallback (private c) url with
  | Throw e => throw e
  | Ok _ =>
      let webSocket := List.length (sockets c) in
      modify (fun c => set_sockets (sockets c ++
        [{| readyState := CONNECTING; close_args := []; send_args := [] |}]) c) ;;
      ret webSocket
  end.

(** [reconnectDelayCallback(reconnectCounter)]: the callback returns a delay
    or throws, without calling the client: a backoff callback that calls
    [start], [stop] or [closeConnection] from inside is outside this
    model. *)
Definition call_reconnectDelayCallback (reconnectCounter : Z) : M Z :=
  modify (fun c => set_delayCalls (delayCalls c ++ [reconnectCounter]) c) ;;
  c <- get ;;
  match reconnectDelayCallback (private c) reconnectCounter with
  | Throw e => throw e
  | Ok reconnectDelay => ret reconnectDelay
  end.

(** ** The class [WebSocketClient] *)

Definition isSome {A} (o : option A) : bool :=
  match o with Some _ => true | None => false end.

(** Timer handles are objects (node.js) or positive integers (browsers):
    always truthy, so [if (timer)] only tells a handle from [null]. *)
Definition _clearReconnectTimer : M unit :=
  c <- get ;;
  match reconnectTimer (private c) with
  | Some timer => rpc_clearTimeout timer
  | None => ret tt
  end ;;
  assign (set_reconnectTimer None).

Definition _clearConnectTimeoutTimer : M unit :=
  c <- get ;;
  match connectTimeoutTimer (private c) with
  | Some timer => rpc_clearTimeout timer
  | None => ret tt
  end ;;
  assign (set_connectTimeoutTimer None).

(** [get hasActiveConnection] *)
Definition hasActiveConnection (c : Client) : bool :=
  started (private c) &&
  match activeWebSocket (private c) with
  | Some webSocket =>
      match webSocket_readyState c webSocket with
      | Some state => ReadyState_eqb state OPEN
      | None => false
      end
  | None => false
  end &&
  negb (isPaused (rpc c)).

(** [const isActive = () => this[PRIVATE].activeWebSocket === webSocket] *)
Definition isActive (webSocket : nat) : M bool :=
  c <- get ;;
  ret match activeWebSocket (private c) with
      | Some active => Nat.eqb active webSocket
      | None => false
      end.

(** The setters that validate. [value] is the number [Number(value)] gives. *)
Definition setter_timeoutCloseCode (value : JsNumber) : M unit :=
  let number := value in
  assertValidOutgoingCloseCode number "Invalid value for timeoutCloseCode:" ;;
  assign (set_timeoutCloseCode number).

Definition setter_internalErrorCloseCode (value : JsNumber) : M unit :=
  let number := value in
  assertValidOutgoingCloseCode number "Invalid value for internalErrorCloseCode:" ;;
  assign (set_internalErrorCloseCode number).

(** The setters that only coerce. *)
Definition setter_url (value : string) : M unit := assign (set_url value).
Definition setter_reconnect (value : bool) : M unit := assign (set_reconnect value).
Definition setter_consecutivePingFailClose (value : Z) : M unit :=
  assign (set_consecutivePingFailClose value).
Definition setter_connectTimeout (value : Z) : M unit :=
  assign (set_connectTimeout value).
Definition setter_reconnectCounterMax (value : Z) : M unit :=
  assign (set_reconnectCounterMax value).
(** The two setters that want a function. [typeof value === 'function']
    holds of every value of the argument's type: a value that is not a
    function, which the setter refuses with the message given, is not a value
    of this model. *)
Definition setter_createConnectionCallback (value : string -> Result unit) : M unit :=
  assert true "createConnectionCallback must be a function" ;;
  assign (set_createConnectionCallback value).
Definition setter_reconnectDelayCallback (value : Z -> Result Z) : M unit :=
  assert true "reconnectDelayCallback must be a function" ;;
  assign (set_reconnectDelayCallback value).

(** The methods call each other in a cycle ([stop] closes the connection,
    closing it calls [_webSocketClosed], which calls [stop] and [emit], and
    the listeners [emit] runs may call [start], [stop] or [closeConnection]
    again).  [Self] is [this] with one frame less of stack: the two calls that
    close the cycles, [this.stop()] inside [_webSocketClosed] and every
    [this.emit], go through it. *)
Record Self : Type := {
  self_emit : Event -> M unit;
  self_stop : JsNumber -> string -> M unit
}.

Section Methods.
Variable this : Self.

Definition _connect : M unit :=
  c <- get ;;
  assert (started (private c)) "_connect(): Should be started" ;;
  assert (negb (isSome (activeWebSocket (private c))))
         "_connect(): There already is an active connection" ;;
  let url := url (private c) in
  let connectTimeout := connectTimeout (private c) in
  _clearReconnectTimer ;;
  assign (set_hasHandledWebSocketClose false) ;;
  webSocket <- call_createConnectionCallback url ;;
  assign (set_activeWebSocket (Some webSocket)) ;;
  (* binaryType and the four addEventListener calls: see [webSocket_on_*] *)
  timer <- rpc_setTimeout
             (connectTimeoutTimer_callback webSocket connectTimeout)
             connectTimeout ;;
  assign (set_connectTimeoutTimer (Some timer)) ;;
  self_emit this webSocketConnecting.

Definition start : M unit :=
  c <- get ;;
  assert (negb (started (private c))) "start(): Already started" ;;
  assign (set_started true) ;;
  _connect.

Definition _webSocketClosed (code : JsNumber) (reason : string)
    (closedByRemote : bool) : M unit :=
  c <- get ;;
  if hasHandledWebSocketClose (private c) then ret tt
  else
    assign (set_activeWebSocket None) ;;
    _clearConnectTimeoutTimer ;;
    rpc_pause ;;
    rpc_stopPinging ;;
    c <- get ;;
    (if started (private c) && reconnect (private c) then
       let reconnectCounterMax := reconnectCounterMax (private c) in
       let reconnectCounter := reconnectCounter (private c) in
       reconnectDelay <- call_reconnectDelayCallback reconnectCounter ;;
       assign (set_reconnectCounter
                 (Z.min (reconnectCounter + 1) reconnectCounterMax)) ;;
       _clearReconnectTimer ;;
       timer <- rpc_setTimeout reconnectTimer_callback reconnectDelay ;;
       assign (set_reconnectTimer (Some timer)) ;;
       self_emit this (webSocketClose
         {| code := code; reason := reason; closedByRemote := closedByRemote;
            willReconnect := true; reconnectDelay := Some reconnectDelay |})
     else
       self_stop this (Int closeCodes.NORMAL) "Normal Closure" ;;
       self_emit this (webSocketClose
         {| code := code; reason := reason; closedByRemote := closedByRemote;
            willReconnect := false; reconnectDelay := None |})) ;;
    assign (set_hasHandledWebSocketClose true).

Definition closeConnection (code : JsNumber) (reason : string) : M bool :=
  assertValidOutgoingCloseCode code "closeConnection(): " ;;
  c <- get ;;
  let activeWebSocket := activeWebSocket (private c) in
  let hadConnection := isSome activeWebSocket in
  match activeWebSocket with
  | Some webSocket =>
      activeWebSocket_close webSocket code reason ;;
      _webSocketClosed code reason false
  | None => ret tt
  end ;;
  ret hadConnection.

(** [stop(code = closeCodes.NORMAL, reason = 'Normal Closure')] *)
Definition stop (code : JsNumber) (reason : string) : M unit :=
  assign (set_started false) ;;
  _clearReconnectTimer ;;
  rpc_stopPinging ;;
  _ <- closeConnection code reason ;;
  ret tt.

Definition stop_default : M unit :=
  stop (Int closeCodes.NORMAL) "Normal Closure".

(** What a listener does with the client. *)
Definition call (f : Call) : M unit :=
  match f with
  | CallStart => start
  | CallStop code reason => stop code reason
  | CallStopDefault => stop_default
  | CallCloseConnection code reason =>
      _ <- closeConnection code reason ;; ret tt
  | CallThrow err => throw err
  end.

(** [EventEmitter.prototype.emit]: the listeners run in the order they were
    registered and the first exception ends the emit; an [error] event
    nobody listens to is thrown. *)
Definition emit (ev : Event) : M unit :=
  modify (fun c => set_emitted (emitted c ++ [ev]) c) ;;
  c <- get ;;
  match listeners c (eventName ev), ev with
  | [], error err => throw err
  | registered, _ =>
      for_each registered (fun listener => for_each (listener ev) call)
  end.

Definition _wrapListener (func : M unit) : M unit :=
  try_catch func (fun err => self_emit this (error err)).

(** [`Timeout: Opening WebSocket took longer than ${connectTimeout}ms`],
    for a [connectTimeout] that is a safe integer (at most 2^53 - 1 in
    absolute value), which JavaScript prints digit by digit; larger numbers
    print rounded or with an exponent and are not covered. *)
Definition timeoutReason (connectTimeout : Z) : string :=
  ("Timeout: Opening WebSocket took longer than "
     ++ DecimalString.NilZero.string_of_int (Z.to_int connectTimeout)
     ++ "ms")%string.

Definition _handleConnectionTimeout (connectTimeout : Z) : M unit :=
  c <- get ;;
  _ <- closeConnection (timeoutCloseCode (private c))
         (timeoutReason connectTimeout) ;;
  ret tt.

Definition _handleRpcError (err : Error) : M unit :=
  c <- get ;;
  _ <- closeConnection (internalErrorCloseCode (private c))
         "Internal JSON-RPC error" ;;
  ret tt.

Definition _handleRpcPingSuccess (delay : Z) : M unit :=
  c <- get ;;
  assign (set_reconnectCounter (Z.max 0 (reconnectCounter (private c) - 1))).

Definition _handleRpcPingFail (consecutiveFails : Z) (err : Error) : M unit :=
  c <- get ;;
  if consecutiveFails >=? consecutivePingFailClose (private c) then
    _ <- closeConnection (timeoutCloseCode (private c))
           "Timeout: No responses received to ping calls" ;;
    ret tt
  else ret tt.

Definition _handleRpcData (data : string) : M unit :=
  c <- get ;;
  let activeWebSocket := activeWebSocket (private c) in
  assert (isSome activeWebSocket)
         "_handleRpcData(): Expected an active connection" ;;
  match activeWebSocket with
  | Some webSocket =>
      assert match webSocket_readyState c webSocket with
             | Some state => ReadyState_eqb state OPEN
             | None => false
             end
             "_handleRpcData(): Expected an open connection" ;;
      activeWebSocket_send webSocket data
  | None => ret tt
  end.

Definition _handleWebSocketOpen : M unit :=
  _clearConnectTimeoutTimer ;;
  _clearReconnectTimer ;;
  rpc_resume ;;
  c <- get ;;
  let pingInterval := pingInterval (rpc c) in
  try_finally
    (rpc_set_pingInterval 1 ;;      (* first ping as soon as possible *)
     rpc_resetPingStatistics ;;
     rpc_startPinging)
    (rpc_set_pingInterval pingInterval) ;;
  self_emit this webSocketOpen.

Definition _handleWebSocketError : M unit :=
  self_emit this webSocketError.

Definition _handleWebSocketClose (code : JsNumber) (reason : string) : M unit :=
  _webSocketClosed code reason true.

Definition _handleWebSocketMessage (data : string) : M unit :=
  rpc_write data.

(** The four listeners [_connect] adds to its transport. *)
Definition webSocket_on_open (webSocket : nat) : M unit :=
  _wrapListener (active <- isActive webSocket ;;
                 when active _handleWebSocketOpen).

Definition webSocket_on_error (webSocket : nat) : M unit :=
  _wrapListener (active <- isActive webSocket ;;
                 when active _handleWebSocketError).

Definition webSocket_on_close (webSocket : nat) (code : JsNumber)
    (reason : string) : M unit :=
  _wrapListener (active <- isActive webSocket ;;
                 when active (_handleWebSocketClose code reason)).

Definition webSocket_on_message (webSocket : nat) (data : string) : M unit :=
  _wrapListener (active <- isActive webSocket ;;
                 when active (_handleWebSocketMessage data)).

(** The two closures given to [rpc.setTimeout]; neither is wrapped. *)
Definition run_timer (callback : TimerCallback) : M unit :=
  match callback with
  | connectTimeoutTimer_callback webSocket connectTimeout =>
      active <- isActive webSocket ;;
      when active (_handleConnectionTimeout connectTimeout)
  | reconnectTimer_callback => _connect
  end.

(** The listeners the constructor adds to [this.rpc], in order, for each of
    JSONBird's events. *)
Definition rpc_on_error (err : Error) : M unit :=
  _wrapListener (_handleRpcError err) ;;
  self_emit this (error err).

Definition rpc_on_protocolError (err : Error) : M unit :=
  self_emit this (protocolError err).

Definition rpc_on_pingSuccess (delay : Z) : M unit :=
  _wrapListener (_handleRpcPingSuccess delay) ;;
  self_emit this (pingSuccess delay).

Definition rpc_on_pingFail (consecutiveFails : Z) (err : Error) : M unit :=
  _wrapListener (_handleRpcPingFail consecutiveFails err) ;;
  self_emit this (pingFail consecutiveFails err).

Definition rpc_on_data (data : string) : M unit :=
  _wrapListener (_handleRpcData data).
End Methods.

(** [this] with [depth] frames of stack left.  With none left every call
    fails the way JavaScript fails a call that does not fit on the stack. *)
Fixpoint this_at (depth : nat) : Self :=
  match depth with
  | O => {| self_emit := fun _ => throw StackExhausted;
            self_stop := fun _ _ => throw StackExhausted |}
  | S depth' => {| self_emit := emit (this_at depth');
                   self_stop := stop (this_at depth') |}
  end.

(** ** Construction *)

(** [Object.assign({}, DEFAULT_OPTIONS, opts)], with the option
    [jsonbird.pingInterval] the class reads back through [this.rpc]. *)
Record Options : Type := {
  opt_url : string;
  opt_createConnectionCallback : string -> Result unit;
  opt_reconnect : bool;
  opt_reconnectDelayCallback : Z -> Result Z;
  opt_reconnectCounterMax : Z;
  opt_connectTimeout : Z;
  opt_consecutivePingFailClose : Z;
  opt_timeoutCloseCode : JsNumber;
  opt_internalErrorCloseCode : JsNumber;
  opt_pingInterval : Z
}.

(** The two default callbacks depend on the platform's [WebSocket] and on
    [Math.random]; they are left to the caller here. *)
Definition DEFAULT_OPTIONS
    (defaultCreateConnectionCallback : string -> Result unit)
    (defaultReconnectDelayCallback : Z -> Result Z) : Options :=
  {| opt_url := "";
     opt_createConnectionCallback := defaultCreateConnectionCallback;
     opt_reconnect := true;
     opt_reconnectDelayCallback := defaultReconnectDelayCallback;
     opt_reconnectCounterMax := 8;
     opt_connectTimeout := 10000;
     opt_consecutivePingFailClose := 4;
     opt_timeoutCloseCode := Int 4100;
     opt_internalErrorCloseCode := Int 4101;
     opt_pingInterval := 2000 |}.

(** The object before the constructor's assignments: the sealed private
    record, a JSONBird instance that is not paused yet, no transport, no
    listener.  The two [null] callbacks are replaced before any use. *)
Definition sealed (options : Options) : Client :=
  {| private :=
       {| url := "";
          createConnectionCallback :=
            fun _ => Throw (AssertionFailed "createConnectionCallback is null");
          reconnect := false;
          reconnectDelayCallback :=
            fun _ => Throw (AssertionFailed "reconnectDelayCallback is null");
          reconnectCounterMax := 0;
          connectTimeout := 0;
          consecutivePingFailClose := 0;
          timeoutCloseCode := Int 0;
          internalErrorCloseCode := Int 0;
          started := false;
          activeWebSocket := None;
          reconnectCounter := 0;
          hasHandledWebSocketClose := false;
          reconnectTimer := None;
          connectTimeoutTimer := None |};
     rpc := {| isPaused := false; isSendingPings := false;
               pingInterval := opt_pingInterval options;
               firstPingInterval := None; timers := []; written := [] |};
     sockets := [];
     listeners := fun _ => [];
     emitted := [];
     delayCalls := [] |}.

Definition constructor (options : Options) : M unit :=
  setter_url (opt_url options) ;;
  setter_createConnectionCallback (opt_createConnectionCallback options) ;;
  setter_reconnect (opt_reconnect options) ;;
  setter_reconnectDelayCallback (opt_reconnectDelayCallback options) ;;
  setter_reconnectCounterMax (opt_reconnectCounterMax options) ;;
  setter_connectTimeout (opt_connectTimeout options) ;;
  setter_consecutivePingFailClose (opt_consecutivePingFailClose options) ;;
  setter_timeoutCloseCode (opt_timeoutCloseCode options) ;;
  setter_internalErrorCloseCode (opt_internalErrorCloseCode options) ;;
  (* the eight [this.rpc.on] calls: see [rpc_on_*] *)
  rpc_pause.

(** [new WebSocketClient(opts)] *)
Definition new_WebSocketClient (options : Options) : Result Client :=
  match constructor options (sealed options) with
  | (Ok _, c) => Ok c
  | (Throw e, _) => Throw e
  end.

Definition EventName_eqb (a b : EventName) : bool :=
  match a, b with
  | on_error, on_error | on_protocolError, on_protocolError
  | on_pingSuccess, on_pingSuccess | on_pingFail, on_pingFail
  | on_webSocketConnecting, on_webSocketConnecting
  | on_webSocketOpen, on_webSocketOpen
  | on_webSocketError, on_webSocketError
  | on_webSocketClose, on_webSocketClose => true
  | _, _ => false
  end.

(** [client.on(name, listener)] *)
Definition on (name : EventName) (listener : Listener) (c : Client) : Client :=
  set_listeners
    (fun n => if EventName_eqb n name then listeners c n ++ [listener]
              else listeners c n) c.

(** ** Everything that can happen to a client

    The calls of its user and the events of its collaborators.  A transport
    event first changes the transport's [readyState], as the transport does
    before it runs its listeners. *)
Inductive Input : Type :=
| do_start
| do_stop (code : JsNumber) (reason : string)
| do_stop_default
| do_closeConnection (code : JsNumber) (reason : string)
| do_set_url (value : string)
| do_set_reconnect (value : bool)
| do_set_consecutivePingFailClose (value : Z)
| do_set_connectTimeout (value : Z)
| do_set_reconnectCounterMax (value : Z)
| do_set_timeoutCloseCode (value : JsNumber)
| do_set_internalErrorCloseCode (value : JsNumber)
| do_set_createConnectionCallback (value : string -> Result unit)
| do_set_reconnectDelayCallback (value : Z -> Result Z)
| webSocket_open (webSocket : nat)
| webSocket_error (webSocket : nat)
| webSocket_close (webSocket : nat) (code : JsNumber) (reason : string)
| webSocket_message (webSocket : nat) (data : string)
| timer_fires (handle : nat)
| rpc_error (err : Error)
| rpc_protocolError (err : Error)
| rpc_pingSuccess (delay : Z)
| rpc_pingFail (consecutiveFails : Z) (err : Error)
| rpc_data (data : string).

Definition webSocket_becomes (webSocket : nat) (state : ReadyState) : M unit :=
  modify (fun c => set_sockets
    (nth_update webSocket (set_readyState state) (sockets c)) c).

(** A timer fires once, and only if it was not cleared. *)
Definition fire (this : Self) (handle : nat) : M unit :=
  c <- get ;;
  match nth_error (timers (rpc c)) handle with
  | Some timer =>
      if timer_cleared timer then ret tt
      else
        on_rpc (fun r => set_timers
          (nth_update handle (set_timer_cleared true) (timers r)) r) ;;
        run_timer this (timer_callback timer)
  | None => ret tt
  end.

Definition step (this : Self) (input : Input) : M unit :=
  match input with
  | do_start => start this
  | do_stop code reason => stop this code reason
  | do_stop_default => stop_default this
  | do_closeConnection code reason =>
      _ <- closeConnection this code reason ;; ret tt
  | do_set_url value => setter_url value
  | do_set_reconnect value => setter_reconnect value
  | do_set_consecutivePingFailClose value =>
      setter_consecutivePingFailClose value
  | do_set_connectTimeout value => setter_connectTimeout value
  | do_set_reconnectCounterMax value => setter_reconnectCounterMax value
  | do_set_timeoutCloseCode value => setter_timeoutCloseCode value
  | do_set_internalErrorCloseCode value => setter_internalErrorCloseCode value
  | do_set_createConnectionCallback value =>
      setter_createConnectionCallback value
  | do_set_reconnectDelayCallback value => setter_reconnectDelayCallback value
  | webSocket_open webSocket =>
      webSocket_becomes webSocket OPEN ;; webSocket_on_open this webSocket
  | webSocket_error webSocket => webSocket_on_error this webSocket
  | webSocket_close webSocket code reason =>
      webSocket_becomes webSocket CLOSED ;;
      webSocket_on_close this webSocket code reason
  | webSocket_message webSocket data =>
      webSocket_on_message this webSocket data
  | timer_fires handle => fire this handle
  | rpc_error err => rpc_on_error this err
  | rpc_protocolError err => rpc_on_protocolError this err
  | rpc_pingSuccess delay => rpc_on_pingSuccess this delay
  | rpc_pingFail consecutiveFails err =>
      rpc_on_pingFail this consecutiveFails err
  | rpc_data data => rpc_on_data this data
  end.

(** A history: each input runs to its end, whether it returns or throws,
    before the next one starts. *)
Fixpoint run (this : Self) (inputs : list Input) (c : Client) : Client :=
  match inputs with
  | [] => c
  | input :: inputs' => run this inputs' (snd (step this input c))
  end.

(** The outcome of each input of a history. *)
Fixpoint outcomes (this : Self) (inputs : list Input) (c : Client)
  : list (Result unit) :=
  match inputs with
  | [] => []
  | input :: inputs' =>
      fst (step this input c) :: outcomes this inputs' (snd (step this input c))
  end.

(** ** Observations *)

Definition isClose (ev : Event) : bool :=
  match ev with webSocketClose _ => true | _ => false end.

(** how many [webSocketClose] events a trace holds *)
Definition closeCount (trace : list Event) : nat :=
  List.length (filter isClose trace).

Definition reconnectDelays (trace : list Event) : list Z :=
  flat_map (fun ev => match ev with
                      | webSocketClose info =>
                          match reconnectDelay info with
                          | Some d => [d]
                          | None => []
                          end
                      | _ => []
                      end) trace.

(** * The vocabulary of the properties *)

(** ** Invariants *)

(** [preserves P m]: whatever [m] does, and whether it returns or throws, a
    state that satisfies [P] is left satisfying [P]. *)
Definition preserves {A} (P : Client -> Prop) (m : M A) : Prop :=
  forall c, P c -> P (snd (m c)).

(** the two calls made through [this] preserve [P] *)
Definition self_preserves (P : Client -> Prop) (this : Self) : Prop :=
  (forall ev, preserves P (self_emit this ev)) /\
  (forall code reason, preserves P (self_stop this code reason)).

(** the assignments to settings *)
Definition isSetter (input : Input) : bool :=
  match input with
  | do_set_url _ | do_set_reconnect _ | do_set_consecutivePingFailClose _
  | do_set_connectTimeout _ | do_set_reconnectCounterMax _
  | do_set_timeoutCloseCode _ | do_set_internalErrorCloseCode _
  | do_set_createConnectionCallback _ | do_set_reconnectDelayCallback _ =>
      true
  | _ => false
  end.

(** the transport's [open] *)
Definition isOpen (input : Input) : bool :=
  match input with webSocket_open _ => true | _ => false end.

(** ** Listeners *)

(** Listeners that leave the client alone: each returns without calling the
    client and without throwing. *)
Definition quiet (c : Client) : Prop :=
  forall name listener ev, In listener (listeners c name) -> listener ev = [].

Definition isError (ev : Event) : bool :=
  match ev with error _ => true | _ => false end.

(** somebody listens to [error], and returns *)
Definition errorsHeard (c : Client) : Prop :=
  listeners c on_error <> [] /\
  forall listener ev, In listener (listeners c on_error) -> listener ev = [].

(** a call that only ends things: [stop] or [closeConnection], with a close
    code that is accepted *)
Definition isClosingCall (f : Call) : bool :=
  match f with
  | CallStop code _ | CallCloseConnection code _ =>
      isValidOutgoingCloseCode code
  | CallStopDefault => true
  | CallStart | CallThrow _ => false
  end.

(** Listeners that never start the client and never throw: whatever they
    call is [stop] or [closeConnection], with a close code that is accepted.
    Quiet listeners are of this kind, and so is the listener of the README,
    which calls [stop()] on a [webSocketClose]. *)
Definition closing (c : Client) : Prop :=
  forall name listener ev f,
    In listener (listeners c name) -> In f (listener ev) ->
    isClosingCall f = true.

(** at rest: not started, no transport, no reconnect awaited, no pings *)
Definition atRest (c : Client) : Prop :=
  started (private c) = false /\
  activeWebSocket (private c) = None /\
  reconnectTimer (private c) = None /\
  isSendingPings (rpc c) = false.

(** the listeners registered are [L] *)
Definition listenersAre (L : EventName -> list Listener) (c : Client) : Prop :=
  listeners c = L.

(** the inputs whose whole handling is a function given to [_wrapListener]:
    the four events of the transport and JSONBird's [data] *)
Definition isWrappedEvent (input : Input) : bool :=
  match input with
  | webSocket_open _ | webSocket_error _ | webSocket_close _ _ _
  | webSocket_message _ _ | rpc_data _ => true
  | _ => false
  end.

(** ** Transports, timers, events *)

(** the transport [_connect] asks the factory for *)
Definition newWebSocket : WebSocket :=
  {| readyState := CONNECTING; close_args := []; send_args := [] |}.

(** the client after [activeWebSocket.close(code, reason)] *)
Definition closed_on (webSocket : nat) (code : JsNumber) (reason : string)
    (c : Client) : Client :=
  set_sockets
    (nth_update webSocket
       (fun w => set_close_args (close_args w ++ [(code, reason)]) w)
       (sockets c)) c.

(** a timer that will not fire: cleared, or never set *)
Definition isCleared (l : list Timer) (handle : nat) : bool :=
  match nth_error l handle with
  | Some timer => timer_cleared timer
  | None => true
  end.

(** the timer [_webSocketClosed] sets for the next connect attempt *)
Definition reconnectTimer_of (delay : Z) : Timer :=
  {| timer_callback := reconnectTimer_callback; timer_delay := delay;
     timer_cleared := false |}.

(** the delays of the reconnect timers set so far *)
Definition scheduledReconnectDelays (c : Client) : list Z :=
  flat_map (fun timer => match timer_callback timer with
                         | reconnectTimer_callback => [timer_delay timer]
                         | connectTimeoutTimer_callback _ _ => []
                         end) (timers (rpc c)).

(** the event a close handled without a reconnect emits *)
Definition closedForGood (code : JsNumber) (reason : string)
    (closedByRemote : bool) : Event :=
  webSocketClose {| code := code; reason := reason;
                    closedByRemote := closedByRemote;
                    willReconnect := false; reconnectDelay := None |}.

(** the event a close handled with a reconnect emits *)
Definition closedForNow (code : JsNumber) (reason : string)
    (closedByRemote : bool) (delay : Z) : Event :=
  webSocketClose {| code := code; reason := reason;
                    closedByRemote := closedByRemote;
                    willReconnect := true; reconnectDelay := Some delay |}.

(** ** The reconnect counter *)

(** With [reconnectCounterMax] held at [mx], the counter is between 0 and
    [mx] ... *)
Definition counterInRange (mx : Z) (c : Client) : Prop :=
  reconnectCounterMax (private c) = mx /\
  0 <= reconnectCounter (private c) <= mx.

(** ... and so is every counter given to [reconnectDelayCallback]. *)
Definition callsInRange (mx : Z) (c : Client) : Prop :=
  counterInRange mx c /\ Forall (fun x => 0 <= x <= mx) (delayCalls c).

(** an input that is not an assignment to [reconnectCounterMax] *)
Definition keepsReconnectCounterMax (input : Input) : Prop :=
  forall value, input <> do_set_reconnectCounterMax value.

(** the counter after each input of a history *)
Fixpoint counters (this : Self) (inputs : list Input) (c : Client) : list Z :=
  match inputs with
  | [] => []
  | input :: inputs' =>
      let c' := snd (step this input c) in
      reconnectCounter (private c') :: counters this inputs' c'
  end.

(** the backoff callback returns a delay for the current counter *)
Definition backoffReturns (c : Client) : Prop :=
  exists delay,
    reconnectDelayCallback (private c) (reconnectCounter (private c)) = Ok delay.

(** ** [hasActiveConnection] *)

(** JSONBird is paused: outgoing calls are queued *)
Definition paused (c : Client) : Prop := isPaused (rpc c) = true.

(** the transport's [open] reaches [_handleWebSocketOpen] *)
Definition opensActive (input : Input) (c : Client) : bool :=
  match input with
  | webSocket_open webSocket =>
      match activeWebSocket (private c) with
      | Some active => Nat.eqb active webSocket
      | None => false
      end
  | _ => false
  end.

(** no [open] of a history is handled *)
Fixpoint noOpenHandled (this : Self) (inputs : list Input) (c : Client) : bool :=
  match inputs with
  | [] => true
  | input :: inputs' =>
      negb (opensActive input c)
      && noOpenHandled this inputs' (snd (step this input c))
  end.

(** ** The close signals of a session *)

Inductive CloseSignal : Type :=
| remote_close (webSocket : nat) (code : JsNumber) (reason : string)
| local_closeConnection (code : JsNumber) (reason : string)
| local_stop (code : JsNumber) (reason : string)
| connect_timeout (webSocket : nat) (connectTimeout : Z)
| ping_failures (consecutiveFails : Z) (err : Error)
| rpc_failure (err : Error).

(** what each signal runs: an event of the transport, a call of the user,
    the connect-timeout closure, an event of JSONBird *)
Definition signal (this : Self) (s : CloseSignal) : M unit :=
  match s with
  | remote_close webSocket code reason =>
      step this (webSocket_close webSocket code reason)
  | local_closeConnection code reason =>
      step this (do_closeConnection code reason)
  | local_stop code reason => step this (do_stop code reason)
  | connect_timeout webSocket connectTimeout =>
      run_timer this (connectTimeoutTimer_callback webSocket connectTimeout)
  | ping_failures consecutiveFails err =>
      step this (rpc_pingFail consecutiveFails err)
  | rpc_failure err => step this (rpc_error err)
  end.

Fixpoint signals (this : Self) (l : list CloseSignal) (c : Client) : Client :=
  match l with
  | [] => c
  | s :: l' => signals this l' (snd (signal this s c))
  end.

(** a session whose close has not been handled, on a client whose close
    codes are accepted and whose backoff callback returns *)
Definition openSession (c : Client) : Prop :=
  (exists webSocket, activeWebSocket (private c) = Some webSocket) /\
  hasHandledWebSocketClose (private c) = false /\
  isValidOutgoingCloseCode (timeoutCloseCode (private c)) = true /\
  isValidOutgoingCloseCode (internalErrorCloseCode (private c)) = true /\
  backoffReturns c.

(** the signal does close the session: it is for the active transport, with
    an accepted code, at the threshold of failed pings *)
Definition effective (s : CloseSignal) (c : Client) : Prop :=
  match s with
  | remote_close webSocket _ _ | connect_timeout webSocket _ =>
      activeWebSocket (private c) = Some webSocket
  | local_closeConnection code _ | local_stop code _ =>
      isValidOutgoingCloseCode code = true
  | ping_failures consecutiveFails _ =>
      (consecutiveFails >=? consecutivePingFailClose (private c)) = true
  | rpc_failure _ => True
  end.

(** ** Clients and histories to compute with *)

(** The options of the unit tests ([reconnectDelayCallback = x => (x + 1) *
    1111], [connectTimeout = 29875]) and a transport factory that always
    delivers. *)
Definition example_options : Options :=
  {| opt_url := "ws://localhost:1234/";
     opt_createConnectionCallback := fun _ => Ok tt;
     opt_reconnect := true;
     opt_reconnectDelayCallback := fun x => Ok ((x + 1) * 1111);
     opt_reconnectCounterMax := 8;
     opt_connectTimeout := 29875;
     opt_consecutivePingFailClose := 4;
     opt_timeoutCloseCode := Int 4100;
     opt_internalErrorCloseCode := Int 4101;
     opt_pingInterval := 2000 |}.

(** [new WebSocketClient(example_options)] *)
Definition example_client : Client :=
  snd (constructor example_options (sealed example_options)).

(** the example client with a listener for [error] *)
Definition example_listening : Client :=
  on on_error (fun _ => []) example_client.

(** A client that reconnects by hand: reconnect is disabled and a
    [webSocketClose] listener calls [start()]. *)
Definition restarting_client : Client :=
  on on_webSocketClose (fun _ => [CallStart])
     (snd (setter_reconnect false example_client)).

(** three connect attempts in a row that end in the connect timeout: the
    even timers are the connect timeouts, the odd ones the reconnects *)
Definition three_failed_connects : list Input :=
  [do_start; timer_fires 0; timer_fires 1; timer_fires 2; timer_fires 3;
   timer_fires 4].

(** two connect attempts time out, [reconnectCounterMax] is lowered to 1
    while the counter is 2, and the third attempt is under way *)
Definition maximum_lowered : list Input :=
  [do_start; timer_fires 0; timer_fires 1; timer_fires 2;
   do_set_reconnectCounterMax 1; timer_fires 3].

(** the first transport is closed by the peer, and so is the second, which
    is then closed from our side as well *)
Definition two_sessions_closed : list Input :=
  [do_start;
   webSocket_close 0 (Int 1006) "gone";
   webSocket_close 1 (Int 1006) "gone";
   do_closeConnection (Int 1000) "bye"].

(** * Further vocabulary *)

(** the event of a close made from our side *)
Definition closedByUs (closeCode : JsNumber) (closeReason : string)
    (info : CloseInfo) : Prop :=
  code info = closeCode /\ reason info = closeReason /\
  closedByRemote info = false.

(** what was sent on a transport *)
Definition sentOn (webSocket : nat) (c : Client) : list string :=
  match nth_error (sockets c) webSocket with
  | Some w => send_args w
  | None => []
  end.

(** the transport is the active one *)
Definition isActiveWebSocket (webSocket : nat) (c : Client) : bool :=
  match activeWebSocket (private c) with
  | Some active => Nat.eqb active webSocket
  | None => false
  end.

(** the transport is open *)
Definition isOpenWebSocket (webSocket : nat) (c : Client) : bool :=
  match webSocket_readyState c webSocket with
  | Some state => ReadyState_eqb state OPEN
  | None => false
  end.

(** the data an input brings in from the active transport *)
Definition received (input : Input) (c : Client) : list string :=
  match input with
  | webSocket_message webSocket data =>
      if isActiveWebSocket webSocket c then [data] else []
  | _ => []
  end.

(** the data a history brings in, in order *)
Fixpoint incoming (this : Self) (inputs : list Input) (c : Client)
  : list string :=
  match inputs with
  | [] => []
  | input :: inputs' =>
      received input c ++ incoming this inputs' (snd (step this input c))
  end.

(** the data an input hands to a transport: JSONBird's [data], when the
    transport is the active one and is open *)
Definition handedTo (webSocket : nat) (input : Input) (c : Client)
  : list string :=
  match input with
  | rpc_data data =>
      if isActiveWebSocket webSocket c && isOpenWebSocket webSocket c
      then [data] else []
  | _ => []
  end.

(** the data a history hands to a transport, in order *)
Fixpoint outgoing (this : Self) (webSocket : nat) (inputs : list Input)
    (c : Client) : list string :=
  match inputs with
  | [] => []
  | input :: inputs' =>
      handedTo webSocket input c
      ++ outgoing this webSocket inputs' (snd (step this input c))
  end.

(** ** Timers and the state of the client *)

(** every timer that can still fire is held in [reconnectTimer] or in
    [connectTimeoutTimer] *)
Definition timersHeld (c : Client) : Prop :=
  forall handle,
    isCleared (timers (rpc c)) handle = false ->
    reconnectTimer (private c) = Some handle \/
    connectTimeoutTimer (private c) = Some handle.

(** with no transport active the connect timeout is off, JSONBird is paused
    and sends no pings *)
Definition idleWithoutTransport (c : Client) : Prop :=
  activeWebSocket (private c) = None ->
  (forall handle, connectTimeoutTimer (private c) = Some handle ->
     isCleared (timers (rpc c)) handle = true) /\
  isPaused (rpc c) = true /\
  isSendingPings (rpc c) = false.

(** a reconnect is awaited only while started and with no transport *)
Definition reconnectAwaited (c : Client) : Prop :=
  forall handle,
    reconnectTimer (private c) = Some handle ->
    isCleared (timers (rpc c)) handle = false ->
    started (private c) = true /\ activeWebSocket (private c) = None.

(** the timer held in [reconnectTimer] runs [_connect]; the timer held in
    [connectTimeoutTimer], while it can fire, is the timeout of the active
    transport *)
Definition timersKnown (c : Client) : Prop :=
  (forall handle timer,
     reconnectTimer (private c) = Some handle ->
     nth_error (timers (rpc c)) handle = Some timer ->
     timer_callback timer = reconnectTimer_callback) /\
  (forall handle timer,
     connectTimeoutTimer (private c) = Some handle ->
     nth_error (timers (rpc c)) handle = Some timer ->
     timer_cleared timer = false ->
     exists webSocket connectTimeout,
       timer_callback timer
         = connectTimeoutTimer_callback webSocket connectTimeout /\
       activeWebSocket (private c) = Some webSocket).

Definition consistent (c : Client) : Prop :=
  timersHeld c /\ idleWithoutTransport c /\ reconnectAwaited c /\
  timersKnown c.

(** ** Sessions *)

(** no transport is active with its close already handled: the state a
    listener of [webSocketClose] that starts the client again leaves behind
    is excluded *)
Definition freshSession (c : Client) : Prop :=
  hasHandledWebSocketClose (private c) = true ->
  activeWebSocket (private c) = None.

(** ** The states a client can reach

    A client is made by the constructor. Listeners are added to it ([on])
    and taken away again ([once], [removeListener], [removeAllListeners]):
    between two calls or events the listeners may be replaced by any others.
    Calls and events reach it, each at some depth of stack, and the
    listeners they run may call [start], [stop] and [closeConnection], or
    throw. The transport factory and the backoff callback return or throw
    without calling the client. *)
Inductive reachable : Client -> Prop :=
| reachable_new options c :
    new_WebSocketClient options = Ok c -> reachable c
| reachable_on name listener c :
    reachable c -> reachable (on name listener c)
| reachable_listeners registered c :
    reachable c -> reachable (set_listeners registered c)
| reachable_step depth input c :
    reachable c -> reachable (snd (step (this_at depth) input c)).

(** both close codes of the settings are accepted by [closeConnection] *)
Definition codesValid (c : Client) : Prop :=
  isValidOutgoingCloseCode (timeoutCloseCode (private c)) = true /\
  isValidOutgoingCloseCode (internalErrorCloseCode (private c)) = true.

(** ** Sessions announced and sessions closed *)

Definition isConnecting (ev : Event) : bool :=
  match ev with webSocketConnecting => true | _ => false end.

(** how many [webSocketConnecting] events a trace holds *)
Definition connectingCount (trace : list Event) : nat :=
  List.length (filter isConnecting trace).

(** every transport that was announced is the active one or was closed *)
Definition sessionsAccounted (c : Client) : Prop :=
  connectingCount (emitted c)
  = (closeCount (emitted c)
     + (if isSome (activeWebSocket (private c)) then 1 else 0))%nat.

(** the backoff callback returns a delay for every counter *)
Definition backoffTotal (callback : Z -> Result Z) : Prop :=
  forall reconnectCounter, exists delay, callback reconnectCounter = Ok delay.

(** an input that leaves the client a backoff callback that returns *)
Definition keepsBackoff (input : Input) : Prop :=
  match input with
  | do_set_reconnectDelayCallback value => backoffTotal value
  | _ => True
  end.

(** quiet listeners, a backoff callback that returns, and every session
    accounted for *)
Definition orderly (c : Client) : Prop :=
  quiet c /\ freshSession c /\
  backoffTotal (reconnectDelayCallback (private c)) /\
  sessionsAccounted c.

(** * Properties *)

(** ** Invariants of computations

    [preserves P m]: whatever [m] does, and whether it returns or throws, a
    state that satisfies [P] is left satisfying [P]. *)

Section Combinators.
Variable P : Client -> Prop.

Lemma preserves_ret {A} (a : A) : preserves P (ret a).
Proof. intros c H; exact H. Qed.

Lemma preserves_throw {A} (e : Error) : preserves P (@throw A e).
Proof. intros c H; exact H. Qed.

Lemma preserves_modify (f : Client -> Client) :
  (forall c, P c -> P (f c)) -> preserves P (modify f).
Proof. intros Hf c H; apply Hf, H. Qed.

Lemma preserves_bind {A B} (m : M A) (k : A -> M B) :
  preserves P m -> (forall a, preserves P (k a)) -> preserves P (bind m k).
Proof.
  intros Hm Hk c H. unfold bind.
  specialize (Hm c H). destruct (m c) as [[a | e] c']; simpl in *.
  - apply Hk, Hm.
  - exact Hm.
Qed.

(** reading the state gives a state that satisfies the invariant *)
Lemma preserves_get {B} (k : Client -> M B) :
  (forall c, P c -> preserves P (k c)) -> preserves P (bind get k).
Proof. intros Hk c H. unfold bind, get. apply Hk; exact H. Qed.

Lemma preserves_try_catch {A} (body : M A) (handler : Error -> M A) :
  preserves P body -> (forall e, preserves P (handler e)) ->
  preserves P (try_catch body handler).
Proof.
  intros Hb Hh c H. unfold try_catch.
  specialize (Hb c H). destruct (body c) as [[a | e] c']; simpl in *.
  - exact Hb.
  - apply Hh, Hb.
Qed.

Lemma preserves_try_finally {A} (body : M A) (final : M unit) :
  preserves P body -> preserves P final ->
  preserves P (try_finally body final).
Proof.
  intros Hb Hf c H. unfold try_finally.
  specialize (Hb c H). destruct (body c) as [[a | e] c']; simpl in *;
    specialize (Hf c' Hb); destruct (final c') as [[u | e'] c'']; exact Hf.
Qed.

Lemma preserves_when (cond : bool) (action : M unit) :
  preserves P action -> preserves P (when cond action).
Proof. intros Ha. destruct cond; simpl; [exact Ha | apply preserves_ret]. Qed.

Lemma preserves_for_each {A} (l : list A) (body : A -> M unit) :
  (forall a, preserves P (body a)) -> preserves P (for_each l body).
Proof.
  intros Hb. induction l as [| a l IH]; simpl.
  - apply preserves_ret.
  - apply preserves_bind; [apply Hb | intros _; exact IH].
Qed.

Lemma preserves_assert (condition : bool) (message : string) :
  preserves P (assert condition message).
Proof. intros c H. unfold assert. destruct condition; exact H. Qed.

Lemma preserves_assertValidOutgoingCloseCode number message :
  preserves P (assertValidOutgoingCloseCode number message).
Proof.
  intros c H. unfold assertValidOutgoingCloseCode.
  destruct (isValidOutgoingCloseCode number); exact H.
Qed.
End Combinators.

Ltac preserves_step :=
  lazymatch goal with
  | |- preserves _ (ret _) => apply preserves_ret
  | |- preserves _ (throw _) => apply preserves_throw
  | |- preserves _ (assert _ _) => apply preserves_assert
  | |- preserves _ (assertValidOutgoingCloseCode _ _) =>
      apply preserves_assertValidOutgoingCloseCode
  | |- preserves _ (bind get _) => apply preserves_get; intros ? ?
  | |- preserves _ (bind _ _) => apply preserves_bind; [ | intros ? ]
  | |- preserves _ (try_catch _ _) => apply preserves_try_catch; [ | intros ? ]
  | |- preserves _ (try_finally _ _) => apply preserves_try_finally
  | |- preserves _ (when _ _) => apply preserves_when
  | |- preserves _ (for_each _ _) => apply preserves_for_each; intros ?
  | |- preserves _ (modify _) => apply preserves_modify; intros ? ?
  | |- preserves _ (assign _) => unfold assign
  | |- preserves _ (on_rpc _) => unfold on_rpc
  | |- preserves _ (if ?b then _ else _) => destruct b
  | |- preserves _ (match ?o with _ => _ end) => destruct o
  end.

(** ** Invariants of the class

    A property of the state that survives each assignment the methods make
    survives every method, at every depth of stack, whatever the listeners
    and the callbacks do. *)

Section Invariant.
Variable P : Client -> Prop.

Hypothesis P_started :
  forall v c, P c -> P (set_private (set_started v (private c)) c).
Hypothesis P_activeWebSocket :
  forall v c, P c -> P (set_private (set_activeWebSocket v (private c)) c).
Hypothesis P_hasHandledWebSocketClose :
  forall v c, P c ->
    P (set_private (set_hasHandledWebSocketClose v (private c)) c).
Hypothesis P_reconnectTimer :
  forall v c, P c -> P (set_private (set_reconnectTimer v (private c)) c).
Hypothesis P_connectTimeoutTimer :
  forall v c, P c ->
    P (set_private (set_connectTimeoutTimer v (private c)) c).
Hypothesis P_timers :
  forall v c, P c -> P (set_rpc (set_timers v (rpc c)) c).
Hypothesis P_pause :
  forall c, P c -> P (set_rpc (set_isPaused true (rpc c)) c).
Hypothesis P_stopPinging :
  forall c, P c -> P (set_rpc (set_isSendingPings false (rpc c)) c).
Hypothesis P_written :
  forall v c, P c -> P (set_rpc (set_written v (rpc c)) c).
Hypothesis P_sockets : forall v c, P c -> P (set_sockets v c).
Hypothesis P_emitted : forall v c, P c -> P (set_emitted v c).
(** the counter given to the callback and the counter increased are those
    of a state that satisfied the invariant *)
Hypothesis P_delayCalls :
  forall c0 c, P c0 -> P c ->
    P (set_delayCalls (delayCalls c ++ [reconnectCounter (private c0)]) c).
Hypothesis P_failure :
  forall c0 c, P c0 -> P c ->
    P (set_private
         (set_reconnectCounter
            (Z.min (reconnectCounter (private c0) + 1)
                   (reconnectCounterMax (private c0)))
            (private c)) c).
Hypothesis P_pingSuccess :
  forall c0 c, P c0 -> P c ->
    P (set_private
         (set_reconnectCounter (Z.max 0 (reconnectCounter (private c0) - 1))
            (private c)) c).

Local Ltac leaf :=
  first [ solve [ auto ]
        | progress unfold rpc_clearTimeout, rpc_pause, rpc_stopPinging,
            rpc_write, activeWebSocket_close, activeWebSocket_send,
            webSocket_becomes ].

Lemma preserves__clearReconnectTimer : preserves P _clearReconnectTimer.
Proof. unfold _clearReconnectTimer. repeat (preserves_step || leaf). Qed.

Lemma preserves__clearConnectTimeoutTimer :
  preserves P _clearConnectTimeoutTimer.
Proof. unfold _clearConnectTimeoutTimer. repeat (preserves_step || leaf). Qed.

Lemma preserves_rpc_setTimeout callback delay :
  preserves P (rpc_setTimeout callback delay).
Proof. unfold rpc_setTimeout. repeat (preserves_step || leaf). Qed.

Lemma preserves_call_createConnectionCallback url :
  preserves P (call_createConnectionCallback url).
Proof.
  unfold call_createConnectionCallback. repeat (preserves_step || leaf).
Qed.

Lemma preserves_isActive webSocket : preserves P (isActive webSocket).
Proof. unfold isActive. repeat (preserves_step || leaf). Qed.

Hint Resolve preserves__clearReconnectTimer
  preserves__clearConnectTimeoutTimer preserves_rpc_setTimeout
  preserves_call_createConnectionCallback preserves_isActive : core.

Section WithThis.
Variable this : Self.
Hypothesis this_preserves : self_preserves P this.

Let emit_ok := proj1 this_preserves.
Let stop_ok := proj2 this_preserves.

Lemma preserves__connect : preserves P (_connect this).
Proof. unfold _connect. repeat (preserves_step || leaf). Qed.

Lemma preserves_start : preserves P (start this).
Proof.
  pose proof preserves__connect.
  unfold start. repeat (preserves_step || leaf).
Qed.

Lemma preserves__webSocketClosed code reason closedByRemote :
  preserves P (_webSocketClosed this code reason closedByRemote).
Proof.
  unfold _webSocketClosed, call_reconnectDelayCallback.
  repeat (preserves_step || leaf).
Qed.

Lemma preserves_closeConnection code reason :
  preserves P (closeConnection this code reason).
Proof.
  pose proof preserves__webSocketClosed.
  unfold closeConnection. repeat (preserves_step || leaf).
Qed.

Lemma preserves_stop code reason : preserves P (stop this code reason).
Proof.
  pose proof preserves_closeConnection.
  unfold stop. repeat (preserves_step || leaf).
Qed.

Lemma preserves_call f : preserves P (call this f).
Proof.
  pose proof preserves_start. pose proof preserves_stop.
  pose proof preserves_closeConnection.
  destruct f; unfold call, stop_default; repeat (preserves_step || leaf).
Qed.

Lemma preserves_emit ev : preserves P (emit this ev).
Proof.
  pose proof preserves_call.
  unfold emit. repeat (preserves_step || leaf).
Qed.

Lemma preserves__wrapListener func :
  preserves P func -> preserves P (_wrapListener this func).
Proof. intros Hf. unfold _wrapListener. repeat (preserves_step || leaf). Qed.

Lemma preserves__handleConnectionTimeout connectTimeout :
  preserves P (_handleConnectionTimeout this connectTimeout).
Proof.
  pose proof preserves_closeConnection.
  unfold _handleConnectionTimeout. repeat (preserves_step || leaf).
Qed.

Lemma preserves__handleRpcError err : preserves P (_handleRpcError this err).
Proof.
  pose proof preserves_closeConnection.
  unfold _handleRpcError. repeat (preserves_step || leaf).
Qed.

Lemma preserves__handleRpcPingSuccess delay :
  preserves P (_handleRpcPingSuccess delay).
Proof. unfold _handleRpcPingSuccess. repeat (preserves_step || leaf). Qed.

Lemma preserves__handleRpcPingFail consecutiveFails err :
  preserves P (_handleRpcPingFail this consecutiveFails err).
Proof.
  pose proof preserves_closeConnection.
  unfold _handleRpcPingFail. repeat (preserves_step || leaf).
Qed.

Lemma preserves__handleRpcData data : preserves P (_handleRpcData data).
Proof. unfold _handleRpcData. repeat (preserves_step || leaf). Qed.

Lemma preserves_run_timer callback : preserves P (run_timer this callback).
Proof.
  pose proof preserves__connect.
  pose proof preserves__handleConnectionTimeout.
  destruct callback; unfold run_timer; repeat (preserves_step || leaf).
Qed.

Lemma preserves_fire handle : preserves P (fire this handle).
Proof.
  pose proof preserves_run_timer.
  unfold fire. repeat (preserves_step || leaf).
Qed.

(** every input but the assignments to settings and the transport's
    [open] *)
Lemma preserves_step_input input :
  isSetter input = false -> isOpen input = false ->
  preserves P (step this input).
Proof.
  pose proof preserves_start. pose proof preserves_stop.
  pose proof preserves_closeConnection. pose proof preserves_fire.
  pose proof preserves__webSocketClosed.
  pose proof preserves__handleRpcError.
  pose proof preserves__handleRpcPingSuccess.
  pose proof preserves__handleRpcPingFail.
  pose proof preserves__handleRpcData.
  destruct input; simpl; try discriminate; intros _ _;
    unfold stop_default, webSocket_on_error, webSocket_on_close,
      webSocket_on_message, rpc_on_error, rpc_on_protocolError,
      rpc_on_pingSuccess, rpc_on_pingFail, rpc_on_data, _wrapListener,
      _handleWebSocketError, _handleWebSocketClose,
      _handleWebSocketMessage;
    repeat (preserves_step || leaf).
Qed.

(** the transport's [open], for a property that survives what
    [_handleWebSocketOpen] does to the JSONBird instance *)
Hypothesis P_resume :
  forall c, P c -> P (set_rpc (set_isPaused false (rpc c)) c).
Hypothesis P_pingInterval :
  forall v c, P c -> P (set_rpc (set_pingInterval v (rpc c)) c).
Hypothesis P_startPinging :
  forall c, P c ->
    P (set_rpc (set_isSendingPings true
                  (set_firstPingInterval (Some (pingInterval (rpc c)))
                     (rpc c))) c).

Lemma preserves__handleWebSocketOpen :
  preserves P (_handleWebSocketOpen this).
Proof.
  unfold _handleWebSocketOpen, rpc_resume, rpc_set_pingInterval,
    rpc_resetPingStatistics, rpc_startPinging.
  repeat (preserves_step || leaf).
Qed.

Lemma preserves_step_open webSocket :
  preserves P (step this (webSocket_open webSocket)).
Proof.
  pose proof preserves__handleWebSocketOpen.
  simpl. unfold webSocket_on_open, _wrapListener.
  repeat (preserves_step || leaf).
Qed.
End WithThis.

(** the invariant along a history *)
Lemma preserves_run (allowed : Input -> Prop) this :
  (forall input, allowed input -> preserves P (step this input)) ->
  forall inputs c, Forall allowed inputs -> P c -> P (run this inputs c).
Proof.
  intros Hstep inputs. induction inputs as [| input inputs IH];
    intros c Hall Hc; simpl.
  - exact Hc.
  - inversion Hall; subst. apply IH; [assumption |].
    apply Hstep; assumption.
Qed.

(** the invariant at every depth of stack *)
Lemma preserves_this_at depth : self_preserves P (this_at depth).
Proof.
  induction depth as [| depth IH]; split; simpl; intros.
  - apply preserves_throw.
  - apply preserves_throw.
  - apply preserves_emit, IH.
  - apply preserves_stop, IH.
Qed.
End Invariant.

(** ** Lists updated in place *)

Lemma nth_update_length {A} (n : nat) (f : A -> A) (l : list A) :
  List.length (nth_update n f l) = List.length l.
Proof.
  revert n. induction l as [| a l IH]; intros [| n]; simpl; auto.
Qed.

Lemma nth_update_same {A} (n : nat) (f : A -> A) (l : list A) :
  nth_error (nth_update n f l) n = option_map f (nth_error l n).
Proof.
  revert n. induction l as [| a l IH]; intros [| n]; simpl; auto.
Qed.

Lemma nth_update_other {A} (n m : nat) (f : A -> A) (l : list A) :
  n <> m -> nth_error (nth_update n f l) m = nth_error l m.
Proof.
  revert n m. induction l as [| a l IH]; intros [| n] [| m] H; simpl; auto;
    contradiction.
Qed.

Lemma nth_error_snoc {A} (l l' : list A) (a : A) :
  List.length l' = List.length l ->
  nth_error (l ++ [a]) (List.length l') = Some a.
Proof.
  intros ->. rewrite nth_error_app2 by lia. rewrite Nat.sub_diag. reflexivity.
Qed.

(** ** Listeners that leave the client alone

    A listener is quiet when it returns without calling the client and
    without throwing. *)

Lemma for_each_quiet this (registered : list Listener) ev c :
  (forall listener, In listener registered -> listener ev = []) ->
  for_each registered (fun listener => for_each (listener ev) (call this)) c
  = (Ok tt, c).
Proof.
  revert c. induction registered as [| l ls IH]; intros c H; simpl.
  - reflexivity.
  - unfold bind. rewrite (H l) by (left; reflexivity). simpl.
    apply IH. intros l' Hl'. apply H. right; exact Hl'.
Qed.

Lemma emit_quiet this ev c :
  quiet c -> isError ev = false ->
  emit this ev c = (Ok tt, set_emitted (emitted c ++ [ev]) c).
Proof.
  intros Hq Hev. unfold emit, bind, modify, get. simpl.
  assert (Hall : forall listener,
             In listener (listeners c (eventName ev)) -> listener ev = [])
    by (intros l Hl; eapply Hq; exact Hl).
  destruct (listeners c (eventName ev)) as [| l ls] eqn:E.
  - destruct ev; simpl; try reflexivity. discriminate.
  - apply (for_each_quiet this (l :: ls) ev); exact Hall.
Qed.

(** ** The close codes a client may send *)

Lemma isValidOutgoingCloseCode_Int z :
  isValidOutgoingCloseCode (Int z) = true <-> z = 1000 \/ 3000 <= z <= 4999.
Proof. simpl. lia. Qed.

(** a value that is not an integer is refused as well *)
Lemma close_code_setters_refuse_NotInteger c :
  fst (setter_timeoutCloseCode NotInteger c)
  = Throw (InvalidCloseCode "Invalid value for timeoutCloseCode:" NotInteger) /\
  fst (setter_internalErrorCloseCode NotInteger c)
  = Throw (InvalidCloseCode "Invalid value for internalErrorCloseCode:"
             NotInteger).
Proof. split; reflexivity. Qed.

(** ** Running the methods on a symbolic state

    [js] unfolds the methods and the collaborators and reduces what the
    state at hand decides; [emit] stays folded, for the lemmas on quiet
    listeners to rewrite it. *)

Ltac run_js :=
  unfold stop_default, stop, closeConnection, start, _connect,
    _clearReconnectTimer, _clearConnectTimeoutTimer, rpc_clearTimeout,
    rpc_setTimeout, rpc_pause, rpc_resume, rpc_stopPinging, rpc_startPinging,
    rpc_resetPingStatistics, rpc_set_pingInterval, rpc_write,
    activeWebSocket_close, activeWebSocket_send, webSocket_becomes,
    call_createConnectionCallback, call_reconnectDelayCallback,
    assertValidOutgoingCloseCode, assert, isActive, when,
    try_catch, try_finally, on_rpc, assign, modify, get, bind, ret, throw.

Ltac js_cbn :=
  cbn -[emit nth_update Z.min Z.max Z.add Z.sub Z.geb filter List.length].

Ltac js := repeat (progress (run_js; js_cbn)).

(** ** The example client *)

Lemma example_client_constructed :
  fst (constructor example_options (sealed example_options)) = Ok tt.
Proof. reflexivity. Qed.

Lemma example_client_quiet : quiet example_client.
Proof. intros name listener ev H. destruct H. Qed.

(** ** [start] *)

Lemma start_not_started depth c :
  started (private c) = false ->
  activeWebSocket (private c) = None ->
  quiet c ->
  createConnectionCallback (private c) (url (private c)) = Ok tt ->
  let c' := snd (start (this_at (S depth)) c) in
  fst (start (this_at (S depth)) c) = Ok tt /\
  started (private c') = true /\
  activeWebSocket (private c') = Some (List.length (sockets c)) /\
  sockets c' = sockets c ++ [newWebSocket] /\
  hasHandledWebSocketClose (private c') = false /\
  reconnectTimer (private c') = None /\
  connectTimeoutTimer (private c') = Some (List.length (timers (rpc c))) /\
  nth_error (timers (rpc c')) (List.length (timers (rpc c)))
    = Some {| timer_callback :=
                connectTimeoutTimer_callback (List.length (sockets c))
                  (connectTimeout (private c));
              timer_delay := connectTimeout (private c);
              timer_cleared := false |} /\
  List.length (timers (rpc c')) = S (List.length (timers (rpc c))) /\
  delayCalls c' = delayCalls c /\
  emitted c' = emitted c ++ [webSocketConnecting].
Proof.
  intros Hs Ha Hq Hf. js. rewrite Hs. js_cbn. rewrite Ha. js_cbn.
  destruct (reconnectTimer (private c)) as [handle |] eqn:Htimer; js_cbn;
    rewrite Hf; js_cbn; rewrite emit_quiet by (exact Hq || reflexivity);
    js_cbn; repeat split;
    rewrite ?length_app, ?nth_update_length; auto; try (simpl; lia);
    apply nth_error_snoc; rewrite ?nth_update_length; reflexivity.
Qed.

(** ** Timers *)

Lemma isCleared_nth_update_same l handle :
  isCleared (nth_update handle (set_timer_cleared true) l) handle = true.
Proof.
  unfold isCleared. rewrite nth_update_same.
  destruct (nth_error l handle); reflexivity.
Qed.

Lemma isCleared_nth_update l handle other :
  isCleared l handle = true ->
  isCleared (nth_update other (set_timer_cleared true) l) handle = true.
Proof.
  intros H. destruct (Nat.eq_dec other handle) as [-> | Hne].
  - apply isCleared_nth_update_same.
  - unfold isCleared. rewrite nth_update_other by exact Hne. exact H.
Qed.

(** ** [stop] with listeners that only stop or close *)

Lemma quiet_closing c : quiet c -> closing c.
Proof.
  intros Hq name listener ev f Hl Hf.
  rewrite (Hq name listener ev Hl) in Hf. destruct Hf.
Qed.

(** on a client at rest, [stop] and [closeConnection] change nothing *)
Lemma call_atRest this f c :
  atRest c -> isClosingCall f = true -> call this f c = (Ok tt, c).
Proof.
  intros (Hs & Ha & Hr & Hp) Hf.
  destruct c as [[] [] ? ? ? ?]. cbn in Hs, Ha, Hr, Hp. subst.
  destruct f; try discriminate; cbn in Hf;
    unfold call, stop_default, stop, closeConnection,
      assertValidOutgoingCloseCode, _clearReconnectTimer, rpc_stopPinging,
      on_rpc, assign, assert, modify, get, bind, ret, throw;
    cbn; rewrite ?Hf; reflexivity.
Qed.

Lemma for_each_atRest this (calls : list Call) c :
  atRest c ->
  (forall f, In f calls -> isClosingCall f = true) ->
  for_each calls (call this) c = (Ok tt, c).
Proof.
  intros Hrest. induction calls as [| f calls IH]; intros Hall; simpl.
  - reflexivity.
  - unfold bind. rewrite (call_atRest this f c Hrest)
      by (apply Hall; left; reflexivity).
    apply IH. intros f' Hf'. apply Hall. right. exact Hf'.
Qed.

Lemma emit_atRest this ev c :
  atRest c -> closing c -> isError ev = false ->
  emit this ev c = (Ok tt, set_emitted (emitted c ++ [ev]) c).
Proof.
  intros Hrest Hclosing Hev. unfold emit, bind, modify, get. simpl.
  set (c' := set_emitted (emitted c ++ [ev]) c).
  assert (Hrest' : atRest c') by exact Hrest.
  assert (Hall : forall listener,
             In listener (listeners c (eventName ev)) ->
             forall f, In f (listener ev) -> isClosingCall f = true)
    by (intros l Hl f Hf; exact (Hclosing _ l ev f Hl Hf)).
  assert (Hloop : forall registered : list Listener,
             (forall listener, In listener registered ->
                forall f, In f (listener ev) -> isClosingCall f = true) ->
             for_each registered
               (fun listener => for_each (listener ev) (call this)) c'
             = (Ok tt, c')).
  { induction registered as [| l ls IH]; intros H; simpl.
    - reflexivity.
    - unfold bind.
      rewrite (for_each_atRest this (l ev) c' Hrest')
        by (apply H; left; reflexivity).
      apply IH. intros l' Hl'. apply H. right. exact Hl'. }
  destruct (listeners c (eventName ev)) as [| l ls] eqn:E.
  - destruct ev; simpl; try reflexivity. discriminate.
  - apply (Hloop (l :: ls)). exact Hall.
Qed.

Lemma stop_closing depth c code reason :
  closing c ->
  isValidOutgoingCloseCode code = true ->
  let c' := snd (stop (this_at (S depth)) code reason c) in
  fst (stop (this_at (S depth)) code reason c) = Ok tt /\
  started (private c') = false /\
  reconnectTimer (private c') = None /\
  (forall handle, reconnectTimer (private c) = Some handle ->
     isCleared (timers (rpc c')) handle = true) /\
  isSendingPings (rpc c') = false /\
  emitted c'
    = emitted c ++
      (if isSome (activeWebSocket (private c))
          && negb (hasHandledWebSocketClose (private c))
       then [closedForGood code reason false] else []) /\
  activeWebSocket (private c')
    = (if hasHandledWebSocketClose (private c)
       then activeWebSocket (private c) else None) /\
  hasHandledWebSocketClose (private c')
    = (hasHandledWebSocketClose (private c)
       || isSome (activeWebSocket (private c))) /\
  listeners c' = listeners c /\
  createConnectionCallback (private c') = createConnectionCallback (private c) /\
  url (private c') = url (private c) /\
  delayCalls c' = delayCalls c /\
  (forall handle, isCleared (timers (rpc c)) handle = true ->
     isCleared (timers (rpc c')) handle = true).
Proof.
  intros Hq Hcode. js. rewrite Hcode. js_cbn.
  destruct (reconnectTimer (private c)) as [handle |] eqn:Htimer; js_cbn;
    (destruct (activeWebSocket (private c)) as [webSocket |] eqn:Hactive;
     js_cbn;
     [ destruct (hasHandledWebSocketClose (private c)) eqn:Hhandled; js_cbn;
       [ | destruct (connectTimeoutTimer (private c)) as [t |] eqn:Ht; js;
           rewrite emit_atRest
             by (first [ exact Hq | reflexivity
                       | repeat split; reflexivity ]);
           js_cbn ]
     | destruct (hasHandledWebSocketClose (private c)) eqn:Hhandled ]);
    rewrite ?app_nil_r; repeat split; auto; try discriminate;
    intros h Hh; try (injection Hh as <-);
    repeat first [ assumption
                 | apply isCleared_nth_update_same
                 | apply isCleared_nth_update ].
Qed.

(** ** [stop] and [closeConnection] with quiet listeners *)

Lemma stop_quiet depth c code reason :
  quiet c ->
  isValidOutgoingCloseCode code = true ->
  let c' := snd (stop (this_at (S depth)) code reason c) in
  fst (stop (this_at (S depth)) code reason c) = Ok tt /\
  started (private c') = false /\
  reconnectTimer (private c') = None /\
  (forall handle, reconnectTimer (private c) = Some handle ->
     isCleared (timers (rpc c')) handle = true) /\
  isSendingPings (rpc c') = false /\
  emitted c'
    = emitted c ++
      (if isSome (activeWebSocket (private c))
          && negb (hasHandledWebSocketClose (private c))
       then [closedForGood code reason false] else []) /\
  activeWebSocket (private c')
    = (if hasHandledWebSocketClose (private c)
       then activeWebSocket (private c) else None) /\
  hasHandledWebSocketClose (private c')
    = (hasHandledWebSocketClose (private c)
       || isSome (activeWebSocket (private c))) /\
  listeners c' = listeners c /\
  createConnectionCallback (private c') = createConnectionCallback (private c) /\
  url (private c') = url (private c) /\
  delayCalls c' = delayCalls c /\
  (forall handle, isCleared (timers (rpc c)) handle = true ->
     isCleared (timers (rpc c')) handle = true).
Proof.
  intros Hq Hcode.
  exact (stop_closing depth c code reason (quiet_closing c Hq) Hcode).
Qed.

Lemma closeCount_app l l' :
  closeCount (l ++ l') = (closeCount l + closeCount l')%nat.
Proof. unfold closeCount. rewrite filter_app, length_app. reflexivity. Qed.

(** ** The reconnect counter *)

Ltac counter_leaf :=
  intros; unfold callsInRange, counterInRange in *; cbn;
  repeat match goal with H : _ /\ _ |- _ => destruct H end;
  repeat split;
  try assumption; try lia;
  try (apply Forall_app; split;
       [assumption | constructor; [lia | constructor]]).

Ltac counter_step Hkeep Hthis :=
  match goal with
  | |- preserves _ (step _ ?input) =>
      destruct (isSetter input) eqn:?;
      [ destruct input; try discriminate; simpl;
        try (exfalso; eapply Hkeep; reflexivity);
        unfold setter_url, setter_reconnect, setter_consecutivePingFailClose,
          setter_connectTimeout, setter_timeoutCloseCode,
          setter_internalErrorCloseCode, setter_createConnectionCallback,
          setter_reconnectDelayCallback;
        repeat preserves_step; counter_leaf
      | destruct (isOpen input) eqn:?;
        [ destruct input; try discriminate;
          apply preserves_step_open; try exact Hthis; counter_leaf
        | apply preserves_step_input; try exact Hthis; try assumption;
          counter_leaf ] ]
  end.

Lemma counterInRange_run mx depth inputs c :
  0 <= mx -> Forall keepsReconnectCounterMax inputs ->
  counterInRange mx c -> counterInRange mx (run (this_at depth) inputs c).
Proof.
  intros Hmx Hall Hc.
  apply (preserves_run (counterInRange mx) keepsReconnectCounterMax);
    try assumption.
  intros input Hkeep.
  assert (Hthis : self_preserves (counterInRange mx) (this_at depth))
    by (apply preserves_this_at; counter_leaf).
  counter_step Hkeep Hthis.
Qed.

Lemma callsInRange_run mx depth inputs c :
  0 <= mx -> Forall keepsReconnectCounterMax inputs ->
  callsInRange mx c -> callsInRange mx (run (this_at depth) inputs c).
Proof.
  intros Hmx Hall Hc.
  apply (preserves_run (callsInRange mx) keepsReconnectCounterMax);
    try assumption.
  intros input Hkeep.
  assert (Hthis : self_preserves (callsInRange mx) (this_at depth))
    by (apply preserves_this_at; counter_leaf).
  counter_step Hkeep Hthis.
Qed.

Lemma quiet_listeners c c' : listeners c' = listeners c -> quiet c -> quiet c'.
Proof.
  intros Hl Hq name listener ev Hin. rewrite Hl in Hin. eapply Hq; exact Hin.
Qed.

Lemma pingSuccess_quiet depth c delay :
  quiet c ->
  let c' := snd (step (this_at depth) (rpc_pingSuccess delay) c) in
  reconnectCounter (private c') = Z.max 0 (reconnectCounter (private c) - 1) /\
  listeners c' = listeners c.
Proof.
  intros Hq. simpl. unfold rpc_on_pingSuccess, _wrapListener,
    _handleRpcPingSuccess.
  destruct depth as [| depth]; js.
  - split; reflexivity.
  - rewrite emit_quiet by (exact Hq || reflexivity). split; reflexivity.
Qed.

(** ** Handling a close, with quiet listeners *)

(** started, reconnect enabled, and the backoff callback returns *)
Lemma _webSocketClosed_reconnects depth c code reason closedByRemote delay :
  quiet c ->
  hasHandledWebSocketClose (private c) = false ->
  started (private c) = true ->
  reconnect (private c) = true ->
  reconnectDelayCallback (private c) (reconnectCounter (private c)) = Ok delay ->
  let c' := snd (_webSocketClosed (this_at (S depth)) code reason
                   closedByRemote c) in
  fst (_webSocketClosed (this_at (S depth)) code reason closedByRemote c)
    = Ok tt /\
  delayCalls c' = delayCalls c ++ [reconnectCounter (private c)] /\
  reconnectCounter (private c')
    = Z.min (reconnectCounter (private c) + 1) (reconnectCounterMax (private c)) /\
  reconnectTimer (private c') = Some (List.length (timers (rpc c))) /\
  nth_error (timers (rpc c')) (List.length (timers (rpc c)))
    = Some (reconnectTimer_of delay) /\
  emitted c' = emitted c ++ [closedForNow code reason closedByRemote delay] /\
  activeWebSocket (private c') = None /\
  hasHandledWebSocketClose (private c') = true /\
  started (private c') = true /\
  isPaused (rpc c') = true /\
  isSendingPings (rpc c') = false /\
  sockets c' = sockets c /\
  listeners c' = listeners c.
Proof.
  intros Hq Hh Hs Hr Hd. unfold _webSocketClosed. js. rewrite Hh. js_cbn.
  destruct (connectTimeoutTimer (private c)) as [t |] eqn:Ht; js_cbn;
    rewrite Hs, Hr; js_cbn; rewrite Hd; js_cbn;
    (destruct (reconnectTimer (private c)) as [t' |] eqn:Ht'; js_cbn;
     rewrite emit_quiet by (exact Hq || reflexivity); js_cbn;
     repeat split; rewrite ?nth_update_length; auto;
     apply nth_error_snoc; rewrite ?nth_update_length; reflexivity).
Qed.

(** started, reconnect enabled, and the backoff callback throws: the
    counter has been given to the callback and is not increased *)
Lemma _webSocketClosed_backoff_throws depth c code reason closedByRemote e :
  hasHandledWebSocketClose (private c) = false ->
  started (private c) = true ->
  reconnect (private c) = true ->
  reconnectDelayCallback (private c) (reconnectCounter (private c)) = Throw e ->
  let c' := snd (_webSocketClosed (this_at depth) code reason closedByRemote c) in
  fst (_webSocketClosed (this_at depth) code reason closedByRemote c)
    = Throw e /\
  delayCalls c' = delayCalls c ++ [reconnectCounter (private c)] /\
  reconnectCounter (private c') = reconnectCounter (private c) /\
  reconnectTimer (private c') = reconnectTimer (private c) /\
  emitted c' = emitted c /\
  activeWebSocket (private c') = None /\
  hasHandledWebSocketClose (private c') = false.
Proof.
  intros Hh Hs Hr Hd. unfold _webSocketClosed. js. rewrite Hh. js_cbn.
  destruct (connectTimeoutTimer (private c)) as [t |] eqn:Ht; js_cbn;
    rewrite Hs, Hr; js_cbn; rewrite Hd; js_cbn; repeat split; auto.
Qed.

(** not started, or reconnect disabled *)
Lemma _webSocketClosed_stops depth c code reason closedByRemote :
  quiet c ->
  hasHandledWebSocketClose (private c) = false ->
  started (private c) && reconnect (private c) = false ->
  let c' := snd (_webSocketClosed (this_at (S depth)) code reason
                   closedByRemote c) in
  fst (_webSocketClosed (this_at (S depth)) code reason closedByRemote c)
    = Ok tt /\
  delayCalls c' = delayCalls c /\
  reconnectCounter (private c') = reconnectCounter (private c) /\
  reconnectTimer (private c') = None /\
  emitted c' = emitted c ++ [closedForGood code reason closedByRemote] /\
  activeWebSocket (private c') = None /\
  hasHandledWebSocketClose (private c') = true /\
  started (private c') = false /\
  isPaused (rpc c') = true /\
  isSendingPings (rpc c') = false /\
  sockets c' = sockets c /\
  listeners c' = listeners c /\
  List.length (timers (rpc c')) = List.length (timers (rpc c)).
Proof.
  intros Hq Hh Hsr. unfold _webSocketClosed. js. rewrite Hh. js_cbn.
  destruct (connectTimeoutTimer (private c)) as [t |] eqn:Ht; js_cbn;
    rewrite Hsr; js;
    (destruct (reconnectTimer (private c)) as [t' |] eqn:Ht'; js;
     rewrite emit_quiet by (exact Hq || reflexivity); js_cbn;
     repeat split; rewrite ?nth_update_length; auto).
Qed.

(** ** [closeConnection] *)

Lemma closeConnection_active this code reason c webSocket :
  isValidOutgoingCloseCode code = true ->
  activeWebSocket (private c) = Some webSocket ->
  closeConnection this code reason c
  = (match fst (_webSocketClosed this code reason false
                  (closed_on webSocket code reason c)) with
     | Ok _ => Ok true
     | Throw e => Throw e
     end,
     snd (_webSocketClosed this code reason false
            (closed_on webSocket code reason c))).
Proof.
  intros Hcode Hactive.
  unfold closeConnection, assertValidOutgoingCloseCode, bind, get, ret,
    activeWebSocket_close, modify.
  rewrite Hcode, Hactive. cbn -[_webSocketClosed].
  fold (closed_on webSocket code reason c).
  destruct (_webSocketClosed this code reason false
              (closed_on webSocket code reason c)) as [[u | e] c']; reflexivity.
Qed.

(** ** The listeners stay registered *)

Ltac listeners_leaf := intros; unfold listenersAre in *; cbn; assumption.

Lemma listenersAre_this_at L depth :
  self_preserves (listenersAre L) (this_at depth).
Proof. apply preserves_this_at; listeners_leaf. Qed.

Lemma listeners_step depth input c :
  listeners (snd (step (this_at depth) input c)) = listeners c.
Proof.
  pose proof (listenersAre_this_at (listeners c) depth) as Hthis.
  assert (H : preserves (listenersAre (listeners c))
                (step (this_at depth) input)).
  { destruct (isSetter input) eqn:Hsetter.
    - destruct input; try discriminate; simpl;
        unfold setter_url, setter_reconnect, setter_consecutivePingFailClose,
          setter_connectTimeout, setter_reconnectCounterMax,
          setter_timeoutCloseCode, setter_internalErrorCloseCode,
          setter_createConnectionCallback, setter_reconnectDelayCallback;
        repeat preserves_step; listeners_leaf.
    - destruct (isOpen input) eqn:Hopen.
      + destruct input; try discriminate.
        apply preserves_step_open; try exact Hthis; listeners_leaf.
      + apply preserves_step_input; try exact Hthis; try assumption;
          listeners_leaf. }
  apply H. reflexivity.
Qed.

Lemma listeners_run depth inputs c :
  listeners (run (this_at depth) inputs c) = listeners c.
Proof.
  revert c. induction inputs as [| input inputs IH]; intros c; simpl.
  - reflexivity.
  - rewrite IH. apply listeners_step.
Qed.

Lemma quiet_run depth inputs c : quiet c -> quiet (run (this_at depth) inputs c).
Proof. apply quiet_listeners, listeners_run. Qed.

(** ** Errors caught by [_wrapListener] *)

Lemma emit_error_heard this err c :
  errorsHeard c ->
  emit this (error err) c = (Ok tt, set_emitted (emitted c ++ [error err]) c).
Proof.
  intros [Hne Hq]. unfold emit, bind, modify, get. simpl.
  destruct (listeners c on_error) as [| l ls] eqn:E.
  - contradiction.
  - apply (for_each_quiet this (l :: ls) (error err)).
    intros l' Hl'. apply Hq. exact Hl'.
Qed.

Lemma _wrapListener_returns depth func c :
  errorsHeard c ->
  preserves (listenersAre (listeners c)) func ->
  fst (_wrapListener (this_at (S depth)) func c) = Ok tt.
Proof.
  intros Hheard Hfunc. unfold _wrapListener, try_catch.
  specialize (Hfunc c eq_refl). unfold listenersAre in Hfunc.
  destruct (func c) as [[[] | e] c']; simpl in *.
  - reflexivity.
  - rewrite emit_error_heard; [reflexivity |].
    unfold errorsHeard. rewrite Hfunc. exact Hheard.
Qed.

Ltac listeners_preserved :=
  repeat preserves_step;
  first
    [ apply preserves_isActive
    | apply preserves__handleWebSocketOpen
    | apply preserves__webSocketClosed
    | apply preserves_closeConnection
    | apply preserves__handleRpcData
    | apply preserves__handleRpcError
    | apply preserves__handleRpcPingSuccess
    | apply preserves__handleRpcPingFail
    | apply (proj1 (listenersAre_this_at _ _))
    | idtac ];
  try apply listenersAre_this_at; listeners_leaf.

Lemma fst_after_modify {A} f (k : M A) c :
  fst ((modify f ;; k) c) = fst (k (f c)).
Proof. reflexivity. Qed.

Lemma wrapped_event_returns depth input c :
  isWrappedEvent input = true ->
  errorsHeard c ->
  fst (step (this_at (S depth)) input c) = Ok tt.
Proof.
  intros Hw Hheard.
  destruct input; try discriminate; cbn [step].
  - unfold webSocket_becomes. rewrite fst_after_modify.
    apply _wrapListener_returns; [exact Hheard | listeners_preserved].
  - apply _wrapListener_returns; [exact Hheard |].
    unfold _handleWebSocketError. listeners_preserved.
  - unfold webSocket_becomes. rewrite fst_after_modify.
    apply _wrapListener_returns; [exact Hheard |].
    unfold _handleWebSocketClose. listeners_preserved.
  - apply _wrapListener_returns; [exact Hheard |].
    unfold _handleWebSocketMessage, rpc_write. listeners_preserved.
  - apply _wrapListener_returns; [exact Hheard | listeners_preserved].
Qed.

Lemma example_listening_errorsHeard inputs :
  errorsHeard (run (this_at 3) inputs example_listening).
Proof.
  unfold errorsHeard. rewrite listeners_run. split.
  - discriminate.
  - intros listener ev [<- | []]. reflexivity.
Qed.

(** the unit test: a [webSocketOpen] listener that throws; the transport's
    [open] event returns and the error is emitted *)
Example throwing_open_listener_is_reported :
  let c := on on_webSocketOpen (fun _ => [CallThrow (Thrown 7)])
              example_listening in
  let c1 := run (this_at 3) [do_start] c in
  step (this_at 3) (webSocket_open 0%nat) c1
  = (Ok tt, run (this_at 3) [do_start; webSocket_open 0%nat] c) /\
  emitted (run (this_at 3) [do_start; webSocket_open 0%nat] c)
  = [webSocketConnecting; webSocketOpen; error (Thrown 7)].
Proof. vm_compute. split; reflexivity. Qed.

(** ** [hasActiveConnection] *)

Ltac paused_leaf :=
  intros; unfold paused in *; cbn; first [assumption | reflexivity].

Lemma paused_this_at depth : self_preserves paused (this_at depth).
Proof. apply preserves_this_at; paused_leaf. Qed.

Lemma paused_inactive c : paused c -> hasActiveConnection c = false.
Proof.
  unfold paused, hasActiveConnection. intros ->. apply andb_false_r.
Qed.

Lemma paused_step_not_open depth input :
  isOpen input = false -> preserves paused (step (this_at depth) input).
Proof.
  intros Hisopen.
  pose proof (paused_this_at depth) as Hthis.
  destruct (isSetter input) eqn:Hsetter.
  - destruct input; try discriminate; cbn [step];
      unfold setter_url, setter_reconnect, setter_consecutivePingFailClose,
        setter_connectTimeout, setter_reconnectCounterMax,
        setter_timeoutCloseCode, setter_internalErrorCloseCode,
        setter_createConnectionCallback, setter_reconnectDelayCallback;
      repeat preserves_step; paused_leaf.
  - apply preserves_step_input; try exact Hthis; try assumption; paused_leaf.
Qed.

Lemma paused_step depth input c :
  opensActive input c = false ->
  paused c -> paused (snd (step (this_at depth) input c)).
Proof.
  intros Hopen Hp.
  destruct (isOpen input) eqn:Hisopen.
  - destruct input; try discriminate. simpl in Hopen.
    simpl. unfold webSocket_on_open, _wrapListener, webSocket_becomes,
      isActive, try_catch, bind, modify, get, ret, when. cbn.
    rewrite Hopen. exact Hp.
  - apply paused_step_not_open; assumption.
Qed.

Lemma paused_run depth inputs c :
  noOpenHandled (this_at depth) inputs c = true ->
  paused c -> paused (run (this_at depth) inputs c).
Proof.
  revert c. induction inputs as [| input inputs IH]; intros c Hno Hp; simpl.
  - exact Hp.
  - simpl in Hno. apply andb_prop in Hno. destruct Hno as [Hopen Hno].
    apply IH; [exact Hno |].
    apply paused_step; [| exact Hp].
    destruct (opensActive input c); [discriminate | reflexivity].
Qed.

Lemma bind_get {B} (k : Client -> M B) c : (x <- get ;; k x) c = k c c.
Proof. reflexivity. Qed.

Lemma returns_bind {A B} (Q : Client -> Prop) (m : M A) (k : A -> M B) c a :
  fst (m c) = Ok a -> Q (snd (k a (snd (m c)))) -> Q (snd (bind m k c)).
Proof.
  unfold bind. destruct (m c) as [[a' | e] c']; simpl; intros H HQ.
  - injection H as ->. exact HQ.
  - discriminate.
Qed.

Lemma established_bind {A B} (Q : Client -> Prop) (m : M A) (k : A -> M B) c :
  Q (snd (m c)) -> (forall a, preserves Q (k a)) -> Q (snd (bind m k c)).
Proof.
  unfold bind. destruct (m c) as [[a | e] c']; simpl; intros HQ Hk.
  - apply Hk, HQ.
  - exact HQ.
Qed.

Lemma _clearConnectTimeoutTimer_returns c :
  fst (_clearConnectTimeoutTimer c) = Ok tt.
Proof.
  unfold _clearConnectTimeoutTimer. js.
  destruct (connectTimeoutTimer (private c)); reflexivity.
Qed.

(** handling a close pauses JSONBird, whatever the listeners and the
    callbacks do afterwards *)
Lemma _webSocketClosed_pauses depth code reason closedByRemote c :
  hasHandledWebSocketClose (private c) = false ->
  paused (snd (_webSocketClosed (this_at depth) code reason closedByRemote c)).
Proof.
  intros Hh. pose proof (paused_this_at depth) as Hthis.
  unfold _webSocketClosed. rewrite bind_get, Hh.
  apply returns_bind with (a := tt); [reflexivity |].
  apply returns_bind with (a := tt);
    [apply _clearConnectTimeoutTimer_returns |].
  apply established_bind; [reflexivity |]. intros _.
  unfold call_reconnectDelayCallback, rpc_stopPinging.
  repeat preserves_step;
    first [ apply preserves__clearReconnectTimer
          | apply preserves_rpc_setTimeout
          | apply Hthis
          | idtac ];
    paused_leaf.
Qed.

(** the transport's [open], handled, with quiet listeners *)
Lemma open_handled depth c webSocket :
  activeWebSocket (private c) = Some webSocket ->
  (webSocket < List.length (sockets c))%nat ->
  quiet c ->
  let c' := snd (step (this_at (S depth)) (webSocket_open webSocket) c) in
  fst (step (this_at (S depth)) (webSocket_open webSocket) c) = Ok tt /\
  emitted c' = emitted c ++ [webSocketOpen] /\
  hasActiveConnection c' = started (private c) /\
  isPaused (rpc c') = false /\
  isSendingPings (rpc c') = true /\
  firstPingInterval (rpc c') = Some 1 /\
  pingInterval (rpc c') = pingInterval (rpc c) /\
  connectTimeoutTimer (private c') = None.
Proof.
  intros Hactive Hlt Hq. cbn [step].
  unfold webSocket_on_open, _wrapListener, _handleWebSocketOpen. js.
  rewrite Hactive. js_cbn. rewrite Nat.eqb_refl. js_cbn.
  assert (Hstate :
             option_map readyState
               (nth_error (nth_update webSocket (set_readyState OPEN)
                             (sockets c)) webSocket) = Some OPEN).
  { rewrite nth_update_same.
    destruct (nth_error (sockets c) webSocket) eqn:E; [reflexivity |].
    apply nth_error_None in E. lia. }
  destruct (connectTimeoutTimer (private c)) as [t |]; js_cbn;
    (destruct (reconnectTimer (private c)) as [t' |]; js_cbn;
     rewrite emit_quiet by (exact Hq || reflexivity); js_cbn;
     unfold hasActiveConnection, webSocket_readyState; js_cbn;
     rewrite ?Hactive, Hstate; js_cbn;
     repeat split; auto; repeat rewrite andb_true_r; reflexivity).
Qed.

(** ** The close signals of a session, with quiet listeners *)

Lemma emit_quiet_state this ev c :
  quiet c -> snd (emit this ev c) = set_emitted (emitted c ++ [ev]) c.
Proof.
  intros Hq. destruct (isError ev) eqn:Hev.
  - destruct ev; try discriminate.
    assert (Hall : forall l, In l (listeners c on_error) ->
                             l (error err) = [])
      by (intros l Hl; eapply Hq; exact Hl).
    pose proof (for_each_quiet this (listeners c on_error) (error err)
                  (set_emitted (emitted c ++ [error err]) c) Hall) as Hfe.
    unfold emit, bind, modify, get.
    cbn [listeners set_emitted eventName fst snd].
    destruct (listeners c on_error) as [| l ls]; [reflexivity |].
    rewrite Hfe. reflexivity.
  - rewrite emit_quiet by assumption. reflexivity.
Qed.

Lemma closeCount_snoc_other l ev :
  isClose ev = false -> closeCount (l ++ [ev]) = closeCount l.
Proof.
  intros H. rewrite closeCount_app. unfold closeCount at 2. simpl.
  rewrite H. simpl. lia.
Qed.

Lemma closeCount_snoc_close l info :
  closeCount (l ++ [webSocketClose info]) = S (closeCount l).
Proof. rewrite closeCount_app. unfold closeCount at 2. simpl. lia. Qed.

(** the first handling of a close emits one [webSocketClose] *)
Lemma _webSocketClosed_once depth c code reason closedByRemote :
  quiet c ->
  hasHandledWebSocketClose (private c) = false ->
  backoffReturns c ->
  let c' := snd (_webSocketClosed (this_at (S depth)) code reason
                   closedByRemote c) in
  fst (_webSocketClosed (this_at (S depth)) code reason closedByRemote c)
    = Ok tt /\
  closeCount (emitted c') = S (closeCount (emitted c)) /\
  activeWebSocket (private c') = None /\
  listeners c' = listeners c.
Proof.
  intros Hq Hh [delay Hd].
  destruct (started (private c) && reconnect (private c)) eqn:Hsr.
  - apply andb_prop in Hsr. destruct Hsr as [Hs Hr].
    destruct (_webSocketClosed_reconnects depth c code reason closedByRemote
                delay Hq Hh Hs Hr Hd)
      as (H1 & _ & _ & _ & _ & H6 & H7 & _ & _ & _ & _ & _ & H13).
    repeat split; try assumption.
    rewrite H6. apply closeCount_snoc_close.
  - destruct (_webSocketClosed_stops depth c code reason closedByRemote
                Hq Hh Hsr)
      as (H1 & _ & _ & _ & H5 & H6 & _ & _ & _ & _ & _ & H12 & _).
    repeat split; try assumption.
    rewrite H5. apply closeCount_snoc_close.
Qed.

Lemma closeConnection_once depth c code reason webSocket :
  quiet c ->
  isValidOutgoingCloseCode code = true ->
  activeWebSocket (private c) = Some webSocket ->
  hasHandledWebSocketClose (private c) = false ->
  backoffReturns c ->
  let c' := snd (closeConnection (this_at (S depth)) code reason c) in
  fst (closeConnection (this_at (S depth)) code reason c) = Ok true /\
  closeCount (emitted c') = S (closeCount (emitted c)) /\
  activeWebSocket (private c') = None /\
  listeners c' = listeners c.
Proof.
  intros Hq Hcode Hactive Hh Hb.
  rewrite (closeConnection_active _ code reason c webSocket Hcode Hactive).
  destruct (_webSocketClosed_once depth (closed_on webSocket code reason c)
              code reason false Hq Hh Hb) as (H1 & H2 & H3 & H4).
  cbn [fst snd]. rewrite H1. repeat split; assumption.
Qed.

Ltac emit_state Hq :=
  repeat match goal with
  | |- context [emit ?t ?ev ?c0] =>
      let E := fresh "E" in
      let r := fresh "r" in
      let cc := fresh "c" in
      destruct (emit t ev c0) as [r cc] eqn:E;
      apply (f_equal snd) in E;
      rewrite (emit_quiet_state t ev c0) in E by exact Hq;
      cbn [snd] in E; subst cc; destruct r
  end.

(** once no transport is active, a close signal emits no [webSocketClose]
    and leaves no transport active *)
Lemma signal_idle depth s c :
  quiet c ->
  activeWebSocket (private c) = None ->
  let c' := snd (signal (this_at (S depth)) s c) in
  closeCount (emitted c') = closeCount (emitted c) /\
  activeWebSocket (private c') = None /\
  listeners c' = listeners c.
Proof.
  intros Hq Hactive.
  destruct s; cbn [signal step run_timer];
    unfold webSocket_on_close, rpc_on_pingFail, rpc_on_error, _wrapListener,
      _handleWebSocketClose, _handleRpcPingFail, _handleRpcError,
      _handleConnectionTimeout.
  - js. rewrite Hactive. js_cbn. repeat split; assumption.
  - js. destruct (isValidOutgoingCloseCode code0); js_cbn;
      rewrite ?Hactive; js_cbn; repeat split; assumption.
  - js. destruct (isValidOutgoingCloseCode code0); js_cbn;
      (destruct (reconnectTimer (private c)); js_cbn;
       rewrite ?Hactive; js_cbn; repeat split; assumption).
  - js. rewrite Hactive. js_cbn. repeat split; assumption.
  - js. destruct (consecutiveFails >=? consecutivePingFailClose (private c));
      js_cbn;
      try (destruct (isValidOutgoingCloseCode (timeoutCloseCode (private c)));
           js_cbn; rewrite ?Hactive; js_cbn);
      emit_state Hq; js_cbn;
      rewrite ?closeCount_snoc_other by reflexivity;
      repeat split; assumption.
  - js. destruct (isValidOutgoingCloseCode
                    (internalErrorCloseCode (private c)));
      js_cbn; rewrite ?Hactive; js_cbn;
      emit_state Hq; js_cbn;
      rewrite ?closeCount_snoc_other by reflexivity;
      repeat split; assumption.
Qed.

Ltac use_once depth Hq Hh Hb :=
  match goal with
  | Ha : activeWebSocket (private _) = Some ?ws
    |- context [closeConnection ?t ?code ?reason ?C] =>
      let H1 := fresh "H1" in
      let H2 := fresh "H2" in
      let H3 := fresh "H3" in
      let H4 := fresh "H4" in
      let r := fresh "r" in
      let cc := fresh "c" in
      destruct (closeConnection_once depth C code reason ws Hq
                  ltac:(assumption || reflexivity) Ha Hh Hb)
        as (H1 & H2 & H3 & H4);
      destruct (closeConnection t code reason C) as [r cc];
      cbn [fst snd] in H1, H2, H3, H4; subst r
  | |- context [_webSocketClosed ?t ?code ?reason ?cbr ?C] =>
      let H1 := fresh "H1" in
      let H2 := fresh "H2" in
      let H3 := fresh "H3" in
      let H4 := fresh "H4" in
      let r := fresh "r" in
      let cc := fresh "c" in
      destruct (_webSocketClosed_once depth C code reason cbr Hq Hh Hb)
        as (H1 & H2 & H3 & H4);
      destruct (_webSocketClosed t code reason cbr C) as [r cc];
      cbn [fst snd] in H1, H2, H3, H4; subst r
  end.

Ltac js_keep :=
  cbn -[emit nth_update Z.min Z.max Z.add Z.sub Z.geb filter List.length
        closeConnection _webSocketClosed this_at].

(** the first effective close signal of a session emits one
    [webSocketClose] and leaves no transport active *)
Lemma signal_first depth s c :
  quiet c ->
  openSession c ->
  effective s c ->
  let c' := snd (signal (this_at (S depth)) s c) in
  closeCount (emitted c') = S (closeCount (emitted c)) /\
  activeWebSocket (private c') = None /\
  listeners c' = listeners c.
Proof.
  intros Hq (Hsome & Hh & Htimeout & Hinternal & Hb) Heff.
  destruct Hsome as [ws Hactive].
  assert (Hforward : forall ev c0,
             isClose ev = false ->
             closeCount (emitted c0) = S (closeCount (emitted c)) ->
             activeWebSocket (private c0) = None ->
             listeners c0 = listeners c ->
             let c' := snd (self_emit (this_at (S depth)) ev c0) in
             closeCount (emitted c') = S (closeCount (emitted c)) /\
             activeWebSocket (private c') = None /\
             listeners c' = listeners c).
  { intros ev c0 Hev H2 H3 H4. cbn [this_at self_emit].
    rewrite emit_quiet_state by (apply (quiet_listeners c c0 H4 Hq)).
    js_cbn. rewrite closeCount_snoc_other by exact Hev.
    repeat split; assumption. }
  destruct s; cbn [signal step run_timer effective] in *;
    unfold webSocket_on_close, rpc_on_pingFail, rpc_on_error, _wrapListener,
      _handleWebSocketClose, _handleRpcPingFail, _handleRpcError,
      _handleConnectionTimeout, webSocket_becomes, isActive, when, stop,
      _clearReconnectTimer, rpc_clearTimeout, rpc_stopPinging, on_rpc,
      assign, try_catch, modify, get, bind, ret, throw;
    js_keep.
  - rewrite Heff, Nat.eqb_refl. js_keep.
    use_once depth Hq Hh Hb. js_keep. repeat split; assumption.
  - use_once depth Hq Hh Hb. js_keep. repeat split; assumption.
  - destruct (reconnectTimer (private c)); js_keep;
      use_once depth Hq Hh Hb; js_keep; repeat split; assumption.
  - rewrite Heff, Nat.eqb_refl. js_keep.
    use_once depth Hq Hh Hb. js_keep. repeat split; assumption.
  - rewrite Heff. js_keep. use_once depth Hq Hh Hb. js_keep.
    apply Hforward; auto.
  - use_once depth Hq Hh Hb. js_keep. apply Hforward; auto.
Qed.

Lemma signals_idle depth l c :
  quiet c ->
  activeWebSocket (private c) = None ->
  closeCount (emitted (signals (this_at (S depth)) l c))
  = closeCount (emitted c).
Proof.
  revert c. induction l as [| s l IH]; intros c Hq Hactive; cbn [signals].
  - reflexivity.
  - destruct (signal_idle depth s c Hq Hactive) as (H1 & H2 & H3).
    rewrite IH; [exact H1 | apply (quiet_listeners c _ H3 Hq) | exact H2].
Qed.

(** * The claims of the specification *)

(** C1 fails on the code. [_webSocketClosed] sets
    [hasHandledWebSocketClose] after it has emitted [webSocketClose]. When a
    listener of that event starts the client again, [_connect] clears the
    flag for the new transport and the assignment that follows the emit sets
    it: the new session begins with its close marked as handled. Every close
    signal for it returns at the guard: of two sessions that were both closed,
    one [webSocketClose] is emitted; the second transport stays the active
    one although [close] was called on it, and a [stop()] followed by a
    [start()] throws; no call or event threw before that. *)
Theorem C1_close_lost_after_restart_in_listener :
  let this := this_at 4 in
  let c := run this two_sessions_closed restarting_client in
  outcomes this two_sessions_closed restarting_client
    = [Ok tt; Ok tt; Ok tt; Ok tt] /\
  emitted c
    = [webSocketConnecting; closedForGood (Int 1006) "gone" true;
       webSocketConnecting] /\
  List.length (sockets c) = 2%nat /\
  closeCount (emitted c) = 1%nat /\
  activeWebSocket (private c) = Some 1%nat /\
  hasHandledWebSocketClose (private c) = true /\
  option_map close_args (nth_error (sockets c) 1)
    = Some [(Int 1000, "bye")] /\
  outcomes this [do_stop_default; do_start] c
    = [Ok tt;
       Throw (AssertionFailed
                "_connect(): There already is an active connection")] /\
  closeCount (emitted (run this [do_stop_default; do_start] c)) = 1%nat.
Proof. vm_compute. repeat split; reflexivity. Qed.

(** C2. With [reconnectCounterMax] fixed at a value >= 0 and the counter
    starting between 0 and it (at 0 on a new client), the counter is between
    0 and [reconnectCounterMax] after every history of calls and events, at
    every depth of stack and whatever the listeners and callbacks do; a ping
    success takes the counter c to max(0, c - 1) (quiet listeners), and from
    a counter of 5, six ping successes in a row leave the counter at
    4, 3, 2, 1, 0, 0. *)
Theorem C2_reconnectCounter_range :
  forall (depth : nat),
    (forall (inputs : list Input) (c : Client),
       0 <= reconnectCounterMax (private c) ->
       0 <= reconnectCounter (private c) <= reconnectCounterMax (private c) ->
       Forall keepsReconnectCounterMax inputs ->
       let c' := run (this_at depth) inputs c in
       reconnectCounterMax (private c') = reconnectCounterMax (private c) /\
       0 <= reconnectCounter (private c') <= reconnectCounterMax (private c)) /\
    (forall (c : Client) (delay : Z),
       quiet c ->
       reconnectCounter
         (private (snd (step (this_at depth) (rpc_pingSuccess delay) c)))
       = Z.max 0 (reconnectCounter (private c) - 1)) /\
    (forall (c : Client) (d1 d2 d3 d4 d5 d6 : Z),
       quiet c ->
       reconnectCounter (private c) = 5 ->
       counters (this_at depth)
         [rpc_pingSuccess d1; rpc_pingSuccess d2; rpc_pingSuccess d3;
          rpc_pingSuccess d4; rpc_pingSuccess d5; rpc_pingSuccess d6] c
       = [4; 3; 2; 1; 0; 0]).
Proof.
  intros depth. split; [| split].
  - intros inputs c Hmx Hrange Hkeep c'.
    apply (counterInRange_run _ depth inputs c Hmx Hkeep).
    split; [reflexivity | exact Hrange].
  - intros c delay Hq. apply pingSuccess_quiet, Hq.
  - intros c d1 d2 d3 d4 d5 d6 Hq H5. unfold counters.
    repeat match goal with
    | Hq0 : quiet ?c0
      |- context [step (this_at depth) (rpc_pingSuccess ?d) ?c0] =>
        let Hc := fresh "Hc" in
        let Hl := fresh "Hl" in
        destruct (pingSuccess_quiet depth c0 d Hq0) as [Hc Hl];
        apply quiet_listeners with (1 := Hl) in Hq0;
        generalize dependent
          (snd (step (this_at depth) (rpc_pingSuccess d) c0));
        intros
    end.
    repeat f_equal; lia.
Qed.

Lemma C2_reconnectCounter_range_witness :
  0 <= reconnectCounter
         (private (run (this_at 3)
                     [do_start; webSocket_close 0%nat (Int 1006) "";
                      rpc_pingSuccess 3] example_client)) <= 8.
Proof.
  refine (proj2 (proj1 (C2_reconnectCounter_range 3)
                   [do_start; webSocket_close 0%nat (Int 1006) "";
                    rpc_pingSuccess 3] example_client _ _ _)).
  - vm_compute; discriminate.
  - vm_compute; split; discriminate.
  - repeat constructor; intros value H; discriminate H.
Defined.

(** C3. For every integer c, assigning c to [timeoutCloseCode] or to
    [internalErrorCloseCode] succeeds, and stores c, exactly when c = 1000 or
    3000 <= c <= 4999; for every other integer the assignment throws and
    leaves the client, the stored close code included, as it was. *)
Theorem C3_close_code_setters :
  forall (z : Z) (c : Client),
    ((z = 1000 \/ 3000 <= z <= 4999) <->
       setter_timeoutCloseCode (Int z) c
       = (Ok tt, set_private (set_timeoutCloseCode (Int z) (private c)) c)) /\
    ((z = 1000 \/ 3000 <= z <= 4999) <->
       setter_internalErrorCloseCode (Int z) c
       = (Ok tt,
          set_private (set_internalErrorCloseCode (Int z) (private c)) c)) /\
    (~ (z = 1000 \/ 3000 <= z <= 4999) <->
       setter_timeoutCloseCode (Int z) c
       = (Throw (InvalidCloseCode "Invalid value for timeoutCloseCode:" (Int z)),
          c)) /\
    (~ (z = 1000 \/ 3000 <= z <= 4999) <->
       setter_internalErrorCloseCode (Int z) c
       = (Throw (InvalidCloseCode "Invalid value for internalErrorCloseCode:"
                   (Int z)), c)).
Proof.
  intros z c.
  unfold setter_timeoutCloseCode, setter_internalErrorCloseCode,
    assertValidOutgoingCloseCode, bind, assign, modify, ret, throw.
  pose proof (isValidOutgoingCloseCode_Int z) as Hv.
  destruct (isValidOutgoingCloseCode (Int z)).
  - assert (z = 1000 \/ 3000 <= z <= 4999) by (apply Hv; reflexivity).
    repeat split; intros; try reflexivity; try assumption;
      try contradiction; discriminate.
  - assert (~ (z = 1000 \/ 3000 <= z <= 4999))
      by (intros Hz; apply Hv in Hz; discriminate).
    repeat split; intros; try reflexivity; try assumption;
      try contradiction; discriminate.
Qed.

(** C4, as the code has it. Calling [start()] while started throws
    "start(): Already started" and leaves the state as it was. Calling it
    when not started and with no transport active, with a transport factory
    that returns a transport and listeners that return, both without calling
    the client (quiet listeners), returns, sets [started], and begins the
    connect attempt inside the call: the factory is asked for a transport,
    which becomes the active one, the connect-timeout timer is set with
    [connectTimeout], [webSocketConnecting] is emitted, the backoff callback
    is not consulted and no reconnect timer is held. Under the same
    conditions [start()] succeeds after a [stop()] with default arguments,
    provided no transport was active before the [stop()] or the close of the
    active one had not been handled yet. Calling [start()] when not started
    while a transport is still active throws "_connect(): There already is
    an active connection", having set [started]. *)
Theorem C4_start :
  forall (depth : nat) (c : Client),
    (started (private c) = true ->
     start (this_at depth) c
     = (Throw (AssertionFailed "start(): Already started"), c)) /\
    (started (private c) = false ->
     activeWebSocket (private c) = None ->
     quiet c ->
     createConnectionCallback (private c) (url (private c)) = Ok tt ->
     let c' := snd (start (this_at (S depth)) c) in
     fst (start (this_at (S depth)) c) = Ok tt /\
     started (private c') = true /\
     activeWebSocket (private c') = Some (List.length (sockets c)) /\
     sockets c' = sockets c ++ [newWebSocket] /\
     connectTimeoutTimer (private c') = Some (List.length (timers (rpc c))) /\
     nth_error (timers (rpc c')) (List.length (timers (rpc c)))
       = Some {| timer_callback :=
                   connectTimeoutTimer_callback (List.length (sockets c))
                     (connectTimeout (private c));
                 timer_delay := connectTimeout (private c);
                 timer_cleared := false |} /\
     List.length (timers (rpc c')) = S (List.length (timers (rpc c))) /\
     reconnectTimer (private c') = None /\
     delayCalls c' = delayCalls c /\
     emitted c' = emitted c ++ [webSocketConnecting]) /\
    (quiet c ->
     createConnectionCallback (private c) (url (private c)) = Ok tt ->
     hasHandledWebSocketClose (private c) = false
       \/ activeWebSocket (private c) = None ->
     let c1 := snd (stop_default (this_at (S depth)) c) in
     fst (stop_default (this_at (S depth)) c) = Ok tt /\
     fst (start (this_at (S depth)) c1) = Ok tt /\
     started (private (snd (start (this_at (S depth)) c1))) = true) /\
    (forall webSocket,
       started (private c) = false ->
       activeWebSocket (private c) = Some webSocket ->
       start (this_at depth) c
       = (Throw (AssertionFailed
                   "_connect(): There already is an active connection"),
          set_private (set_started true (private c)) c)).
Proof.
  intros depth c. split; [| split; [| split]]; cycle 3.
  - intros webSocket Hs Ha. unfold start, _connect, bind, get, assert, assign,
      modify, throw, ret. rewrite Hs. cbn. rewrite Ha. reflexivity.
  - intros Hs. unfold start, bind, get, assert, throw. rewrite Hs. reflexivity.
  - intros Hs Ha Hq Hf.
    destruct (start_not_started depth c Hs Ha Hq Hf)
      as (H1 & H2 & H3 & H4 & _ & H6 & H7 & H8 & H9 & H10 & H11).
    repeat split; assumption.
  - intros Hq Hf Hsession c1.
    assert (Hvalid : isValidOutgoingCloseCode (Int closeCodes.NORMAL) = true)
      by reflexivity.
    destruct (stop_quiet depth c (Int closeCodes.NORMAL) "Normal Closure"
                Hq Hvalid)
      as (Hok & Hst & _ & _ & _ & _ & Hact & _ & Hl & Hcb & Hurl & _).
    fold (stop_default (this_at (S depth)) c) in *. fold c1 in Hst, Hact, Hl, Hcb, Hurl.
    assert (Hq1 : quiet c1).
    { intros name listener ev Hin. rewrite Hl in Hin. eapply Hq; exact Hin. }
    assert (Ha1 : activeWebSocket (private c1) = None).
    { rewrite Hact. destruct Hsession as [-> | ->].
      - reflexivity.
      - destruct (hasHandledWebSocketClose (private c)); reflexivity. }
    assert (Hf1 : createConnectionCallback (private c1) (url (private c1))
                  = Ok tt) by (rewrite Hcb, Hurl; exact Hf).
    destruct (start_not_started depth c1 Hst Ha1 Hq1 Hf1) as (H1 & H2 & _).
    repeat split; assumption.
Qed.

Lemma C4_start_witness :
  fst (start (this_at 3) example_client) = Ok tt /\
  fst (start (this_at 3) (snd (stop_default (this_at 3)
         (run (this_at 3) [do_start; webSocket_open 0%nat] example_client))))
  = Ok tt /\
  fst (start (this_at 3)
         (run (this_at 3) [do_start; do_stop (Int 5) "bye"] example_client))
  = Throw (AssertionFailed "_connect(): There already is an active connection").
Proof.
  split; [| split].
  - refine (proj1 (proj1 (proj2 (C4_start 2 example_client))
                     eq_refl eq_refl example_client_quiet eq_refl)).
  - refine (proj1 (proj2 (proj1 (proj2 (proj2 (C4_start 2
             (run (this_at 3) [do_start; webSocket_open 0%nat]
                example_client))))
             _ eq_refl (or_introl eq_refl)))).
    intros name listener ev H. destruct H.
  - rewrite (proj2 (proj2 (proj2 (C4_start 3
               (run (this_at 3) [do_start; do_stop (Int 5) "bye"]
                  example_client)))) 0%nat eq_refl eq_refl).
    reflexivity.
Defined.

(** C4 as stated fails: not started does not make [start()] succeed. A
    [stop] that threw on a refused close code leaves the client not started
    with its transport still active, and [start()] then throws although the
    client is not started. *)
Lemma C4_start_counterexample :
  let this := this_at 3 in
  let c := run this [do_start; do_stop (Int 5) "bye"] example_client in
  started (private c) = false /\
  fst (start this c)
  = Throw (AssertionFailed "_connect(): There already is an active connection").
Proof. vm_compute. split; reflexivity. Qed.

(** X19. The backoff callback never calling the client: when a close is
    handled while started with reconnect enabled, on a session whose close
    was not handled before, [reconnectDelayCallback] is called with the
    counter as it is before the increment. When it returns a delay, and the
    listeners are quiet, the delay is the delay of the reconnect timer and
    of the event, and the counter is increased (clamped to
    [reconnectCounterMax]) after the call; when it throws, whatever the
    listeners, the counter is not increased. In every history in which
    [reconnectCounterMax], a value >= 0, is not assigned, begun with the
    counter between 0 and [reconnectCounterMax] and no call made yet, every
    counter given to the callback is between 0 and [reconnectCounterMax]. On
    a new client with [reconnectDelayCallback = x => (x + 1) * 1111], three
    connect timeouts in a row give the callback 0, 1, 2, take the counter to
    1, 2, 3 and schedule the delays 1111, 2222, 3333. *)
Theorem backoff_called_before_the_increment :
  forall (depth : nat),
    (forall c code reason closedByRemote delay,
       quiet c ->
       hasHandledWebSocketClose (private c) = false ->
       started (private c) = true ->
       reconnect (private c) = true ->
       reconnectDelayCallback (private c) (reconnectCounter (private c))
         = Ok delay ->
       let c' := snd (_webSocketClosed (this_at (S depth)) code reason
                        closedByRemote c) in
       delayCalls c' = delayCalls c ++ [reconnectCounter (private c)] /\
       reconnectCounter (private c')
         = Z.min (reconnectCounter (private c) + 1)
                 (reconnectCounterMax (private c)) /\
       reconnectTimer (private c') = Some (List.length (timers (rpc c))) /\
       nth_error (timers (rpc c')) (List.length (timers (rpc c)))
         = Some (reconnectTimer_of delay) /\
       emitted c'
         = emitted c ++ [closedForNow code reason closedByRemote delay]) /\
    (forall c code reason closedByRemote e,
       hasHandledWebSocketClose (private c) = false ->
       started (private c) = true ->
       reconnect (private c) = true ->
       reconnectDelayCallback (private c) (reconnectCounter (private c))
         = Throw e ->
       let c' := snd (_webSocketClosed (this_at depth) code reason
                        closedByRemote c) in
       delayCalls c' = delayCalls c ++ [reconnectCounter (private c)] /\
       reconnectCounter (private c') = reconnectCounter (private c)) /\
    (forall inputs c,
       0 <= reconnectCounterMax (private c) ->
       0 <= reconnectCounter (private c) <= reconnectCounterMax (private c) ->
       delayCalls c = [] ->
       Forall keepsReconnectCounterMax inputs ->
       Forall (fun x => 0 <= x <= reconnectCounterMax (private c))
         (delayCalls (run (this_at depth) inputs c))) /\
    (let c := run (this_at 3) three_failed_connects example_client in
     delayCalls c = [0; 1; 2] /\
     counters (this_at 3) three_failed_connects example_client
       = [0; 1; 1; 2; 2; 3] /\
     scheduledReconnectDelays c = [1111; 2222; 3333] /\
     reconnectDelays (emitted c) = [1111; 2222; 3333] /\
     closeCount (emitted c) = 3%nat).
Proof.
  intros depth. split; [| split; [| split]].
  - intros c code reason closedByRemote delay Hq Hh Hs Hr Hd.
    destruct (_webSocketClosed_reconnects depth c code reason closedByRemote
                delay Hq Hh Hs Hr Hd) as (_ & H1 & H2 & H3 & H4 & H5 & _).
    repeat split; assumption.
  - intros c code reason closedByRemote e Hh Hs Hr Hd.
    destruct (_webSocketClosed_backoff_throws depth c code reason
                closedByRemote e Hh Hs Hr Hd) as (_ & H1 & H2 & _).
    split; assumption.
  - intros inputs c Hmx Hrange Hcalls Hkeep.
    apply (callsInRange_run _ depth inputs c Hmx Hkeep).
    repeat split; try apply Hrange. rewrite Hcalls. constructor.
  - vm_compute. repeat split; reflexivity.
Qed.

Lemma backoff_called_before_the_increment_witness :
  delayCalls
    (snd (_webSocketClosed (this_at 3) (Int 1006) "" true
            (run (this_at 3) [do_start] example_client)))
  = [0].
Proof.
  refine (proj1 (proj1 (backoff_called_before_the_increment 2)
                   (run (this_at 3) [do_start] example_client)
                   (Int 1006) "" true 1111 _ eq_refl eq_refl eq_refl
                   eq_refl)).
  intros name listener ev H. destruct H.
Defined.

(** C5 fails on the code. The documentation of [reconnectDelayCallback]
    and the claim promise the callback a counter between 0 and
    [reconnectCounterMax]. The setter of [reconnectCounterMax] only stores
    the new maximum, and [_webSocketClosed] gives the callback the counter
    before it clamps it: once the maximum has been lowered below the counter,
    the next close that is handled gives the callback a counter above the
    maximum. After two connect timeouts (counter 2) and
    [reconnectCounterMax = 1], the third connect timeout gives the callback
    2, and only then sets the counter to 1; nothing threw on the way. *)
Theorem C5_backoff_given_counter_above_maximum :
  (forall (depth : nat) (c : Client) (value : Z) (code : JsNumber)
          (reason : string) (closedByRemote : bool),
     quiet c ->
     hasHandledWebSocketClose (private c) = false ->
     started (private c) = true ->
     reconnect (private c) = true ->
     value < reconnectCounter (private c) ->
     let this := this_at (S depth) in
     let c1 := snd (step this (do_set_reconnectCounterMax value) c) in
     let c2 := snd (_webSocketClosed this code reason closedByRemote c1) in
     fst (step this (do_set_reconnectCounterMax value) c) = Ok tt /\
     reconnectCounterMax (private c1) = value /\
     reconnectCounter (private c1) = reconnectCounter (private c) /\
     delayCalls c2 = delayCalls c ++ [reconnectCounter (private c)]) /\
  (let this := this_at 3 in
   let c := run this maximum_lowered example_client in
   let c' := snd (step this (timer_fires 4) c) in
   outcomes this (maximum_lowered ++ [timer_fires 4]) example_client
     = [Ok tt; Ok tt; Ok tt; Ok tt; Ok tt; Ok tt; Ok tt] /\
   reconnectCounterMax (private c) = 1 /\
   reconnectCounter (private c) = 2 /\
   delayCalls c' = delayCalls c ++ [2] /\
   reconnectCounterMax (private c') = 1 /\
   reconnectCounter (private c') = 1).
Proof.
  split.
  - intros depth c value code reason closedByRemote Hq Hh Hs Hr Hlt this c1 c2.
    subst c2 c1 this. cbn [step]. unfold setter_reconnectCounterMax, assign,
      modify. cbn [fst snd].
    set (c1 := set_private (set_reconnectCounterMax value (private c)) c).
    repeat split.
    destruct (reconnectDelayCallback (private c) (reconnectCounter (private c)))
      as [delay | e] eqn:Hd.
    + destruct (_webSocketClosed_reconnects depth c1 code reason
                  closedByRemote delay Hq Hh Hs Hr Hd) as (_ & H & _).
      exact H.
    + destruct (_webSocketClosed_backoff_throws (S depth) c1 code reason
                  closedByRemote e Hh Hs Hr Hd) as (_ & H & _).
      exact H.
  - vm_compute. repeat split; reflexivity.
Qed.




(** C7, as the code has it. With listeners that never start the client
    and never throw (whatever they call is [stop] or [closeConnection] with
    an accepted close code: quiet listeners, and the listener of the README
    that calls [stop()]), calling [stop()] twice in a row, with its default
    arguments and from any state, throws no error; at most one
    [webSocketClose] event is emitted in all, and none by the second call,
    which finds no active transport when the close of the session had not
    been handled before the first call; after either call [started] is
    false, no reconnect timer is held and the one that was pending is
    cleared. *)
Theorem C7_stop_twice :
  forall (depth : nat) (c : Client),
    closing c ->
    let this := this_at (S depth) in
    let c1 := snd (stop_default this c) in
    let c2 := snd (stop_default this c1) in
    fst (stop_default this c) = Ok tt /\
    fst (stop_default this c1) = Ok tt /\
    (closeCount (emitted c2) <= closeCount (emitted c) + 1)%nat /\
    emitted c2 = emitted c1 /\
    (hasHandledWebSocketClose (private c) = false ->
     activeWebSocket (private c1) = None) /\
    started (private c1) = false /\
    started (private c2) = false /\
    reconnectTimer (private c1) = None /\
    reconnectTimer (private c2) = None /\
    (forall handle, reconnectTimer (private c) = Some handle ->
       isCleared (timers (rpc c1)) handle = true /\
       isCleared (timers (rpc c2)) handle = true).
Proof.
  intros depth c Hq this c1 c2.
  assert (Hvalid : isValidOutgoingCloseCode (Int closeCodes.NORMAL) = true)
    by reflexivity.
  destruct (stop_closing depth c (Int closeCodes.NORMAL) "Normal Closure"
              Hq Hvalid)
    as (Hok1 & Hst1 & Hrt1 & Hcl1 & _ & Hem1 & Hact1 & Hh1 & Hl1 & _).
  fold (stop_default (this_at (S depth)) c) in *.
  fold this in Hok1, Hst1, Hrt1, Hcl1, Hem1, Hact1, Hh1, Hl1.
  fold c1 in Hst1, Hrt1, Hcl1, Hem1, Hact1, Hh1, Hl1.
  assert (Hq1 : closing c1).
  { intros name listener ev f Hin. rewrite Hl1 in Hin. eapply Hq; exact Hin. }
  destruct (stop_closing depth c1 (Int closeCodes.NORMAL) "Normal Closure"
              Hq1 Hvalid)
    as (Hok2 & Hst2 & Hrt2 & _ & _ & Hem2 & _ & _ & _ & _ & _ & _ & Hkeep).
  fold (stop_default (this_at (S depth)) c1) in *.
  fold this in Hok2, Hst2, Hrt2, Hem2, Hkeep.
  fold c2 in Hst2, Hrt2, Hem2, Hkeep.
  assert (Hnone : isSome (activeWebSocket (private c1))
                  && negb (hasHandledWebSocketClose (private c1)) = false).
  { rewrite Hact1, Hh1.
    destruct (hasHandledWebSocketClose (private c)); simpl.
    - apply andb_false_r.
    - reflexivity. }
  rewrite Hnone, app_nil_r in Hem2.
  repeat split; auto.
  - rewrite Hem2, Hem1, closeCount_app.
    destruct (isSome (activeWebSocket (private c))
              && negb (hasHandledWebSocketClose (private c)));
      unfold closeCount at 2; simpl; lia.
  - intros Hh. rewrite Hact1, Hh. reflexivity.
Qed.

(** a listener that, like the one of the README, calls [stop()] on a
    [webSocketClose] *)
Lemma C7_stop_twice_witness :
  let listener := fun ev =>
        match ev with
        | webSocketClose _ => [CallStopDefault]
        | _ => []
        end in
  let c := run (this_at 3) [do_start; webSocket_open 0%nat]
             (on on_webSocketClose listener example_client) in
  fst (stop_default (this_at 3) c) = Ok tt /\
  fst (stop_default (this_at 3) (snd (stop_default (this_at 3) c))) = Ok tt /\
  emitted (snd (stop_default (this_at 3) c))
  = [webSocketConnecting; webSocketOpen;
     closedForGood (Int 1000) "Normal Closure" false].
Proof.
  intros listener c.
  refine ((fun H => conj (proj1 H) (conj (proj1 (proj2 H)) _))
            (C7_stop_twice 2 c _)).
  - vm_compute. reflexivity.
  - intros name l ev f Hl Hf. subst c. rewrite listeners_run in Hl.
    destruct name; cbn in Hl; try contradiction.
    destruct Hl as [<- | []]. subst listener. cbn in Hf.
    destruct ev; cbn in Hf; try contradiction.
    destruct Hf as [<- | []]. reflexivity.
Defined.

(** C7 as stated fails: not from any state. With a [webSocketClose]
    listener that throws, the first [stop()] throws. With one that starts
    the client again, the client is started after the first [stop()], and
    after the second the new transport is still the active one. *)
Lemma C7_stop_twice_counterexample :
  (let this := this_at 4 in
   let c := run this [do_start; webSocket_open 0%nat]
              (on on_webSocketClose (fun _ => [CallThrow (Thrown 7)])
                 example_client) in
   fst (stop_default this c) = Throw (Thrown 7)) /\
  (let this := this_at 4 in
   let c := run this [do_start; webSocket_open 0%nat]
              (on on_webSocketClose (fun _ => [CallStart]) example_client) in
   let c1 := snd (stop_default this c) in
   let c2 := snd (stop_default this c1) in
   fst (stop_default this c) = Ok tt /\
   started (private c1) = true /\
   fst (stop_default this c1) = Ok tt /\
   started (private c2) = false /\
   activeWebSocket (private c2) = Some 1%nat).
Proof. vm_compute. repeat split; reflexivity. Qed.

(** C8, as the code has it. Whatever a function given to [_wrapListener]
    throws (an exception of a listener, of the backoff callback, of anything
    it runs) is emitted as an [error] event. If by then somebody listens to
    [error], and the listeners of [error] return without calling the client,
    the wrapper returns; if nobody listens to [error], [emit] throws the
    exception and so does the wrapper. So, with such listeners of [error],
    handling any of the transport's four events or JSONBird's [data] never
    throws, whatever the other listeners do, and neither do the class's own
    handlers of JSONBird's [error], [pingSuccess] and [pingFail]. The public
    methods are not wrapped: an exception of the transport factory leaves
    [start()], and an exception of the backoff callback leaves
    [closeConnection()], to the caller, and no [error] event is emitted. *)
Theorem C8_wrapped_handlers_catch :
  forall (depth : nat) (c : Client),
    (forall (func : M unit) e c',
       func c = (Throw e, c') ->
       errorsHeard c' ->
       _wrapListener (this_at (S depth)) func c
       = (Ok tt, set_emitted (emitted c' ++ [error e]) c')) /\
    (forall (func : M unit) e c',
       func c = (Throw e, c') ->
       listeners c' on_error = [] ->
       _wrapListener (this_at (S depth)) func c
       = (Throw e, set_emitted (emitted c' ++ [error e]) c')) /\
    (errorsHeard c ->
     forall input,
       isWrappedEvent input = true ->
       fst (step (this_at (S depth)) input c) = Ok tt) /\
    (errorsHeard c ->
     forall err delay consecutiveFails,
       let this := this_at (S depth) in
       fst (_wrapListener this (_handleRpcError this err) c) = Ok tt /\
       fst (_wrapListener this (_handleRpcPingSuccess delay) c) = Ok tt /\
       fst (_wrapListener this (_handleRpcPingFail this consecutiveFails err) c)
       = Ok tt) /\
    (forall e,
       started (private c) = false ->
       activeWebSocket (private c) = None ->
       createConnectionCallback (private c) (url (private c)) = Throw e ->
       fst (start (this_at depth) c) = Throw e /\
       emitted (snd (start (this_at depth) c)) = emitted c) /\
    (forall e webSocket code reason,
       isValidOutgoingCloseCode code = true ->
       activeWebSocket (private c) = Some webSocket ->
       hasHandledWebSocketClose (private c) = false ->
       started (private c) = true ->
       reconnect (private c) = true ->
       reconnectDelayCallback (private c) (reconnectCounter (private c))
         = Throw e ->
       fst (closeConnection (this_at depth) code reason c) = Throw e /\
       emitted (snd (closeConnection (this_at depth) code reason c))
       = emitted c).
Proof.
  intros depth c. repeat apply conj.
  - intros func e c' Hfunc Hheard. unfold _wrapListener, try_catch.
    rewrite Hfunc. cbn [this_at self_emit].
    apply emit_error_heard. exact Hheard.
  - intros func e c' Hfunc Hnone. unfold _wrapListener, try_catch.
    rewrite Hfunc. cbn [this_at self_emit].
    unfold emit, bind, modify, get, throw. cbn [fst snd eventName listeners
      set_emitted]. rewrite Hnone. reflexivity.
  - intros Hheard input Hw. apply wrapped_event_returns; assumption.
  - intros Hheard err delay consecutiveFails this. subst this.
    repeat apply conj;
      (apply _wrapListener_returns; [exact Hheard | listeners_preserved]).
  - intros e Hs Ha Hf. js. rewrite Hs. js_cbn. rewrite Ha. js_cbn.
    destruct (reconnectTimer (private c)); js_cbn; rewrite Hf; js_cbn;
      split; reflexivity.
  - intros e webSocket code reason Hcode Hactive Hh Hs Hr Hd.
    rewrite (closeConnection_active _ code reason c webSocket Hcode Hactive).
    destruct (_webSocketClosed_backoff_throws depth
                (closed_on webSocket code reason c) code reason false e
                Hh Hs Hr Hd) as (H1 & _ & _ & _ & H5 & _).
    cbn [fst snd]. rewrite H1. split; [reflexivity | exact H5].
Qed.

(** a [webSocketOpen] listener throws, and somebody listens to [error]: the
    transport's [open] returns and the exception is emitted as an [error];
    nobody listens to [error]: the transport's [open] throws it *)
Lemma C8_wrapped_handlers_catch_witness :
  let thrower := on on_webSocketOpen (fun _ => [CallThrow (Thrown 7)]) in
  let heard := run (this_at 3) [do_start] (thrower example_listening) in
  let unheard := run (this_at 3) [do_start] (thrower example_client) in
  (fst (step (this_at 3) (webSocket_open 0%nat) heard) = Ok tt /\
   emitted (snd (step (this_at 3) (webSocket_open 0%nat) heard))
   = [webSocketConnecting; webSocketOpen; error (Thrown 7)]) /\
  (fst (step (this_at 3) (webSocket_open 0%nat) unheard) = Throw (Thrown 7) /\
   emitted (snd (step (this_at 3) (webSocket_open 0%nat) unheard))
   = [webSocketConnecting; webSocketOpen; error (Thrown 7)]).
Proof.
  intros thrower heard unheard.
  set (opening := fun c : Client =>
         set_sockets (nth_update 0 (set_readyState OPEN) (sockets c)) c).
  set (handler := active <- isActive 0 ;;
                  when active (_handleWebSocketOpen (this_at 3))).
  assert (Hstep : forall c,
            step (this_at 3) (webSocket_open 0%nat) c
            = _wrapListener (this_at 3) handler (opening c))
    by reflexivity.
  assert (Hthrows : forall c,
            fst (handler (opening c)) = Throw (Thrown 7) ->
            handler (opening c)
            = (Throw (Thrown 7), snd (handler (opening c)))).
  { intros c H. destruct (handler (opening c)) as [r c']. cbn in *.
    rewrite H. reflexivity. }
  assert (Hheard : errorsHeard (snd (handler (opening heard)))).
  { split.
    - vm_compute. discriminate.
    - intros listener ev Hin. vm_compute in Hin.
      destruct Hin as [<- | []]. reflexivity. }
  assert (Hunheard : listeners (snd (handler (opening unheard))) on_error = [])
    by (vm_compute; reflexivity).
  split.
  - rewrite Hstep.
    rewrite (proj1 (C8_wrapped_handlers_catch 2 (opening heard))
               handler (Thrown 7) (snd (handler (opening heard)))
               (Hthrows heard ltac:(vm_compute; reflexivity)) Hheard).
    cbn [fst snd emitted set_emitted]. split; [reflexivity |].
    vm_compute. reflexivity.
  - rewrite Hstep.
    rewrite (proj1 (proj2 (C8_wrapped_handlers_catch 2 (opening unheard)))
               handler (Thrown 7) (snd (handler (opening unheard)))
               (Hthrows unheard ltac:(vm_compute; reflexivity)) Hunheard).
    cbn [fst snd emitted set_emitted]. split; [reflexivity |].
    vm_compute. reflexivity.
Defined.

(** C8 as stated fails: an exception of the transport factory leaves
    [start()] to the caller, and no [error] event is emitted for it, even
    with a listener for [error]. *)
Lemma C8_wrapped_handlers_catch_counterexample :
  let c := snd (setter_createConnectionCallback (fun _ => Throw (Thrown 1))
                  example_listening) in
  listeners c on_error <> [] /\
  fst (start (this_at 3) c) = Throw (Thrown 1) /\
  emitted (snd (start (this_at 3) c)) = [].
Proof. vm_compute. repeat split; try reflexivity. discriminate. Qed.

(** C9, as the code has it. After the open of the active transport is
    handled (quiet listeners), [webSocketOpen] has been emitted and
    [hasActiveConnection] is what [started] is: true on a started client.
    After a close is handled [hasActiveConnection] is false, and it is false
    after every further history in which no open is handled, whatever the
    listeners and the callbacks do; more generally it is false for as long
    as JSONBird, paused by the close, has not been resumed by an open. *)
Theorem C9_hasActiveConnection :
  forall (depth : nat),
    (forall c webSocket,
       activeWebSocket (private c) = Some webSocket ->
       (webSocket < List.length (sockets c))%nat ->
       quiet c ->
       let c' := snd (step (this_at (S depth)) (webSocket_open webSocket) c) in
       emitted c' = emitted c ++ [webSocketOpen] /\
       hasActiveConnection c' = started (private c)) /\
    (forall c code reason closedByRemote,
       hasHandledWebSocketClose (private c) = false ->
       let c' := snd (_webSocketClosed (this_at depth) code reason
                        closedByRemote c) in
       hasActiveConnection c' = false /\
       forall rest,
         noOpenHandled (this_at depth) rest c' = true ->
         hasActiveConnection (run (this_at depth) rest c') = false) /\
    (forall c rest,
       isPaused (rpc c) = true ->
       noOpenHandled (this_at depth) rest c = true ->
       isPaused (rpc (run (this_at depth) rest c)) = true /\
       hasActiveConnection (run (this_at depth) rest c) = false).
Proof.
  intros depth. split; [| split].
  - intros c webSocket Hactive Hlt Hq.
    destruct (open_handled depth c webSocket Hactive Hlt Hq)
      as (_ & H1 & H2 & _).
    split; assumption.
  - intros c code reason closedByRemote Hh c'.
    pose proof (_webSocketClosed_pauses depth code reason closedByRemote c Hh)
      as Hp.
    fold c' in Hp. split.
    + apply paused_inactive, Hp.
    + intros rest Hno. apply paused_inactive, paused_run; assumption.
  - intros c rest Hp Hno.
    pose proof (paused_run depth rest c Hno Hp) as Hp'.
    split; [exact Hp' | apply paused_inactive, Hp'].
Qed.

Lemma C9_hasActiveConnection_witness :
  hasActiveConnection
    (snd (step (this_at 3) (webSocket_open 0%nat)
            (run (this_at 3) [do_start] example_client)))
  = true.
Proof.
  refine (proj2 (proj1 (C9_hasActiveConnection 2)
                   (run (this_at 3) [do_start] example_client) 0%nat
                   eq_refl _ _)).
  - vm_compute. constructor.
  - intros name listener ev H. destruct H.
Defined.

(** C9 as stated fails: after a [stop] that threw on a refused close code
    the transport is still active; its open is handled and [webSocketOpen]
    is emitted, yet [hasActiveConnection] is false, the client being not
    started. *)
Lemma C9_hasActiveConnection_counterexample :
  let c := run (this_at 3)
             [do_start; do_stop (Int 5) "bye"; webSocket_open 0%nat]
             example_client in
  emitted c = [webSocketConnecting; webSocketOpen] /\
  isPaused (rpc c) = false /\
  hasActiveConnection c = false.
Proof. vm_compute. repeat split; reflexivity. Qed.

(** C10. [stop(code, reason)] with a close code that is refused, while a
    transport is active, throws the close-code error of [closeConnection],
    and by then it has set [started] to false, cleared the pending reconnect
    timer and stopped the pings; the active transport is still the active
    transport and [close] was not called on it. *)
Theorem C10_stop_invalid_code_not_atomic :
  forall (this : Self) (c : Client) (code : JsNumber) (reason : string)
         (webSocket : nat),
    isValidOutgoingCloseCode code = false ->
    activeWebSocket (private c) = Some webSocket ->
    let c' := snd (stop this code reason c) in
    fst (stop this code reason c)
      = Throw (InvalidCloseCode "closeConnection(): " code) /\
    started (private c') = false /\
    reconnectTimer (private c') = None /\
    (forall handle, reconnectTimer (private c) = Some handle ->
       nth_error (timers (rpc c')) handle
       = option_map (set_timer_cleared true)
           (nth_error (timers (rpc c)) handle)) /\
    isSendingPings (rpc c') = false /\
    activeWebSocket (private c') = Some webSocket /\
    hasHandledWebSocketClose (private c')
      = hasHandledWebSocketClose (private c) /\
    sockets c' = sockets c /\
    emitted c' = emitted c.
Proof.
  intros this c code reason webSocket Hcode Hactive. run_js.
  rewrite Hcode. cbn.
  destruct (reconnectTimer (private c)) as [handle |] eqn:Htimer; cbn;
    repeat split; auto; try discriminate.
  intros h Hh. injection Hh as <-. apply nth_update_same.
Qed.

Lemma C10_stop_invalid_code_not_atomic_witness :
  fst (stop (this_at 3) (Int 5) "bye"
         (run (this_at 3) [do_start] example_client))
  = Throw (InvalidCloseCode "closeConnection(): " (Int 5)).
Proof.
  exact (proj1 (C10_stop_invalid_code_not_atomic (this_at 3)
                  (run (this_at 3) [do_start] example_client)
                  (Int 5) "bye" 0%nat eq_refl eq_refl)).
Defined.

(** X1. With quiet listeners, a session whose first close signal is
    effective gets exactly one [webSocketClose], however many close signals
    follow: the first handling wins and the later signals emit none. *)
Theorem close_emitted_once_when_listeners_are_quiet :
  forall (depth : nat) (c : Client) (s : CloseSignal) (l : list CloseSignal),
    quiet c ->
    openSession c ->
    effective s c ->
    closeCount (emitted (signals (this_at (S depth)) (s :: l) c))
    = S (closeCount (emitted c)).
Proof.
  intros depth c s l Hq Hsession Heff. cbn [signals].
  destruct (signal_first depth s c Hq Hsession Heff) as (H1 & H2 & H3).
  rewrite signals_idle; [exact H1 | apply (quiet_listeners c _ H3 Hq) | exact H2].
Qed.

Lemma close_emitted_once_when_listeners_are_quiet_witness :
  closeCount
    (emitted
       (signals (this_at 3)
          [remote_close 0 (Int 1006) "gone";
           local_closeConnection (Int 1000) "bye";
           connect_timeout 0 29875;
           ping_failures 4 (Thrown 0);
           local_stop (Int 1000) "Normal Closure"]
          (run (this_at 3) [do_start; webSocket_open 0%nat] example_client)))
  = 1%nat.
Proof.
  refine (close_emitted_once_when_listeners_are_quiet 2
            (run (this_at 3) [do_start; webSocket_open 0%nat] example_client)
            (remote_close 0 (Int 1006) "gone") _ _ _ _).
  - intros name listener ev H. destruct H.
  - repeat split; try reflexivity.
    + exists 0%nat. reflexivity.
    + exists 1111. reflexivity.
  - reflexivity.
Defined.

(** * Further lemmas *)

(** ** A new client *)

Lemma new_client options c :
  new_WebSocketClient options = Ok c ->
  isValidOutgoingCloseCode (opt_timeoutCloseCode options) = true /\
  isValidOutgoingCloseCode (opt_internalErrorCloseCode options) = true /\
  private c
  = {| url := opt_url options;
       createConnectionCallback := opt_createConnectionCallback options;
       reconnect := opt_reconnect options;
       reconnectDelayCallback := opt_reconnectDelayCallback options;
       reconnectCounterMax := opt_reconnectCounterMax options;
       connectTimeout := opt_connectTimeout options;
       consecutivePingFailClose := opt_consecutivePingFailClose options;
       timeoutCloseCode := opt_timeoutCloseCode options;
       internalErrorCloseCode := opt_internalErrorCloseCode options;
       started := false;
       activeWebSocket := None;
       reconnectCounter := 0;
       hasHandledWebSocketClose := false;
       reconnectTimer := None;
       connectTimeoutTimer := None |} /\
  rpc c
  = {| isPaused := true; isSendingPings := false;
       pingInterval := opt_pingInterval options;
       firstPingInterval := None; timers := []; written := [] |} /\
  sockets c = [] /\
  emitted c = [] /\
  delayCalls c = [] /\
  forall name, listeners c name = [].
Proof.
  unfold new_WebSocketClient, constructor.
  unfold setter_url, setter_createConnectionCallback, setter_reconnect,
    setter_reconnectDelayCallback, setter_reconnectCounterMax,
    setter_connectTimeout, setter_consecutivePingFailClose,
    setter_timeoutCloseCode, setter_internalErrorCloseCode.
  js.
  destruct (isValidOutgoingCloseCode (opt_timeoutCloseCode options)); js_cbn;
    [| discriminate].
  destruct (isValidOutgoingCloseCode (opt_internalErrorCloseCode options));
    js_cbn; [| discriminate].
  intros H. injection H as <-. repeat split.
Qed.

Lemma closeConnection_quiet depth c closeCode closeReason webSocket :
  quiet c ->
  isValidOutgoingCloseCode closeCode = true ->
  activeWebSocket (private c) = Some webSocket ->
  hasHandledWebSocketClose (private c) = false ->
  backoffReturns c ->
  exists c' info,
    closeConnection (this_at (S depth)) closeCode closeReason c = (Ok true, c') /\
    sockets c' = sockets (closed_on webSocket closeCode closeReason c) /\
    emitted c' = emitted c ++ [webSocketClose info] /\
    closedByUs closeCode closeReason info /\
    willReconnect info = started (private c) && reconnect (private c) /\
    activeWebSocket (private c') = None /\
    hasHandledWebSocketClose (private c') = true /\
    started (private c') = started (private c) && reconnect (private c) /\
    isPaused (rpc c') = true /\
    isSendingPings (rpc c') = false /\
    listeners c' = listeners c.
Proof.
  intros Hq Hcode Hactive Hh [delay Hd].
  rewrite (closeConnection_active _ closeCode closeReason c webSocket
             Hcode Hactive).
  destruct (started (private c) && reconnect (private c)) eqn:Hsr.
  - apply andb_prop in Hsr. destruct Hsr as [Hs Hr].
    destruct (_webSocketClosed_reconnects depth
                (closed_on webSocket closeCode closeReason c)
                closeCode closeReason false delay Hq Hh Hs Hr Hd)
      as (H1 & _ & _ & _ & _ & H6 & H7 & H8 & H9 & H10 & H11 & H12 & H13).
    destruct (_webSocketClosed (this_at (S depth)) closeCode closeReason false
                (closed_on webSocket closeCode closeReason c)) as [r c'].
    cbn [fst snd] in *. subst r. eexists. eexists.
    split; [reflexivity |]. split; [exact H12 |]. split; [exact H6 |].
    repeat split; assumption.
  - destruct (_webSocketClosed_stops depth
                (closed_on webSocket closeCode closeReason c)
                closeCode closeReason false Hq Hh Hsr)
      as (H1 & _ & _ & _ & H5 & H6 & H7 & H8 & H9 & H10 & H11 & H12 & _).
    destruct (_webSocketClosed (this_at (S depth)) closeCode closeReason false
                (closed_on webSocket closeCode closeReason c)) as [r c'].
    cbn [fst snd] in *. subst r. eexists. eexists.
    split; [reflexivity |]. split; [exact H11 |]. split; [exact H5 |].
    repeat split; assumption.
Qed.

Lemma rpc_pingFail_quiet :
  forall (depth : nat) (c : Client) (consecutiveFails : Z) (err : Error),
    quiet c ->
    (consecutiveFails < consecutivePingFailClose (private c) ->
     step (this_at (S depth)) (rpc_pingFail consecutiveFails err) c
     = (Ok tt,
        set_emitted (emitted c ++ [pingFail consecutiveFails err]) c)) /\
    (consecutivePingFailClose (private c) <= consecutiveFails ->
     isValidOutgoingCloseCode (timeoutCloseCode (private c)) = true ->
     activeWebSocket (private c) = None ->
     step (this_at (S depth)) (rpc_pingFail consecutiveFails err) c
     = (Ok tt,
        set_emitted (emitted c ++ [pingFail consecutiveFails err]) c)) /\
    (consecutivePingFailClose (private c) <= consecutiveFails ->
     isValidOutgoingCloseCode (timeoutCloseCode (private c)) = true ->
     forall webSocket,
       activeWebSocket (private c) = Some webSocket ->
       hasHandledWebSocketClose (private c) = false ->
       backoffReturns c ->
       let c' := snd (step (this_at (S depth))
                        (rpc_pingFail consecutiveFails err) c) in
       fst (step (this_at (S depth)) (rpc_pingFail consecutiveFails err) c)
         = Ok tt /\
       sockets c'
         = sockets (closed_on webSocket (timeoutCloseCode (private c))
                      "Timeout: No responses received to ping calls" c) /\
       activeWebSocket (private c') = None /\
       exists info,
         emitted c'
           = emitted c ++ [webSocketClose info;
                           pingFail consecutiveFails err] /\
         closedByUs (timeoutCloseCode (private c))
           "Timeout: No responses received to ping calls" info).
Proof.
  intros depth c consecutiveFails err Hq.
  split; [| split].
  - intros Hlt. cbn [step].
    unfold rpc_on_pingFail, _wrapListener, _handleRpcPingFail.
    unfold try_catch, bind, get.
    assert (Hb : (consecutiveFails >=? consecutivePingFailClose (private c))
                 = false) by lia.
    rewrite Hb. cbn [ret this_at self_emit].
    apply emit_quiet; [exact Hq | reflexivity].
  - intros Hge Hcode Hactive. cbn [step].
    unfold rpc_on_pingFail, _wrapListener, _handleRpcPingFail.
    unfold try_catch, bind at 1 2, get.
    assert (Hb : (consecutiveFails >=? consecutivePingFailClose (private c))
                 = true) by lia.
    rewrite Hb.
    unfold closeConnection, assertValidOutgoingCloseCode. js.
    rewrite Hcode. js_cbn. rewrite Hactive. js_cbn.
    apply emit_quiet; [exact Hq | reflexivity].
  - intros Hge Hcode webSocket Hactive Hh Hb.
    assert (Hb' : (consecutiveFails >=? consecutivePingFailClose (private c))
                  = true) by lia.
    destruct (closeConnection_quiet depth c (timeoutCloseCode (private c))
                "Timeout: No responses received to ping calls" webSocket
                Hq Hcode Hactive Hh Hb)
      as (c1 & info & Hclose & Hsockets & Hemitted & Hinfo & _ & Hnone & _ & _
          & _ & _ & Hl).
    assert (Hstep : step (this_at (S depth))
                      (rpc_pingFail consecutiveFails err) c
                    = (Ok tt,
                       set_emitted
                         (emitted c1 ++ [pingFail consecutiveFails err]) c1)).
    { cbn [step].
      unfold rpc_on_pingFail, _wrapListener, _handleRpcPingFail.
      unfold try_catch, bind at 1 2, get. rewrite Hb'.
      unfold bind at 1. rewrite Hclose. cbn [ret this_at self_emit].
      apply emit_quiet;
        [apply (quiet_listeners c c1 Hl Hq) | reflexivity]. }
    rewrite Hstep. cbn [fst snd sockets private emitted set_emitted].
    split; [reflexivity |]. split; [exact Hsockets |].
    split; [exact Hnone |].
    exists info. split; [| exact Hinfo].
    rewrite Hemitted, <- app_assoc. reflexivity.
Qed.


Lemma emit_error_quiet this err c :
  quiet c ->
  emit this (error err) c
  = (match listeners c on_error with [] => Throw err | _ :: _ => Ok tt end,
     set_emitted (emitted c ++ [error err]) c).
Proof.
  intros Hq.
  assert (Hall : forall l, In l (listeners c on_error) -> l (error err) = [])
    by (intros l Hl; eapply Hq; exact Hl).
  pose proof (for_each_quiet this (listeners c on_error) (error err)
                (set_emitted (emitted c ++ [error err]) c) Hall) as Hfe.
  unfold emit, bind, modify, get.
  cbn [listeners set_emitted eventName fst snd].
  destruct (listeners c on_error) as [| l ls]; [reflexivity |].
  rewrite Hfe. reflexivity.
Qed.

Lemma rpc_error_quiet :
  forall (depth : nat) (c : Client) (err : Error),
    quiet c ->
    isValidOutgoingCloseCode (internalErrorCloseCode (private c)) = true ->
    (activeWebSocket (private c) = None ->
     step (this_at (S depth)) (rpc_error err) c
     = (match listeners c on_error with
        | [] => Throw err
        | _ :: _ => Ok tt
        end,
        set_emitted (emitted c ++ [error err]) c)) /\
    (forall webSocket,
       activeWebSocket (private c) = Some webSocket ->
       hasHandledWebSocketClose (private c) = false ->
       backoffReturns c ->
       let c' := snd (step (this_at (S depth)) (rpc_error err) c) in
       fst (step (this_at (S depth)) (rpc_error err) c)
         = match listeners c on_error with
           | [] => Throw err
           | _ :: _ => Ok tt
           end /\
       sockets c'
         = sockets (closed_on webSocket (internalErrorCloseCode (private c))
                      "Internal JSON-RPC error" c) /\
       activeWebSocket (private c') = None /\
       exists info,
         emitted c' = emitted c ++ [webSocketClose info; error err] /\
         closedByUs (internalErrorCloseCode (private c))
           "Internal JSON-RPC error" info).
Proof.
  intros depth c err Hq Hcode. split.
  - intros Hactive. cbn [step].
    unfold rpc_on_error, _wrapListener, _handleRpcError.
    unfold try_catch, bind at 1 2, get.
    unfold closeConnection, assertValidOutgoingCloseCode. js.
    rewrite Hcode. js_cbn. rewrite Hactive. js_cbn.
    apply emit_error_quiet, Hq.
  - intros webSocket Hactive Hh Hb c'.
    destruct (closeConnection_quiet depth c (internalErrorCloseCode (private c))
                "Internal JSON-RPC error" webSocket Hq Hcode Hactive Hh Hb)
      as (c1 & info & Hclose & Hsockets & Hemitted & Hinfo & _ & Hnone & _ & _
          & _ & _ & Hl).
    assert (Hstep : step (this_at (S depth)) (rpc_error err) c
                    = (match listeners c on_error with
                       | [] => Throw err
                       | _ :: _ => Ok tt
                       end,
                       set_emitted (emitted c1 ++ [error err]) c1)).
    { cbn [step]. unfold rpc_on_error, _wrapListener, _handleRpcError.
      unfold try_catch, bind at 1 2, get.
      unfold bind at 1. rewrite Hclose. cbn [ret this_at self_emit].
      rewrite <- Hl. apply emit_error_quiet.
      apply (quiet_listeners c c1 Hl Hq). }
    subst c'. rewrite Hstep.
    cbn [fst snd sockets private emitted set_emitted].
    split; [reflexivity |]. split; [exact Hsockets |].
    split; [exact Hnone |].
    exists info. split; [| exact Hinfo].
    rewrite Hemitted, <- app_assoc. reflexivity.
Qed.

(** ** Data in transit

    A property of the data written to JSONBird and of the data sent on the
    transports survives everything the class does but the handling of a
    message and of JSONBird's [data]. *)

Section Traffic.
Variable P : Client -> Prop.

Hypothesis P_private : forall p c, P c -> P (set_private p c).
Hypothesis P_rpc :
  forall r c, P c -> written r = written (rpc c) -> P (set_rpc r c).
Hypothesis P_emitted : forall v c, P c -> P (set_emitted v c).
Hypothesis P_delayCalls : forall v c, P c -> P (set_delayCalls v c).
Hypothesis P_newWebSocket :
  forall c, P c -> P (set_sockets (sockets c ++ [newWebSocket]) c).
Hypothesis P_close :
  forall webSocket code reason c, P c -> P (closed_on webSocket code reason c).
Hypothesis P_readyState :
  forall webSocket state c, P c ->
    P (set_sockets (nth_update webSocket (set_readyState state) (sockets c)) c).

Local Ltac leaf :=
  first [ solve [ auto ]
        | solve [ apply P_rpc; [assumption | reflexivity] ]
        | solve [ apply P_newWebSocket; assumption ]
        | solve [ apply P_close; assumption ]
        | progress unfold rpc_clearTimeout, rpc_pause, rpc_resume,
            rpc_stopPinging, rpc_startPinging, rpc_set_pingInterval,
            rpc_resetPingStatistics, rpc_setTimeout,
            call_createConnectionCallback, call_reconnectDelayCallback,
            activeWebSocket_close, webSocket_becomes, isActive,
            _clearReconnectTimer, _clearConnectTimeoutTimer ].

Section WithThis.
Variable this : Self.
Hypothesis this_preserves : self_preserves P this.

Let emit_ok := proj1 this_preserves.
Let stop_ok := proj2 this_preserves.

Lemma traffic__connect : preserves P (_connect this).
Proof. unfold _connect. repeat (preserves_step || leaf). Qed.

Lemma traffic_start : preserves P (start this).
Proof.
  pose proof traffic__connect.
  unfold start. repeat (preserves_step || leaf).
Qed.

Lemma traffic__webSocketClosed code reason closedByRemote :
  preserves P (_webSocketClosed this code reason closedByRemote).
Proof. unfold _webSocketClosed. repeat (preserves_step || leaf). Qed.

Lemma traffic_closeConnection code reason :
  preserves P (closeConnection this code reason).
Proof.
  pose proof traffic__webSocketClosed.
  unfold closeConnection. repeat (preserves_step || leaf).
Qed.

Lemma traffic_stop code reason : preserves P (stop this code reason).
Proof.
  pose proof traffic_closeConnection.
  unfold stop. repeat (preserves_step || leaf).
Qed.

Lemma traffic_call f : preserves P (call this f).
Proof.
  pose proof traffic_start. pose proof traffic_stop.
  pose proof traffic_closeConnection.
  destruct f; unfold call, stop_default; repeat (preserves_step || leaf).
Qed.

Lemma traffic_emit ev : preserves P (emit this ev).
Proof.
  pose proof traffic_call.
  unfold emit. repeat (preserves_step || leaf).
Qed.

Lemma traffic_fire handle : preserves P (fire this handle).
Proof.
  pose proof traffic__connect. pose proof traffic_closeConnection.
  unfold fire. repeat (preserves_step || leaf).
  destruct (timer_callback t); unfold run_timer, _handleConnectionTimeout;
    repeat (preserves_step || leaf).
Qed.

(** every input but a message of a transport and JSONBird's [data] *)
Lemma traffic_step input :
  (forall webSocket data, input <> webSocket_message webSocket data) ->
  (forall data, input <> rpc_data data) ->
  preserves P (step this input).
Proof.
  pose proof traffic_start. pose proof traffic_stop.
  pose proof traffic_closeConnection. pose proof traffic_fire.
  pose proof traffic__webSocketClosed.
  intros Hmessage Hdata.
  destruct input; cbn [step];
    try (exfalso; eapply Hmessage; reflexivity);
    try (exfalso; eapply Hdata; reflexivity);
    unfold stop_default, setter_url, setter_reconnect,
      setter_consecutivePingFailClose, setter_connectTimeout,
      setter_reconnectCounterMax, setter_timeoutCloseCode,
      setter_internalErrorCloseCode, setter_createConnectionCallback,
      setter_reconnectDelayCallback, webSocket_on_open, webSocket_on_error,
      webSocket_on_close, rpc_on_error, rpc_on_protocolError,
      rpc_on_pingSuccess, rpc_on_pingFail, _wrapListener,
      _handleWebSocketOpen, _handleWebSocketError, _handleWebSocketClose,
      _handleRpcError, _handleRpcPingSuccess, _handleRpcPingFail;
    repeat (preserves_step || leaf).
Qed.
End WithThis.

Lemma traffic_this_at depth : self_preserves P (this_at depth).
Proof.
  induction depth as [| depth IH]; split; simpl; intros.
  - apply preserves_throw.
  - apply preserves_throw.
  - apply traffic_emit, IH.
  - apply traffic_stop, IH.
Qed.
End Traffic.

(** what was sent on a transport is not touched by a new transport, by a
    call of [close], or by a change of [readyState] *)
Lemma sentOn_nth_update webSocket other (f : WebSocket -> WebSocket) c :
  (other = webSocket -> forall w, send_args (f w) = send_args w) ->
  sentOn webSocket (set_sockets (nth_update other f (sockets c)) c)
  = sentOn webSocket c.
Proof.
  intros Hf. unfold sentOn. cbn [sockets set_sockets].
  destruct (Nat.eq_dec other webSocket) as [-> | Hne].
  - rewrite nth_update_same.
    destruct (nth_error (sockets c) webSocket); cbn; auto.
  - rewrite nth_update_other by exact Hne. reflexivity.
Qed.

Lemma sentOn_newWebSocket webSocket c :
  sentOn webSocket (set_sockets (sockets c ++ [newWebSocket]) c)
  = sentOn webSocket c.
Proof.
  unfold sentOn. cbn [sockets set_sockets].
  destruct (Nat.lt_ge_cases webSocket (List.length (sockets c))) as [Hlt | Hge].
  - rewrite nth_error_app1 by exact Hlt. reflexivity.
  - rewrite nth_error_app2 by exact Hge.
    assert (Hnone : nth_error (sockets c) webSocket = None)
      by (apply nth_error_None; exact Hge).
    rewrite Hnone.
    destruct (webSocket - List.length (sockets c))%nat as [| [| n]];
      reflexivity.
Qed.

Lemma written_this_at v depth :
  self_preserves (fun c => written (rpc c) = v) (this_at depth).
Proof.
  apply traffic_this_at; intros; cbn; congruence.
Qed.

Lemma sentOn_this_at webSocket v depth :
  self_preserves (fun c => sentOn webSocket c = v) (this_at depth).
Proof.
  apply traffic_this_at; intros; try assumption.
  - rewrite sentOn_newWebSocket. assumption.
  - unfold closed_on. rewrite sentOn_nth_update; [assumption | reflexivity].
Qed.

Lemma written_step depth input c :
  written (rpc (snd (step (this_at depth) input c)))
  = written (rpc c) ++ received input c.
Proof.
  pose proof (written_this_at (written (rpc c)) depth) as Hthis.
  assert (Hother :
            (forall webSocket data, input <> webSocket_message webSocket data) ->
            (forall data, input <> rpc_data data) ->
            written (rpc (snd (step (this_at depth) input c)))
            = written (rpc c)).
  { intros Hmessage Hdata.
    apply (traffic_step (fun c' => written (rpc c') = written (rpc c)));
      first [assumption | reflexivity | intros; cbn; congruence]. }
  destruct input;
    try (cbn [received]; rewrite app_nil_r; apply Hother; discriminate).
  - (* a message *)
    cbn [step received]. unfold isActiveWebSocket.
    unfold webSocket_on_message, _wrapListener, _handleWebSocketMessage,
      rpc_write, isActive, when, try_catch, on_rpc, modify, bind, get, ret.
    destruct (match activeWebSocket (private c) with
              | Some active => Nat.eqb active webSocket
              | None => false
              end); cbn; [reflexivity | symmetry; apply app_nil_r].
  - (* JSONBird's data *)
    cbn [received]. rewrite app_nil_r. cbn [step].
    assert (H : preserves (fun c' => written (rpc c') = written (rpc c))
                  (rpc_on_data (this_at depth) data)).
    { unfold rpc_on_data, _wrapListener, _handleRpcData, activeWebSocket_send.
      repeat preserves_step; try apply Hthis; intros; cbn; congruence. }
    apply H. reflexivity.
Qed.

Lemma sentOn_step depth webSocket input c :
  sentOn webSocket (snd (step (this_at depth) input c))
  = sentOn webSocket c ++ handedTo webSocket input c.
Proof.
  pose proof (sentOn_this_at webSocket (sentOn webSocket c) depth) as Hthis.
  assert (Hnew : forall c', sentOn webSocket c' = sentOn webSocket c ->
            sentOn webSocket (set_sockets (sockets c' ++ [newWebSocket]) c')
            = sentOn webSocket c)
    by (intros c' H'; rewrite sentOn_newWebSocket; exact H').
  assert (Hclose : forall other code reason c',
            sentOn webSocket c' = sentOn webSocket c ->
            sentOn webSocket (closed_on other code reason c')
            = sentOn webSocket c).
  { intros other code reason c' H'. unfold closed_on.
    rewrite sentOn_nth_update; [exact H' | reflexivity]. }
  assert (Hstate : forall other state c',
            sentOn webSocket c' = sentOn webSocket c ->
            sentOn webSocket
              (set_sockets (nth_update other (set_readyState state)
                              (sockets c')) c')
            = sentOn webSocket c).
  { intros other state c' H'.
    rewrite sentOn_nth_update; [exact H' | reflexivity]. }
  assert (Hother :
            (forall other data, input <> webSocket_message other data) ->
            (forall data, input <> rpc_data data) ->
            sentOn webSocket (snd (step (this_at depth) input c))
            = sentOn webSocket c).
  { intros Hmessage Hdata.
    apply (traffic_step (fun c' => sentOn webSocket c' = sentOn webSocket c));
      first [assumption | reflexivity | intros; assumption]. }
  destruct input;
    try (cbn [handedTo]; rewrite app_nil_r; apply Hother; discriminate).
  - (* a message *)
    cbn [handedTo]. rewrite app_nil_r. cbn [step].
    unfold webSocket_on_message, _wrapListener, _handleWebSocketMessage,
      rpc_write, isActive, when, try_catch, on_rpc, modify, bind, get, ret.
    destruct (match activeWebSocket (private c) with
              | Some active => Nat.eqb active webSocket0
              | None => false
              end); reflexivity.
  - (* JSONBird's data *)
    cbn [step handedTo]. unfold isActiveWebSocket, isOpenWebSocket.
    unfold rpc_on_data, _wrapListener, _handleRpcData, try_catch.
    rewrite bind_get.
    destruct (activeWebSocket (private c)) as [active |] eqn:Hactive.
    + cbn [isSome assert]. unfold bind at 1. cbn [ret].
      destruct (Nat.eqb_spec active webSocket) as [-> | Hne].
      * destruct (match webSocket_readyState c webSocket with
                  | Some state => ReadyState_eqb state OPEN
                  | None => false
                  end) eqn:Hopen.
        -- cbn [andb assert]. unfold bind, ret, activeWebSocket_send, modify.
           cbn [fst snd]. unfold sentOn. cbn [sockets set_sockets].
           rewrite nth_update_same.
           unfold webSocket_readyState in Hopen.
           destruct (nth_error (sockets c) webSocket); [reflexivity |].
           discriminate.
        -- cbn [andb assert]. unfold bind, throw. rewrite app_nil_r.
           apply Hthis. reflexivity.
      * cbn [andb]. rewrite app_nil_r.
        destruct (match webSocket_readyState c active with
                  | Some state => ReadyState_eqb state OPEN
                  | None => false
                  end).
        -- cbn [assert]. unfold bind, ret, activeWebSocket_send, modify.
           cbn [fst snd]. apply sentOn_nth_update.
           intros ->. contradiction.
        -- cbn [assert]. unfold bind, throw. apply Hthis. reflexivity.
    + cbn [isSome assert andb]. unfold bind, throw. rewrite app_nil_r.
      apply Hthis. reflexivity.
Qed.

Lemma isCleared_snoc l timer handle :
  isCleared (l ++ [timer]) handle = false ->
  isCleared l handle = false \/ handle = List.length l.
Proof.
  unfold isCleared. intros H.
  destruct (Nat.lt_ge_cases handle (List.length l)) as [Hlt | Hge].
  - rewrite nth_error_app1 in H by exact Hlt. left; exact H.
  - destruct (Nat.eq_dec handle (List.length l)) as [-> | Hne].
    + right; reflexivity.
    + rewrite nth_error_app2 in H by exact Hge.
      destruct (handle - List.length l)%nat as [| [| n]] eqn:E;
        [lia | discriminate | discriminate].
Qed.

Lemma isCleared_update l other handle :
  isCleared (nth_update other (set_timer_cleared true) l) handle = false ->
  isCleared l handle = false /\ handle <> other.
Proof.
  intros H. destruct (Nat.eq_dec other handle) as [-> | Hne].
  - rewrite isCleared_nth_update_same in H. discriminate.
  - unfold isCleared in *. rewrite nth_update_other in H by exact Hne.
    split; [exact H | auto].
Qed.

Lemma isCleared_in_range l handle :
  isCleared l handle = false -> (handle < List.length l)%nat.
Proof.
  unfold isCleared. intros H. apply nth_error_Some.
  destruct (nth_error l handle); [discriminate | discriminate].
Qed.

Lemma nth_error_snoc_inv {A} (l : list A) a handle x :
  nth_error (l ++ [a]) handle = Some x ->
  nth_error l handle = Some x \/ (handle = List.length l /\ x = a).
Proof.
  intros H.
  destruct (Nat.lt_ge_cases handle (List.length l)) as [Hlt | Hge].
  - rewrite nth_error_app1 in H by exact Hlt. left; exact H.
  - rewrite nth_error_app2 in H by exact Hge.
    destruct (handle - List.length l)%nat as [| [| n]] eqn:E; cbn in H;
      try discriminate.
    right. split; [lia | congruence].
Qed.

Lemma nth_error_cleared_inv l other handle timer :
  nth_error (nth_update other (set_timer_cleared true) l) handle = Some timer ->
  exists timer0,
    nth_error l handle = Some timer0 /\
    timer_callback timer = timer_callback timer0 /\
    (timer_cleared timer = false -> timer_cleared timer0 = false /\ handle <> other).
Proof.
  intros H. destruct (Nat.eq_dec other handle) as [-> | Hne].
  - rewrite nth_update_same in H.
    destruct (nth_error l handle) as [timer0 |]; [| discriminate].
    injection H as <-. exists timer0. repeat split; discriminate.
  - rewrite nth_update_other in H by exact Hne.
    exists timer. repeat split; auto.
Qed.

Lemma nth_error_length_Some {A} (l : list A) x :
  nth_error l (List.length l) = Some x -> False.
Proof.
  intros H. assert (Hnone : nth_error l (List.length l) = None)
    by (apply nth_error_None; lia).
  congruence.
Qed.

Lemma isCleared_length l : isCleared l (List.length l) = false -> False.
Proof. intros H. apply isCleared_in_range in H. lia. Qed.

(** ** The timers and the state of the client, whatever the listeners do *)

Ltac explode c :=
  destruct c as
    [[c_url c_createConnectionCallback c_reconnect c_reconnectDelayCallback
      c_reconnectCounterMax c_connectTimeout c_consecutivePingFailClose
      c_timeoutCloseCode c_internalErrorCloseCode c_started c_activeWebSocket
      c_reconnectCounter c_hasHandledWebSocketClose c_reconnectTimer
      c_connectTimeoutTimer]
     [c_isPaused c_isSendingPings c_pingInterval c_firstPingInterval c_timers
      c_written]
     c_sockets c_listeners c_emitted c_delayCalls].

Ltac open_consistent Hc :=
  unfold consistent, timersHeld, idleWithoutTransport, reconnectAwaited,
    timersKnown in Hc |- *;
  cbn [private rpc started activeWebSocket reconnectTimer connectTimeoutTimer
       timers isPaused isSendingPings set_private set_rpc set_sockets
       set_emitted set_delayCalls set_listeners
       set_started set_activeWebSocket set_reconnectTimer
       set_connectTimeoutTimer set_hasHandledWebSocketClose
       set_reconnectCounter set_timers set_isPaused set_isSendingPings
       set_pingInterval set_firstPingInterval set_written
       fst snd] in Hc |- *.

Ltac timer_facts :=
  repeat match goal with
  | H : context [List.length (nth_update _ _ _)] |- _ =>
      rewrite nth_update_length in H
  | H : isCleared (nth_update _ (set_timer_cleared true) _) _ = false |- _ =>
      apply isCleared_update in H; destruct H
  | H : isCleared (_ ++ [_]) _ = false |- _ =>
      apply isCleared_snoc in H; destruct H
  | H : nth_error (nth_update _ (set_timer_cleared true) _) _ = Some _ |- _ =>
      apply nth_error_cleared_inv in H; destruct H as (? & ? & ? & ?)
  | H : nth_error (_ ++ [_]) _ = Some _ |- _ =>
      apply nth_error_snoc_inv in H; destruct H as [? | [? ?]]
  | H : nth_error ?l (List.length ?l) = Some _ |- _ =>
      exfalso; exact (nth_error_length_Some _ _ H)
  | H : isCleared ?l (List.length ?l) = false |- _ =>
      exfalso; exact (isCleared_length _ H)
  | H : Some _ = Some _ |- _ => injection H as H; subst
  | H : None = Some _ |- _ => discriminate H
  | H : Some _ = None |- _ => discriminate H
  | H : true = false |- _ => discriminate H
  | H : false = true |- _ => discriminate H
  | H : ?a = false -> _ /\ _, H' : ?a = false |- _ => specialize (H H')
  | H : _ /\ _ |- _ => destruct H
  end.

Ltac use_invariant HA HB HC HD1 HD2 :=
  try specialize (HB eq_refl);
  try match goal with
  | H : isCleared ?l ?h = false |- _ =>
      try (let F := fresh "FA" in pose proof (HA h H) as F);
      try (let F := fresh "FC" in pose proof (fun E => HC h E H) as F);
      try (let F := fresh "FB" in pose proof (proj1 HB h) as F)
  end;
  try match goal with
  | H : nth_error ?l ?h = Some ?t |- _ =>
      try (let F := fresh "FD" in pose proof (fun E => HD1 h t E H) as F);
      try (let F := fresh "FE" in pose proof (fun E => HD2 h t E H) as F)
  end;
  try match goal with
  | H : timer_callback ?t = timer_callback _ |- context [timer_callback ?t] =>
      rewrite H
  end.

Ltac close_consistent Hc :=
  open_consistent Hc;
  let HA := fresh "HA" in
  let HB := fresh "HB" in
  let HC := fresh "HC" in
  let HD1 := fresh "HD1" in
  let HD2 := fresh "HD2" in
  destruct Hc as (HA & HB & HC & HD1 & HD2);
  repeat (intros; apply conj); intros;
  rewrite ?nth_update_length; timer_facts;
  use_invariant HA HB HC HD1 HD2;
  clear HA HC HD1 HD2;
  repeat first
    [ assumption
    | discriminate
    | reflexivity
    | apply isCleared_nth_update_same
    | apply isCleared_nth_update ];
  try solve [ intuition congruence ];
  try solve [ apply HB; congruence ];
  try solve [ eexists; eexists; split; reflexivity ].

Lemma consistent__clearReconnectTimer :
  preserves consistent _clearReconnectTimer.
Proof.
  intros c Hc. explode c. unfold _clearReconnectTimer. js.
  destruct c_reconnectTimer as [h |]; js_cbn; close_consistent Hc.
Qed.

Lemma consistent__clearConnectTimeoutTimer :
  preserves consistent _clearConnectTimeoutTimer.
Proof.
  intros c Hc. explode c. unfold _clearConnectTimeoutTimer. js.
  destruct c_connectTimeoutTimer as [h |]; js_cbn; close_consistent Hc.
Qed.

Lemma consistent_started c :
  consistent c -> consistent (set_private (set_started true (private c)) c).
Proof. intros Hc. explode c. close_consistent Hc. Qed.

Lemma consistent_fired handle c :
  consistent c ->
  consistent
    (set_rpc (set_timers (nth_update handle (set_timer_cleared true)
                            (timers (rpc c))) (rpc c)) c).
Proof. intros Hc. explode c. close_consistent Hc. Qed.

(** an assignment the four properties do not read *)
Ltac same_timers :=
  match goal with
  | H : consistent _ |- consistent _ => exact H
  end.

Section Consistent.
Variable this : Self.
Hypothesis this_consistent : self_preserves consistent this.

Let emit_ok := proj1 this_consistent.
Let stop_ok := proj2 this_consistent.

Lemma consistent__connect : preserves consistent (_connect this).
Proof.
  intros c Hc. explode c. unfold _connect. js.
  destruct c_started; js_cbn; [| exact Hc].
  destruct c_activeWebSocket as [webSocket |]; js_cbn; [exact Hc |].
  destruct c_reconnectTimer as [h |]; js_cbn;
    (destruct (c_createConnectionCallback c_url) as [[] | e]; js_cbn;
     [ apply emit_ok; close_consistent Hc | close_consistent Hc ]).
Qed.

Lemma consistent_start : preserves consistent (start this).
Proof.
  pose proof consistent__connect.
  unfold start. repeat preserves_step; try assumption.
  apply consistent_started. assumption.
Qed.

Ltac through_self :=
  match goal with
  | |- context [self_emit ?t ?ev ?C] =>
      let H := fresh "Hinv" in
      assert (H : consistent (snd (self_emit t ev C)));
      [ apply emit_ok
      | destruct (self_emit t ev C) as [[[] | ?] ?]; cbn [snd] in H; js_cbn ]
  | |- context [self_stop ?t ?a ?b ?C] =>
      let H := fresh "Hinv" in
      assert (H : consistent (snd (self_stop t a b C)));
      [ apply stop_ok
      | destruct (self_stop t a b C) as [[[] | ?] ?]; cbn [snd] in H; js_cbn ]
  end.

Lemma consistent__webSocketClosed code reason closedByRemote :
  preserves consistent (_webSocketClosed this code reason closedByRemote).
Proof.
  intros c Hc. explode c. unfold _webSocketClosed. js.
  destruct c_hasHandledWebSocketClose; js_cbn; [exact Hc |].
  destruct c_connectTimeoutTimer as [k |]; js_cbn;
    (destruct c_started; js_cbn;
     [ destruct c_reconnect; js_cbn;
       [ destruct (c_reconnectDelayCallback c_reconnectCounter) as [delay | e];
         js_cbn;
         [ destruct c_reconnectTimer as [h |]; js_cbn | ]
       | ]
     | ]).
  all: repeat (through_self;
               [first [assumption | solve [close_consistent Hc]] | ..]).
  all: try assumption.
  all: try solve [close_consistent Hc].
Qed.

Lemma consistent_closeConnection code reason :
  preserves consistent (closeConnection this code reason).
Proof.
  pose proof consistent__webSocketClosed.
  unfold closeConnection, activeWebSocket_close.
  repeat preserves_step; first [assumption | same_timers | apply H].
Qed.

Lemma stop_in_two this' code reason c :
  stop this' code reason c
  = (_ <- closeConnection this' code reason ;; ret tt)
      (snd ((assign (set_started false) ;; _clearReconnectTimer ;;
             rpc_stopPinging) c)).
Proof.
  unfold stop. generalize (closeConnection this' code reason). intros m.
  unfold _clearReconnectTimer. js.
  destruct (reconnectTimer (private c)); reflexivity.
Qed.

Lemma consistent_stop code reason :
  preserves consistent (stop this code reason).
Proof.
  intros c Hc. rewrite stop_in_two.
  apply (preserves_bind consistent (closeConnection this code reason)
           (fun _ => ret tt));
    [apply consistent_closeConnection | intros; apply preserves_ret |].
  clear emit_ok stop_ok. explode c. unfold _clearReconnectTimer. js.
  destruct c_reconnectTimer as [h |]; js_cbn; close_consistent Hc.
Qed.
Lemma consistent_call f : preserves consistent (call this f).
Proof.
  pose proof consistent_start. pose proof consistent_stop.
  pose proof consistent_closeConnection.
  destruct f; unfold call, stop_default; repeat preserves_step; auto.
Qed.

Lemma consistent_emit ev : preserves consistent (emit this ev).
Proof.
  pose proof consistent_call.
  unfold emit. repeat preserves_step; first [solve [auto] | same_timers].
Qed.

Lemma consistent_fire handle : preserves consistent (fire this handle).
Proof.
  pose proof consistent__connect. pose proof consistent_closeConnection.
  unfold fire. repeat preserves_step; try same_timers.
  - apply consistent_fired. assumption.
  - destruct (timer_callback t);
      unfold run_timer, _handleConnectionTimeout, isActive;
      repeat preserves_step; auto.
Qed.

(** the transport's [open]: JSONBird is resumed and the pings restart on a
    transport that is the active one *)
Lemma consistent_open webSocket :
  preserves consistent (webSocket_on_open this webSocket).
Proof.
  intros c Hc. explode c.
  unfold webSocket_on_open, _wrapListener, _handleWebSocketOpen. js.
  destruct c_activeWebSocket as [active |]; js_cbn; [| exact Hc].
  destruct (Nat.eqb active webSocket); js_cbn; [| exact Hc].
  destruct c_connectTimeoutTimer as [k |]; js_cbn;
    (destruct c_reconnectTimer as [h |]; js_cbn).
  all: repeat (through_self;
               [first [assumption | solve [close_consistent Hc]] | ..]).
  all: try assumption.
Qed.

Lemma consistent_step input : preserves consistent (step this input).
Proof.
  pose proof consistent_start. pose proof consistent_stop.
  pose proof consistent_closeConnection. pose proof consistent_fire.
  pose proof consistent__webSocketClosed. pose proof consistent_open.
  destruct input; cbn [step];
    unfold stop_default, setter_url, setter_reconnect,
      setter_consecutivePingFailClose, setter_connectTimeout,
      setter_reconnectCounterMax, setter_timeoutCloseCode,
      setter_internalErrorCloseCode, setter_createConnectionCallback,
      setter_reconnectDelayCallback, webSocket_on_error,
      webSocket_on_close, webSocket_on_message, rpc_on_error,
      rpc_on_protocolError, rpc_on_pingSuccess, rpc_on_pingFail, rpc_on_data,
      _wrapListener, _handleWebSocketError, _handleWebSocketClose,
      _handleWebSocketMessage, _handleRpcError, _handleRpcPingSuccess,
      _handleRpcPingFail, _handleRpcData, webSocket_becomes, isActive,
      rpc_write, activeWebSocket_send;
    repeat preserves_step; first [solve [auto] | same_timers].
Qed.
End Consistent.

Lemma consistent_this_at depth : self_preserves consistent (this_at depth).
Proof.
  induction depth as [| depth IH]; split; simpl; intros.
  - apply preserves_throw.
  - apply preserves_throw.
  - apply consistent_emit, IH.
  - apply consistent_stop, IH.
Qed.


(** a new client is consistent, whatever listeners are registered on it *)
Lemma consistent_new options c registered :
  new_WebSocketClient options = Ok c ->
  consistent (set_listeners registered c).
Proof.
  unfold new_WebSocketClient, constructor.
  unfold setter_url, setter_createConnectionCallback, setter_reconnect,
    setter_reconnectDelayCallback, setter_reconnectCounterMax,
    setter_connectTimeout, setter_consecutivePingFailClose,
    setter_timeoutCloseCode, setter_internalErrorCloseCode.
  js.
  destruct (isValidOutgoingCloseCode (opt_timeoutCloseCode options)); js_cbn;
    [| discriminate].
  destruct (isValidOutgoingCloseCode (opt_internalErrorCloseCode options));
    js_cbn; [| discriminate].
  intros H. injection H as <-.
  unfold consistent, timersHeld, idleWithoutTransport, reconnectAwaited,
    timersKnown. cbn.
  repeat split; intros; try discriminate.
  destruct handle; discriminate.
Qed.

Lemma reachable_run depth inputs c :
  reachable c -> reachable (run (this_at depth) inputs c).
Proof.
  revert c. induction inputs as [| input inputs IH]; intros c Hc; cbn [run].
  - exact Hc.
  - apply IH, reachable_step, Hc.
Qed.

Lemma reachable_consistent c : reachable c -> consistent c.
Proof.
  induction 1 as [options c Hnew | name listener c _ IH | registered c _ IH
                  | depth input c _ IH].
  - pose proof (consistent_new options c (listeners c) Hnew) as H.
    exact H.
  - exact IH.
  - exact IH.
  - apply consistent_step; [apply consistent_this_at | exact IH].
Qed.

Lemma codesValid_this_at depth : self_preserves codesValid (this_at depth).
Proof. apply preserves_this_at; intros; assumption. Qed.

Lemma codesValid_step depth input :
  preserves codesValid (step (this_at depth) input).
Proof.
  pose proof (codesValid_this_at depth) as Hthis.
  destruct (isSetter input) eqn:Hsetter.
  - intros c [Htimeout Hinternal].
    destruct input; try discriminate; cbn [step];
      try (split; assumption).
    + unfold setter_timeoutCloseCode, assertValidOutgoingCloseCode, bind.
      destruct (isValidOutgoingCloseCode value) eqn:Hvalue; cbn;
        split; assumption.
    + unfold setter_internalErrorCloseCode, assertValidOutgoingCloseCode, bind.
      destruct (isValidOutgoingCloseCode value) eqn:Hvalue; cbn;
        split; assumption.
  - destruct (isOpen input) eqn:Hopen.
    + destruct input; try discriminate.
      apply preserves_step_open; try exact Hthis; intros; assumption.
    + apply preserves_step_input; try exact Hthis; try assumption;
        intros; assumption.
Qed.

Lemma reachable_codesValid c : reachable c -> codesValid c.
Proof.
  induction 1 as [options c Hnew | name listener c _ IH | registered c _ IH
                  | depth input c _ IH].
  - destruct (new_client options c Hnew) as (H1 & H2 & Hp & _).
    unfold codesValid. rewrite Hp. split; assumption.
  - exact IH.
  - exact IH.
  - apply codesValid_step, IH.
Qed.







Lemma connectingCount_app l l' :
  connectingCount (l ++ l') = (connectingCount l + connectingCount l')%nat.
Proof. unfold connectingCount. rewrite filter_app, length_app. reflexivity. Qed.

Lemma connectingCount_snoc_connecting l :
  connectingCount (l ++ [webSocketConnecting]) = S (connectingCount l).
Proof.
  rewrite connectingCount_app. unfold connectingCount at 2. simpl. lia.
Qed.

Lemma connectingCount_snoc_other l ev :
  isConnecting ev = false -> connectingCount (l ++ [ev]) = connectingCount l.
Proof.
  intros H. rewrite connectingCount_app. unfold connectingCount at 2. simpl.
  rewrite H. simpl. lia.
Qed.

Ltac count_events :=
  rewrite ?connectingCount_snoc_connecting, ?closeCount_snoc_close;
  rewrite ?connectingCount_snoc_other by reflexivity;
  rewrite ?closeCount_snoc_other by reflexivity.

Lemma orderly_emit this ev :
  isConnecting ev = false -> isClose ev = false ->
  preserves orderly (emit this ev).
Proof.
  intros Hconnecting Hclose c (Hq & Hfresh & Hb & Hacc).
  rewrite emit_quiet_state by exact Hq.
  split; [exact Hq |]. split; [exact Hfresh |]. split; [exact Hb |].
  unfold sessionsAccounted in *. cbn [emitted set_emitted private].
  rewrite connectingCount_snoc_other, closeCount_snoc_other by assumption.
  exact Hacc.
Qed.

Ltac orderly_facts Hfresh Hb Hacc :=
  unfold freshSession, sessionsAccounted in Hfresh, Hacc;
  cbn [private emitted activeWebSocket hasHandledWebSocketClose
       reconnectDelayCallback isSome] in Hfresh, Hb, Hacc.

Ltac open_orderly Hq :=
  unfold orderly, freshSession, sessionsAccounted;
  cbn [private rpc emitted set_emitted set_private set_rpc set_sockets
       set_delayCalls activeWebSocket hasHandledWebSocketClose
       reconnectDelayCallback set_started set_activeWebSocket
       set_reconnectTimer set_connectTimeoutTimer
       set_hasHandledWebSocketClose set_reconnectCounter isSome];
  count_events;
  repeat split; try exact Hq; try assumption; try discriminate;
  try reflexivity; try lia.

Lemma orderly__connect depth :
  preserves orderly (_connect (this_at (S depth))).
Proof.
  intros c Hc. explode c. unfold _connect. js.
  destruct c_started; js_cbn; [| exact Hc].
  destruct c_activeWebSocket as [webSocket |]; js_cbn; [exact Hc |].
  destruct Hc as (Hq & Hfresh & Hb & Hacc). orderly_facts Hfresh Hb Hacc.
  destruct c_reconnectTimer as [h |]; js_cbn;
    (destruct (c_createConnectionCallback c_url) as [[] | e]; js_cbn;
     [ rewrite emit_quiet_state by exact Hq | ]; open_orderly Hq).
Qed.

Lemma orderly_start depth : preserves orderly (start (this_at (S depth))).
Proof.
  pose proof (orderly__connect depth).
  unfold start. repeat preserves_step;
    first [assumption | match goal with H : orderly _ |- orderly _ => exact H end].
Qed.

(** handling the close of the active transport *)
Lemma orderly__webSocketClosed depth code reason closedByRemote c :
  orderly c ->
  activeWebSocket (private c) <> None ->
  orderly (snd (_webSocketClosed (this_at (S depth)) code reason
                  closedByRemote c)).
Proof.
  intros (Hq & Hfresh & Hb & Hacc) Hactive. explode c.
  cbn in Hactive.
  destruct c_activeWebSocket as [webSocket |]; [| contradiction].
  orderly_facts Hfresh Hb Hacc.
  unfold _webSocketClosed. js.
  destruct c_hasHandledWebSocketClose; js_cbn;
    [specialize (Hfresh eq_refl); discriminate |].
  destruct (Hb c_reconnectCounter) as [delay Hdelay].
  destruct c_connectTimeoutTimer as [k |]; js_cbn;
    (destruct c_started; js_cbn;
     [ destruct c_reconnect; js_cbn;
       [ rewrite Hdelay; js_cbn; destruct c_reconnectTimer as [h |]; js_cbn
       | destruct c_reconnectTimer as [h |]; js_cbn ]
     | destruct c_reconnectTimer as [h |]; js_cbn ]);
    rewrite emit_quiet by (exact Hq || reflexivity); js_cbn;
    open_orderly Hq.
Qed.

Ltac same_orderly :=
  match goal with
  | H : orderly _ |- orderly _ => exact H
  end.

Lemma orderly_closeConnection depth code reason :
  preserves orderly (closeConnection (this_at (S depth)) code reason).
Proof.
  intros c Hc.
  destruct (isValidOutgoingCloseCode code) eqn:Hcode.
  - destruct (activeWebSocket (private c)) as [webSocket |] eqn:Hactive.
    + rewrite (closeConnection_active _ code reason c webSocket Hcode Hactive).
      cbn [snd]. apply orderly__webSocketClosed; [exact Hc |].
      cbn. rewrite Hactive. discriminate.
    + unfold closeConnection, assertValidOutgoingCloseCode, bind, get, ret.
      rewrite Hcode, Hactive. exact Hc.
  - unfold closeConnection, assertValidOutgoingCloseCode, bind, throw.
    rewrite Hcode. exact Hc.
Qed.

Lemma orderly_stop depth code reason :
  preserves orderly (stop (this_at (S depth)) code reason).
Proof.
  pose proof (orderly_closeConnection depth).
  unfold stop, _clearReconnectTimer, rpc_clearTimeout, rpc_stopPinging.
  repeat preserves_step; first [assumption | same_orderly | apply H].
Qed.

Lemma orderly_fire depth handle :
  preserves orderly (fire (this_at (S depth)) handle).
Proof.
  pose proof (orderly__connect depth).
  pose proof (orderly_closeConnection depth).
  unfold fire. repeat preserves_step; try same_orderly.
  destruct (timer_callback t);
    unfold run_timer, _handleConnectionTimeout, isActive;
    repeat preserves_step; auto.
Qed.

(** the close of a transport, handled when the transport is the active
    one *)
Lemma orderly_close depth webSocket code reason :
  preserves orderly
    (active <- isActive webSocket ;;
     when active (_handleWebSocketClose (this_at (S depth)) code reason)).
Proof.
  intros c Hc. unfold isActive, bind, get, ret.
  destruct (activeWebSocket (private c)) as [active |] eqn:Hactive;
    [| exact Hc].
  destruct (Nat.eqb active webSocket); [| exact Hc].
  cbn [when]. unfold _handleWebSocketClose.
  apply orderly__webSocketClosed; [exact Hc |]. rewrite Hactive. discriminate.
Qed.

Lemma orderly_step depth input :
  keepsBackoff input ->
  preserves orderly (step (this_at (S depth)) input).
Proof.
  pose proof (orderly_start depth). pose proof (orderly_stop depth).
  pose proof (orderly_closeConnection depth). pose proof (orderly_fire depth).
  pose proof (orderly_close depth).
  intros Hkeep.
  destruct input; cbn [step keepsBackoff] in *;
    unfold stop_default, setter_url, setter_reconnect,
      setter_consecutivePingFailClose, setter_connectTimeout,
      setter_reconnectCounterMax, setter_timeoutCloseCode,
      setter_internalErrorCloseCode, setter_createConnectionCallback,
      setter_reconnectDelayCallback, webSocket_on_open, webSocket_on_error,
      webSocket_on_close, webSocket_on_message, rpc_on_error,
      rpc_on_protocolError, rpc_on_pingSuccess, rpc_on_pingFail, rpc_on_data,
      _wrapListener, _handleWebSocketOpen, _handleWebSocketError,
      _handleWebSocketMessage, _handleRpcError,
      _handleRpcPingSuccess, _handleRpcPingFail, _handleRpcData,
      webSocket_becomes, rpc_write, activeWebSocket_send,
      _clearReconnectTimer, _clearConnectTimeoutTimer, rpc_clearTimeout,
      rpc_resume, rpc_set_pingInterval, rpc_resetPingStatistics,
      rpc_startPinging;
    cbn [this_at self_emit];
    repeat first
      [ apply H3
      | preserves_step
      | progress unfold isActive ];
    first [ solve [auto]
          | same_orderly
          | apply orderly_emit; reflexivity
          | idtac ].
  match goal with
  | Hc : orderly _ |- _ => destruct Hc as (Hq & Hfresh & _ & Hacc)
  end.
  split; [exact Hq |]. split; [exact Hfresh |]. split; [exact Hkeep |].
  exact Hacc.
Qed.

Lemma orderly_run depth inputs c :
  Forall keepsBackoff inputs ->
  orderly c -> orderly (run (this_at (S depth)) inputs c).
Proof.
  revert c. induction inputs as [| input inputs IH]; intros c Hall Hc;
    cbn [run].
  - exact Hc.
  - inversion Hall; subst. apply IH; [assumption |].
    apply orderly_step; assumption.
Qed.

(** * Further properties of the class *)

(** X2. For options of the types the class documents (a string, a boolean,
    integers, and two callbacks that are functions: the coercions of the
    setters and their "must be a function" checks are outside the model),
    [new WebSocketClient(options)] throws exactly when one of the two close
    codes of the options is refused, with the error of [timeoutCloseCode]
    when both are (its setter runs first). Otherwise it returns a client that
    holds the options as its settings, is not started, has no transport, no
    timer, a reconnect counter of 0 and nothing emitted, and whose JSONBird
    instance is paused: [hasActiveConnection] is false. *)
Theorem constructor_checks_the_close_codes :
  forall options : Options,
    (isValidOutgoingCloseCode (opt_timeoutCloseCode options) = false ->
     new_WebSocketClient options
     = Throw (InvalidCloseCode "Invalid value for timeoutCloseCode:"
                (opt_timeoutCloseCode options))) /\
    (isValidOutgoingCloseCode (opt_timeoutCloseCode options) = true ->
     isValidOutgoingCloseCode (opt_internalErrorCloseCode options) = false ->
     new_WebSocketClient options
     = Throw (InvalidCloseCode "Invalid value for internalErrorCloseCode:"
                (opt_internalErrorCloseCode options))) /\
    (isValidOutgoingCloseCode (opt_timeoutCloseCode options) = true ->
     isValidOutgoingCloseCode (opt_internalErrorCloseCode options) = true ->
     exists c,
       new_WebSocketClient options = Ok c /\
       url (private c) = opt_url options /\
       createConnectionCallback (private c)
         = opt_createConnectionCallback options /\
       reconnect (private c) = opt_reconnect options /\
       reconnectDelayCallback (private c)
         = opt_reconnectDelayCallback options /\
       reconnectCounterMax (private c) = opt_reconnectCounterMax options /\
       connectTimeout (private c) = opt_connectTimeout options /\
       consecutivePingFailClose (private c)
         = opt_consecutivePingFailClose options /\
       timeoutCloseCode (private c) = opt_timeoutCloseCode options /\
       internalErrorCloseCode (private c)
         = opt_internalErrorCloseCode options /\
       started (private c) = false /\
       activeWebSocket (private c) = None /\
       reconnectCounter (private c) = 0 /\
       hasHandledWebSocketClose (private c) = false /\
       reconnectTimer (private c) = None /\
       connectTimeoutTimer (private c) = None /\
       isPaused (rpc c) = true /\
       isSendingPings (rpc c) = false /\
       timers (rpc c) = [] /\
       sockets c = [] /\
       emitted c = [] /\
       hasActiveConnection c = false).
Proof.
  intros options. unfold new_WebSocketClient, constructor.
  unfold setter_url, setter_createConnectionCallback, setter_reconnect,
    setter_reconnectDelayCallback, setter_reconnectCounterMax,
    setter_connectTimeout, setter_consecutivePingFailClose,
    setter_timeoutCloseCode, setter_internalErrorCloseCode.
  js.
  destruct (isValidOutgoingCloseCode (opt_timeoutCloseCode options)); js_cbn.
  - destruct (isValidOutgoingCloseCode (opt_internalErrorCloseCode options));
      js_cbn.
    + split; [discriminate | split; [discriminate |]].
      intros _ _. eexists. split; [reflexivity |].
      repeat split.
    + split; [discriminate | split; [reflexivity | discriminate]].
  - split; [reflexivity | split; discriminate].
Qed.

(** the default options are accepted *)
Lemma constructor_checks_the_close_codes_witness :
  exists c,
    new_WebSocketClient
      (DEFAULT_OPTIONS (fun _ => Ok tt) (fun x => Ok (2 ^ x * 100))) = Ok c /\
    timeoutCloseCode (private c) = Int 4100 /\
    hasActiveConnection c = false.
Proof.
  destruct (proj2 (proj2 (constructor_checks_the_close_codes
                            (DEFAULT_OPTIONS (fun _ => Ok tt)
                               (fun x => Ok (2 ^ x * 100)))))
              eq_refl eq_refl) as (c & Hnew & Hrest).
  exists c. split; [exact Hnew |]. split; [apply Hrest | apply Hrest].
Defined.

(** X3. An event of a transport that is not the active one is ignored: its
    [error] and [message] leave the client exactly as it was, its [open] and
    [close] change nothing but the [readyState] the transport itself has set,
    and the connect-timeout closure of such a transport does nothing. None of
    them throws or emits, whatever the listeners and at any depth of
    stack. *)
Theorem stale_transport_is_ignored :
  forall (this : Self) (c : Client) (webSocket : nat) (code : JsNumber)
         (reason data : string) (connectTimeout : Z),
    activeWebSocket (private c) <> Some webSocket ->
    step this (webSocket_error webSocket) c = (Ok tt, c) /\
    step this (webSocket_message webSocket data) c = (Ok tt, c) /\
    step this (webSocket_open webSocket) c
    = (Ok tt, set_sockets
                (nth_update webSocket (set_readyState OPEN) (sockets c)) c) /\
    step this (webSocket_close webSocket code reason) c
    = (Ok tt, set_sockets
                (nth_update webSocket (set_readyState CLOSED) (sockets c)) c) /\
    run_timer this (connectTimeoutTimer_callback webSocket connectTimeout) c
    = (Ok tt, c).
Proof.
  intros this c webSocket code reason data connectTimeout Hstale.
  assert (Hguard : match activeWebSocket (private c) with
                   | Some active => Nat.eqb active webSocket
                   | None => false
                   end = false).
  { destruct (activeWebSocket (private c)) as [active |]; [| reflexivity].
    apply Nat.eqb_neq. intros ->. apply Hstale. reflexivity. }
  cbn [step run_timer].
  unfold webSocket_on_error, webSocket_on_message, webSocket_on_open,
    webSocket_on_close, _wrapListener, webSocket_becomes, isActive, when,
    try_catch, bind, get, modify, ret.
  cbn [fst snd private set_sockets]. rewrite Hguard.
  repeat split.
Qed.

(** the first transport timed out and the second one is active: a late
    message of the first *)
Lemma stale_transport_is_ignored_witness :
  let c := run (this_at 3) [do_start; timer_fires 0; timer_fires 1]
             example_client in
  activeWebSocket (private c) = Some 1%nat /\
  step (this_at 3) (webSocket_message 0 "late") c = (Ok tt, c).
Proof.
  split; [reflexivity |].
  refine (proj1 (proj2 (stale_transport_is_ignored (this_at 3)
            (run (this_at 3) [do_start; timer_fires 0; timer_fires 1]
               example_client)
            0 (Int 1000) "gone" "late" 0 _))).
  vm_compute. discriminate.
Defined.

(** X4. What JSONBird is given to read is, in order, the data of the
    messages that arrived on the transport that was the active one when they
    arrived: each such message is written once, messages of other transports
    are dropped, and nothing else the class does, at any depth of stack and
    whatever the listeners do, writes to JSONBird. *)
Theorem messages_reach_JSONBird_in_order :
  forall (depth : nat) (inputs : list Input) (c : Client),
    written (rpc (run (this_at depth) inputs c))
    = written (rpc c) ++ incoming (this_at depth) inputs c.
Proof.
  intros depth inputs. induction inputs as [| input inputs IH]; intros c;
    cbn [run incoming].
  - symmetry. apply app_nil_r.
  - rewrite IH, written_step, app_assoc. reflexivity.
Qed.

(** X5. What is sent on a transport is, in order, the data JSONBird handed
    over while that transport was the active one and was open: each such
    chunk is sent once, on that transport only; data handed over at any other
    moment is not sent, and nothing else the class does, at any depth of
    stack and whatever the listeners do, sends on a transport. *)
Theorem data_is_sent_on_the_open_active_transport :
  forall (depth : nat) (webSocket : nat) (inputs : list Input) (c : Client),
    sentOn webSocket (run (this_at depth) inputs c)
    = sentOn webSocket c ++ outgoing (this_at depth) webSocket inputs c.
Proof.
  intros depth webSocket inputs.
  induction inputs as [| input inputs IH]; intros c; cbn [run outgoing].
  - symmetry. apply app_nil_r.
  - rewrite IH, sentOn_step, app_assoc. reflexivity.
Qed.

(** X6. JSONBird's [data] with an active transport that is open is sent on
    that transport and changes nothing else. With no active transport, or
    with one that is not open, nothing is sent: the assertion of
    [_handleRpcData] fails, the wrapper emits the failure as an [error]
    event, and the handler returns when somebody listens to [error] (quiet
    listeners) and throws the failure when nobody does. *)
Theorem outgoing_data_needs_an_open_transport :
  forall (depth : nat) (c : Client) (data : string),
    (forall webSocket,
       activeWebSocket (private c) = Some webSocket ->
       webSocket_readyState c webSocket = Some OPEN ->
       step (this_at depth) (rpc_data data) c
       = (Ok tt,
          set_sockets
            (nth_update webSocket
               (fun w => set_send_args (send_args w ++ [data]) w)
               (sockets c)) c)) /\
    (quiet c ->
     activeWebSocket (private c) = None ->
     step (this_at (S depth)) (rpc_data data) c
     = (match listeners c on_error with
        | [] => Throw (AssertionFailed
                         "_handleRpcData(): Expected an active connection")
        | _ :: _ => Ok tt
        end,
        set_emitted
          (emitted c ++
           [error (AssertionFailed
                     "_handleRpcData(): Expected an active connection")]) c)) /\
    (quiet c ->
     forall webSocket,
       activeWebSocket (private c) = Some webSocket ->
       webSocket_readyState c webSocket <> Some OPEN ->
       step (this_at (S depth)) (rpc_data data) c
       = (match listeners c on_error with
          | [] => Throw (AssertionFailed
                           "_handleRpcData(): Expected an open connection")
          | _ :: _ => Ok tt
          end,
          set_emitted
            (emitted c ++
             [error (AssertionFailed
                       "_handleRpcData(): Expected an open connection")]) c)).
Proof.
  intros depth c data. split; [| split].
  - intros webSocket Hactive Hopen. cbn [step].
    unfold rpc_on_data, _wrapListener, _handleRpcData, try_catch.
    rewrite bind_get, Hactive, Hopen. reflexivity.
  - intros Hq Hactive. cbn [step].
    unfold rpc_on_data, _wrapListener, _handleRpcData, try_catch.
    rewrite bind_get, Hactive. cbn [isSome assert bind throw this_at self_emit].
    unfold bind, throw. apply emit_error_quiet, Hq.
  - intros Hq webSocket Hactive Hopen. cbn [step].
    unfold rpc_on_data, _wrapListener, _handleRpcData, try_catch.
    rewrite bind_get, Hactive.
    assert (Hnot : match webSocket_readyState c webSocket with
                   | Some state => ReadyState_eqb state OPEN
                   | None => false
                   end = false).
    { destruct (webSocket_readyState c webSocket) as [[] |];
        try reflexivity. contradiction Hopen. reflexivity. }
    rewrite Hnot. cbn [isSome assert this_at self_emit].
    unfold bind, throw, ret. apply emit_error_quiet, Hq.
Qed.

(** data handed over on an open transport, and before the transport is
    open *)
Lemma outgoing_data_needs_an_open_transport_witness :
  sentOn 0
    (snd (step (this_at 3) (rpc_data "ping")
            (run (this_at 3) [do_start; webSocket_open 0] example_client)))
  = ["ping"] /\
  fst (step (this_at 3) (rpc_data "ping")
         (run (this_at 3) [do_start] example_client))
  = Throw (AssertionFailed "_handleRpcData(): Expected an open connection").
Proof.
  split.
  - rewrite (proj1 (outgoing_data_needs_an_open_transport 3
               (run (this_at 3) [do_start; webSocket_open 0] example_client)
               "ping") 0%nat eq_refl eq_refl).
    reflexivity.
  - rewrite (proj2 (proj2 (outgoing_data_needs_an_open_transport 2
               (run (this_at 3) [do_start] example_client) "ping"))
               (quiet_run 3 [do_start] example_client example_client_quiet)
               0%nat eq_refl).
    + reflexivity.
    + vm_compute. discriminate.
Defined.





(** X9. In every state a client can reach, whatever its listeners and
    callbacks do: while no transport is active, JSONBird is paused (outgoing
    calls are queued) and sends no pings, and [hasActiveConnection] is
    false. *)
Theorem without_transport_JSONBird_is_paused :
  forall (c : Client),
    reachable c ->
    activeWebSocket (private c) = None ->
    isPaused (rpc c) = true /\
    isSendingPings (rpc c) = false /\
    hasActiveConnection c = false.
Proof.
  intros c Hreach Hnone.
  destruct (reachable_consistent c Hreach) as (_ & HB & _).
  destruct (HB Hnone) as (_ & Hp & Hs).
  repeat split; try assumption. apply paused_inactive. exact Hp.
Qed.

Lemma without_transport_JSONBird_is_paused_witness :
  let c := run (this_at 3)
             [do_start; webSocket_open 0; webSocket_close 0 (Int 1006) "gone"]
             example_client in
  isPaused (rpc c) = true /\
  isSendingPings (rpc c) = false /\
  hasActiveConnection c = false.
Proof.
  refine (without_transport_JSONBird_is_paused
            (run (this_at 3)
               [do_start; webSocket_open 0;
                webSocket_close 0 (Int 1006) "gone"] example_client) _ _).
  - apply reachable_run, (reachable_new example_options). reflexivity.
  - reflexivity.
Defined.

(** X10. In every state a client can reach, [timeoutCloseCode] and
    [internalErrorCloseCode] are integers that [closeConnection] accepts
    (1000, or 3000 to 4999): the constructor and the two setters refuse any
    other value and nothing else assigns them, so the closes the class makes
    on a timeout and on an internal error are never refused for their
    code. *)
Theorem close_codes_stay_valid :
  forall (c : Client),
    reachable c ->
    exists timeout internal : Z,
      timeoutCloseCode (private c) = Int timeout /\
      (timeout = 1000 \/ 3000 <= timeout <= 4999) /\
      internalErrorCloseCode (private c) = Int internal /\
      (internal = 1000 \/ 3000 <= internal <= 4999).
Proof.
  intros c Hreach. destruct (reachable_codesValid c Hreach) as [H1 H2].
  destruct (timeoutCloseCode (private c)) as [timeout |]; [| discriminate].
  destruct (internalErrorCloseCode (private c)) as [internal |];
    [| discriminate].
  exists timeout, internal.
  split; [reflexivity |]. split; [apply isValidOutgoingCloseCode_Int, H1 |].
  split; [reflexivity | apply isValidOutgoingCloseCode_Int, H2].
Qed.

Lemma close_codes_stay_valid_witness :
  let c := run (this_at 3)
             [do_set_timeoutCloseCode (Int 5); do_set_timeoutCloseCode (Int 3001);
              do_set_internalErrorCloseCode NotInteger]
             example_client in
  exists timeout internal : Z,
    timeoutCloseCode (private c) = Int timeout /\
    (timeout = 1000 \/ 3000 <= timeout <= 4999) /\
    internalErrorCloseCode (private c) = Int internal /\
    (internal = 1000 \/ 3000 <= internal <= 4999).
Proof.
  refine (close_codes_stay_valid
            (run (this_at 3)
               [do_set_timeoutCloseCode (Int 5);
                do_set_timeoutCloseCode (Int 3001);
                do_set_internalErrorCloseCode NotInteger] example_client) _).
  apply reachable_run, (reachable_new example_options). reflexivity.
Defined.







(** X14. Provided the transport factory and the backoff callback never call
    the client: in every state a client can reach in which its listeners are
    quiet, JSONBird's [pingFail] below [consecutivePingFailClose], or with no
    active transport, only forwards the event. At or above the threshold,
    with an active transport whose close has not been handled (and a backoff
    callback that returns for the counter), [close] is called on that
    transport with [timeoutCloseCode] and the reason "Timeout: No responses
    received to ping calls", the transport is no longer active, and
    [webSocketClose] is emitted before [pingFail] is forwarded. *)
Theorem ping_failures_close_at_the_threshold :
  forall (depth : nat) (c : Client) (consecutiveFails : Z) (err : Error),
    reachable c ->
    quiet c ->
    let this := this_at (S depth) in
    let c' := snd (step this (rpc_pingFail consecutiveFails err) c) in
    (consecutiveFails < consecutivePingFailClose (private c)
       \/ activeWebSocket (private c) = None ->
     step this (rpc_pingFail consecutiveFails err) c
     = (Ok tt,
        set_emitted (emitted c ++ [pingFail consecutiveFails err]) c)) /\
    (forall webSocket,
       consecutivePingFailClose (private c) <= consecutiveFails ->
       activeWebSocket (private c) = Some webSocket ->
       hasHandledWebSocketClose (private c) = false ->
       backoffReturns c ->
       fst (step this (rpc_pingFail consecutiveFails err) c) = Ok tt /\
       sockets c'
         = sockets (closed_on webSocket (timeoutCloseCode (private c))
                      "Timeout: No responses received to ping calls" c) /\
       activeWebSocket (private c') = None /\
       exists info,
         emitted c'
           = emitted c ++ [webSocketClose info;
                           pingFail consecutiveFails err] /\
         closedByUs (timeoutCloseCode (private c))
           "Timeout: No responses received to ping calls" info).
Proof.
  intros depth c consecutiveFails err Hreach Hq this c'.
  destruct (reachable_codesValid c Hreach) as [Hcode _].
  destruct (rpc_pingFail_quiet depth c consecutiveFails err Hq)
    as (Hbelow & Hnone & Hclose).
  split.
  - intros [Hlt | Hactive]; [apply Hbelow; exact Hlt |].
    destruct (Z.lt_ge_cases consecutiveFails
                (consecutivePingFailClose (private c))) as [Hlt | Hge].
    + apply Hbelow; exact Hlt.
    + apply Hnone; assumption.
  - intros webSocket Hge Hactive Hh Hb.
    apply (Hclose Hge Hcode webSocket Hactive Hh Hb).
Qed.

(** the unit test: the fourth failed ping in a row closes the connection,
    the third one does not *)
Lemma ping_failures_close_at_the_threshold_witness :
  let c := run (this_at 3) [do_start; webSocket_open 0] example_client in
  activeWebSocket
    (private (snd (step (this_at 3) (rpc_pingFail 4 (Thrown 0)) c))) = None /\
  activeWebSocket
    (private (snd (step (this_at 3) (rpc_pingFail 3 (Thrown 0)) c)))
  = Some 0%nat.
Proof.
  split.
  - refine (proj1 (proj2 (proj2 (proj2 (ping_failures_close_at_the_threshold 2
              (run (this_at 3) [do_start; webSocket_open 0] example_client)
              4 (Thrown 0) _ _) 0%nat _ eq_refl eq_refl
              (ex_intro _ 1111 eq_refl))))).
    + apply reachable_run, (reachable_new example_options). reflexivity.
    + apply quiet_run, example_client_quiet.
    + vm_compute. discriminate.
  - rewrite (proj1 (ping_failures_close_at_the_threshold 2
              (run (this_at 3) [do_start; webSocket_open 0] example_client)
              3 (Thrown 0)
              (reachable_run 3 _ _
                 (reachable_new example_options example_client eq_refl))
              (quiet_run 3 _ _ example_client_quiet))
              (or_introl eq_refl)).
    reflexivity.
Defined.

(** X15. Provided the transport factory and the backoff callback never call
    the client: in every state a client can reach in which its listeners are
    quiet, JSONBird's [error] closes the active transport, when the close of
    that transport has not been handled, before the error is forwarded.
    [close] is called on the transport with [internalErrorCloseCode] and the
    reason "Internal JSON-RPC error" (the backoff callback returning for the
    counter), [webSocketClose] is emitted, and then the [error] event. With
    no transport the error is only forwarded. The forwarded [error] is thrown
    to JSONBird when nobody listens to it, as [emit] does, and by then the
    transport is closed. *)
Theorem rpc_error_closes_then_is_forwarded :
  forall (depth : nat) (c : Client) (err : Error),
    reachable c ->
    quiet c ->
    let this := this_at (S depth) in
    let c' := snd (step this (rpc_error err) c) in
    (activeWebSocket (private c) = None ->
     step this (rpc_error err) c
     = (match listeners c on_error with
        | [] => Throw err
        | _ :: _ => Ok tt
        end,
        set_emitted (emitted c ++ [error err]) c)) /\
    (forall webSocket,
       activeWebSocket (private c) = Some webSocket ->
       hasHandledWebSocketClose (private c) = false ->
       backoffReturns c ->
       fst (step this (rpc_error err) c)
         = match listeners c on_error with
           | [] => Throw err
           | _ :: _ => Ok tt
           end /\
       sockets c'
         = sockets (closed_on webSocket (internalErrorCloseCode (private c))
                      "Internal JSON-RPC error" c) /\
       activeWebSocket (private c') = None /\
       exists info,
         emitted c' = emitted c ++ [webSocketClose info; error err] /\
         closedByUs (internalErrorCloseCode (private c))
           "Internal JSON-RPC error" info).
Proof.
  intros depth c err Hreach Hq this c'.
  destruct (reachable_codesValid c Hreach) as [_ Hcode].
  destruct (rpc_error_quiet depth c err Hq Hcode) as (Hnone & Hclose).
  split; [exact Hnone |].
  intros webSocket Hactive Hh Hb.
  apply (Hclose webSocket Hactive Hh Hb).
Qed.

(** nobody listens to [error]: the error is thrown, and the transport has
    been closed with code 4101 *)
Lemma rpc_error_closes_then_is_forwarded_witness :
  let c := run (this_at 3) [do_start; webSocket_open 0] example_client in
  let c' := snd (step (this_at 3) (rpc_error (Thrown 9)) c) in
  fst (step (this_at 3) (rpc_error (Thrown 9)) c) = Throw (Thrown 9) /\
  option_map close_args (nth_error (sockets c') 0)
  = Some [(Int 4101, "Internal JSON-RPC error")].
Proof.
  pose proof (proj2 (rpc_error_closes_then_is_forwarded 2
            (run (this_at 3) [do_start; webSocket_open 0] example_client)
            (Thrown 9)
            (reachable_run 3 _ _
               (reachable_new example_options example_client eq_refl))
            (quiet_run 3 _ _ example_client_quiet))
            0%nat eq_refl eq_refl (ex_intro _ 1111 eq_refl)) as (H1 & H2 & _).
  cbv zeta. split.
  - rewrite H1. reflexivity.
  - rewrite H2. reflexivity.
Defined.





(** X18. On a new client whose listeners, registered before the history
    and left in place, are quiet, with a transport factory that never calls
    the client and a backoff callback that never calls the client and returns
    for every counter (the one of the options, and every one assigned later):
    after every history of calls and events the [webSocketClose] events
    emitted are as many as the [webSocketConnecting] events, less one while a
    transport is active: every transport that was announced and is no longer
    the active one has had its [webSocketClose], and no [webSocketClose] was
    emitted without a transport. *)
Theorem every_session_announced_is_closed_once :
  forall (depth : nat) (options : Options) (c0 : Client)
         (registered : EventName -> list Listener) (inputs : list Input),
    new_WebSocketClient options = Ok c0 ->
    quiet (set_listeners registered c0) ->
    backoffTotal (opt_reconnectDelayCallback options) ->
    Forall keepsBackoff inputs ->
    let c := run (this_at (S depth)) inputs (set_listeners registered c0) in
    connectingCount (emitted c)
    = (closeCount (emitted c)
       + (if isSome (activeWebSocket (private c)) then 1 else 0))%nat.
Proof.
  intros depth options c0 registered inputs Hnew Hq Hb Hall c.
  destruct (new_client options c0 Hnew) as (_ & _ & Hp & _ & _ & He & _).
  apply (orderly_run depth inputs (set_listeners registered c0) Hall).
  split; [exact Hq |].
  unfold freshSession, sessionsAccounted.
  cbn [private emitted set_listeners]. rewrite Hp, He. cbn.
  repeat split; try discriminate; try reflexivity. exact Hb.
Qed.

(** three connect attempts that time out and a fourth under way *)
Lemma every_session_announced_is_closed_once_witness :
  let c := run (this_at 3) (three_failed_connects ++ [timer_fires 5])
             (set_listeners (fun _ => []) example_client) in
  activeWebSocket (private c) = Some 3%nat /\
  connectingCount (emitted c)
  = (closeCount (emitted c)
     + (if isSome (activeWebSocket (private c)) then 1 else 0))%nat.
Proof.
  assert (Hq : quiet (set_listeners (fun _ => []) example_client))
    by (intros name listener ev Hin; destruct Hin).
  assert (Hb : backoffTotal (opt_reconnectDelayCallback example_options))
    by (intros x; eexists; reflexivity).
  assert (Hall : Forall keepsBackoff (three_failed_connects ++ [timer_fires 5]))
    by (repeat constructor).
  intros c. split; [vm_compute; reflexivity |].
  exact (every_session_announced_is_closed_once 2 example_options
           example_client (fun _ => [])
           (three_failed_connects ++ [timer_fires 5]) eq_refl Hq Hb Hall).
Defined.
